(** * AI voice detection: the detection pipeline of [model.py] and [main.py]

    A shallow embedding of the feature extractor ([extract_features]), the
    lazy model bootstrap ([initialize_model], [train_model]), the prediction
    path ([load_model], [predict_voice]) and the [/detect] endpoint
    ([detect]), followed by the properties the design document states about
    them.

    Python code that raises is embedded in a state-and-exception monad over a
    [world]: the flat file system the code reads and writes, the sources of
    uuids and of time, and a ghost log of the calls made (used only to state
    which stage was reached).  librosa, numpy, scikit-learn, pickle, base64,
    the clock and the operating system's answer to [open] are not the
    repository's: they are parameters of the development, and the few facts
    assumed about them are stated as hypotheses where they are used. *)

From Stdlib Require Import ZArith QArith Qcanon Qround String Ascii List Lia Strings.Byte.
From Stdlib Require Import Sorting.Sorted.
From stdpp Require Import base option list strings gmap pretty.

Import ListNotations.
Local Open Scope Z_scope.
Local Open Scope string_scope.

(** ** Exceptions *)

(** The exception classes the code distinguishes.  [Exception] is the plain
    [Exception(msg)] that [model.py] raises; [FileNotFoundError] is the one
    class [load_model] catches by name; [HTTPException] is FastAPI's;
    [LibraryError] stands for any other exception class raised inside a
    library call (its class name and its message). *)
Inductive exn : Type :=
  | Exception (msg : string)
  | FileNotFoundError (msg : string)
  | HTTPException (status_code : Z) (detail : string)
  | LibraryError (cls : string) (msg : string).

(** [str(e)]. *)
Definition str (e : exn) : string :=
  match e with
  | Exception msg => msg
  | FileNotFoundError msg => msg
  | HTTPException status_code detail => pretty status_code ++ ": " ++ detail
  | LibraryError _ msg => msg
  end.

(** [isinstance(e, HTTPException)]. *)
Definition is_HTTPException (e : exn) : bool :=
  match e with HTTPException _ _ => true | _ => false end.

(** [isinstance(e, FileNotFoundError)]. *)
Definition is_FileNotFoundError (e : exn) : bool :=
  match e with FileNotFoundError _ => true | _ => false end.

(** The outcome of a call: a value, or a raised exception. *)
Inductive result (A : Type) : Type :=
  | Ok (a : A)
  | Raise (e : exn).
Arguments Ok {A} a.
Arguments Raise {A} e.

Definition is_ok {A} (r : result A) : bool :=
  match r with Ok _ => true | Raise _ => false end.

(** Sequencing of calls that only compute: the first exception wins. *)
Definition result_bind {A B} (r : result A) (k : A -> result B) : result B :=
  match r with
  | Ok a => k a
  | Raise e => Raise e
  end.

#[global] Instance result_ret : MRet result := fun A => @Ok A.
#[global] Instance result_mbind : MBind result :=
  fun A B k r => @result_bind A B r k.

(** ** Request and response records of [main.py] *)

Module AudioRequest.
Record t : Type := Build {
  audio_base64 : string;
  audio_format : string;
  language : string;
  user_id : option string
}.
End AudioRequest.

Module DetectionResponse.
Record t : Type := Build {
  status : string;
  classification : string;
  confidence_score : Qc;
  language : string;
  timestamp : string;
  message : string
}.
End DetectionResponse.

(** ** Python built-ins used by the code *)

(** [str.lower()] on ASCII text: [A]-[Z] are mapped to [a]-[z], every other
    byte is kept. *)
Definition lower_ascii (c : ascii) : ascii :=
  let n := nat_of_ascii c in
  if ((65 <=? n) && (n <=? 90))%nat then ascii_of_nat (n + 32) else c.

Fixpoint lower (s : string) : string :=
  match s with
  | EmptyString => EmptyString
  | String c s' => String (lower_ascii c) (lower s')
  end.

(** [sep.join(l)]. *)
Fixpoint join (sep : string) (l : list string) : string :=
  match l with
  | [] => ""
  | [x] => x
  | x :: l' => x ++ sep ++ join sep l'
  end.

(** [c in s] for a one-character [c]. *)
Fixpoint contains_char (c : ascii) (s : string) : bool :=
  match s with
  | EmptyString => false
  | String c' s' => if bool_decide (c' = c) then true else contains_char c s'
  end.

(** [s.split(sep)] for a one-character separator: never empty, one more
    piece than there are separators. *)
Fixpoint split_on (sep : ascii) (s : string) : list string :=
  match s with
  | EmptyString => [EmptyString]
  | String c s' =>
      if bool_decide (c = sep) then EmptyString :: split_on sep s'
      else match split_on sep s' with
           | piece :: pieces => String c piece :: pieces
           | [] => [String c EmptyString]
           end
  end.

(** [len(b)] of a bytes object. *)
Definition len (b : list byte) : Z := Z.of_nat (List.length b).

(** [max(l)] on a sequence of numbers: the running maximum, replaced only by
    a strictly greater item; [ValueError] on an empty sequence. *)
Fixpoint max_from (best : Qc) (l : list Qc) : Qc :=
  match l with
  | [] => best
  | x :: l' => max_from (if Qclt_le_dec best x then x else best) l'
  end.

Definition py_max (l : list Qc) : result Qc :=
  match l with
  | [] => Raise (LibraryError "ValueError" "max() arg is an empty sequence")
  | x :: l' => Ok (max_from x l')
  end.

(** [np.hstack] of one-dimensional pieces (a scalar counts as a piece of
    length one). *)
Definition np_hstack {A} (pieces : list (list A)) : list A := concat pieces.

(** ** The monad of Python calls

    A call runs in a state [W], and either returns a value or raises; the
    state reached when it raises is kept, since handlers and [finally]
    blocks run in it. *)

Definition M (W A : Type) : Type := W -> result A * W.

Definition ret {W A} (a : A) : M W A := fun w => (Ok a, w).

Definition raise {W A} (e : exn) : M W A := fun w => (Raise e, w).

Definition bind {W A B} (c : M W A) (k : A -> M W B) : M W B :=
  fun w => match c w with
           | (Ok a, w') => k a w'
           | (Raise e, w') => (Raise e, w')
           end.

(** A library call that only computes. *)
Definition lift {W A} (r : result A) : M W A := fun w => (r, w).

(** [try: c  except E as e: h e], where [catches] tells the instances of
    [E]; an exception of another class propagates. *)
Definition try_except {W A} (c : M W A) (catches : exn -> bool)
    (h : exn -> M W A) : M W A :=
  fun w => match c w with
           | (Ok a, w') => (Ok a, w')
           | (Raise e, w') => if catches e then h e w' else (Raise e, w')
           end.

(** [except Exception]: every class modelled here derives from it. *)
Definition any_Exception (e : exn) : bool := true.

(** [try: c  finally: f], for a [finally] block that cannot raise. *)
Definition try_finally {W A} (c : M W A) (f : W -> W) : M W A :=
  fun w => let '(r, w') := c w in (r, f w').

(** stdpp's monad notations: [x ← c; k], ['(a, b) ← c; k] and [c ;; k]. *)
#[global] Instance M_ret {W} : MRet (M W) := fun A => @ret W A.
#[global] Instance M_bind {W} : MBind (M W) := fun A B k c => @bind W A B c k.

(** ** The world *)

Section Pipeline.

(** Feature values are floats the repository's code only passes from one
    library call to the next, so their type is left abstract.  Class
    probabilities are compared by the code ([max]); every finite float is a
    rational, so they are modelled as exact rationals. *)
Context {float : Type}.

(** A decoded waveform ([y]), a fitted [StandardScaler], a fitted
    [RandomForestClassifier], and the state of numpy's random generator. *)
Context {wave Scaler Model rng : Type}.

Definition matrix : Type := list (list float).

(** The objects [pickle] stores and returns. *)
Inductive pyobj : Type :=
  | PyModel (m : Model)
  | PyScaler (s : Scaler).

(** What a path of the file system holds: a pickled object, or raw bytes
    that are not a pickle (an uploaded recording, an empty or damaged
    artifact). *)
Inductive file : Type :=
  | FBytes (b : list byte)
  | FPickle (o : pyobj).

(** Calls recorded in the ghost log. *)
Inductive event : Type :=
  | EvWrite (path : string)
  | EvRemove (path : string)
  | EvPredictVoice (path : string)
  | EvInitialize
  | EvTrain
  | EvLoadModel
  | EvExtract (path : string)
  | EvClassify.

(** The file system is flat: a path is an opaque key.  [entropy] feeds
    [uuid.uuid4()], [clock] feeds [datetime.utcnow()], and
    [log] is the ghost log, most recent call last. *)
Record world : Type := World {
  fs : gmap string file;
  entropy : N;
  clock : N;
  log : list event
}.

Definition emit (e : event) : M world unit :=
  fun w => (Ok tt, World (fs w) (entropy w) (clock w) (log w ++ [e])%list).

(** [os.path.exists(path)]. *)
Definition os_path_exists (path : string) : M world bool :=
  fun w => (Ok (bool_decide (is_Some (fs w !! path))), w).

(** [f.write(...)] / [pickle.dump(..., f)] on a file that [open(path, 'wb')]
    has created: the content at [path] is replaced.  Whether [open] creates
    the file is the operating system's answer ([open_wb] below, for the paths
    built from a request); the two artifact names are fixed names in the
    working directory, the same for every call, and the process is taken to
    be able to create them. *)
Definition write_file (path : string) (c : file) : M world unit :=
  fun w => (Ok tt, World (<[path := c]> (fs w)) (entropy w) (clock w)
                         (log w ++ [EvWrite path])%list).

(** [open(path, 'rb')]. *)
Definition open_rb (path : string) : M world file :=
  fun w => match fs w !! path with
           | Some c => (Ok c, w)
           | None => (Raise (FileNotFoundError
                        ("[Errno 2] No such file or directory: '" ++ path ++ "'")), w)
           end.

(** [os.remove(path)], reached only when the path exists. *)
Definition os_remove (path : string) : world -> world :=
  fun w => World (delete path (fs w)) (entropy w) (clock w)
                 (log w ++ [EvRemove path])%list.

(** ** Third-party libraries *)

(** librosa.  [librosa_load path b sr duration] decodes the bytes [b] found
    at [path] (the backend may look at the file name), resamples to [sr] and
    keeps at most [duration] seconds.  The feature functions return
    two-dimensional arrays, one row per coefficient or a single row. *)
Record Librosa : Type := {
  librosa_load : string -> list byte -> Z -> Z -> result (wave * Z);
  librosa_mfcc : wave -> Z -> nat -> result matrix;
  librosa_spectral_centroid : wave -> Z -> result matrix;
  librosa_spectral_rolloff : wave -> Z -> result matrix;
  librosa_spectral_bandwidth : wave -> Z -> result matrix;
  librosa_zero_crossing_rate : wave -> result matrix;
  librosa_onset_strength : wave -> Z -> result (list float);
  librosa_chroma_stft : wave -> Z -> result matrix
}.

(** numpy: reductions of a one-dimensional array, and the global random
    generator threaded explicitly. *)
Record Numpy : Type := {
  np_mean : list float -> float;
  np_std : list float -> float;
  np_random_seed : Z -> rng;
  np_random_normal : Q -> Q -> nat -> rng -> list float * rng;
  np_random_uniform : Q -> Q -> nat -> rng -> list float * rng
}.

(** The constructor arguments of [RandomForestClassifier]. *)
Record forest_params : Type := {
  n_estimators : Z;
  max_depth : Z;
  min_samples_split : Z;
  min_samples_leaf : Z;
  random_state : Z;
  n_jobs : Z
}.

(** scikit-learn, and [pickle] as the code uses it on scikit-learn's
    estimators: [pickle_load_error b] is the exception [pickle.load] raises
    on a file whose bytes [b] are not a pickle ([EOFError] on an empty file,
    [UnpicklingError] on most others). *)
Record Sklearn : Type := {
  scaler_fit_transform : matrix -> result (Scaler * matrix);
  scaler_transform : Scaler -> matrix -> result matrix;
  forest_fit : forest_params -> matrix -> list Z -> result Model;
  forest_predict : Model -> matrix -> result (list Z);
  forest_predict_proba : Model -> matrix -> result (list (list Qc));
  pickle_load_error : list byte -> exn
}.

(** The host: the configured key, uuids, the clock, base64, the
    formatting of [confidence*100] with one decimal, and the operating
    system's answer to [open(path, 'wb')]: [None] when it creates the file,
    or the class and the message of the exception [open] raises (no such
    directory when the name holds a [/] below a directory that does not
    exist, a name too long, an embedded NUL).  The code creates
    [UPLOAD_DIR] at import time and no directory afterwards, so the answer
    does not change during a run. *)
Record Host : Type := {
  API_KEY : string;
  uuid4_str : N -> string;
  utcnow_isoformat : N -> string;
  base64_b64decode : string -> result (list byte);
  format_percent : Qc -> string;
  os_open_wb : string -> option (string * string)
}.

Variable librosa : Librosa.
Variable np : Numpy.
Variable sklearn : Sklearn.
Variable host : Host.

(** ** model.py *)

Definition MODEL_PATH : string := "voice_classifier_model.pkl".
Definition SCALER_PATH : string := "voice_scaler.pkl".

(** [a[0]] on the rows of a two-dimensional array. *)
Definition row0 (m : matrix) : result (list float) :=
  match m with
  | r :: _ => Ok r
  | [] => Raise (LibraryError "IndexError"
                   "index 0 is out of bounds for axis 0 with size 0")
  end.

(** [librosa.load(path, sr=sr, duration=duration)]: the file is read from
    the file system, then decoded. *)
Definition load_audio (path : string) (sr duration : Z) : M world (wave * Z) :=
  c ← open_rb path;
  match c with
  | FBytes b => lift (librosa_load librosa path b sr duration)
  | FPickle _ => raise (LibraryError "NoBackendError" "")
  end.

(** The [try] block of [extract_features]. *)
Definition extract_features_try (path : string) : M world (list float) :=
  '(y, sr) ← load_audio path 16000 10;
  mfcc ← lift (librosa_mfcc librosa y sr 20);
  let mfcc_mean := map (np_mean np) mfcc in
  let mfcc_std := map (np_std np) mfcc in
  spec_centroid ← lift (c ← librosa_spectral_centroid librosa y sr; row0 c);
  spec_rolloff ← lift (c ← librosa_spectral_rolloff librosa y sr; row0 c);
  spec_bandwidth ← lift (c ← librosa_spectral_bandwidth librosa y sr; row0 c);
  zero_crossing_rate ← lift (c ← librosa_zero_crossing_rate librosa y; row0 c);
  onset_env ← lift (librosa_onset_strength librosa y sr);
  chroma ← lift (librosa_chroma_stft librosa y sr);
  let chroma_mean := np_mean np (concat chroma) in
  let features := np_hstack [
    mfcc_mean;
    mfcc_std;
    [np_mean np spec_centroid];
    [np_std np spec_centroid];
    [np_mean np spec_rolloff];
    [np_std np spec_rolloff];
    [np_mean np spec_bandwidth];
    [np_mean np zero_crossing_rate];
    [np_std np zero_crossing_rate];
    [chroma_mean]
  ] in
  mret features.

Definition extract_features (path : string) : M world (list float) :=
  emit (EvExtract path);;
  try_except (extract_features_try path) any_Exception
    (fun e => raise (Exception ("Feature extraction failed: " ++ str e))).

Definition forest_hyperparameters : forest_params :=
  {| n_estimators := 100; max_depth := 20; min_samples_split := 5;
     min_samples_leaf := 2; random_state := 42; n_jobs := -1 |}.

Definition train_model (X_train : matrix) (y_train : list Z)
    : M world (Model * Scaler) :=
  emit EvTrain;;
  '(scaler, X_train_scaled) ← lift (scaler_fit_transform sklearn X_train);
  model ← lift (forest_fit sklearn forest_hyperparameters X_train_scaled y_train);
  write_file MODEL_PATH (FPickle (PyModel model));;
  write_file SCALER_PATH (FPickle (PyScaler scaler));;
  mret (model, scaler).

(** One pass of the first loop of [create_synthetic_training_data]. *)
Definition synthetic_ai_sample (g : rng) : list float * rng :=
  let '(mfcc_mean, g) := np_random_normal np 0%Q 10%Q 20 g in
  let '(mfcc_std, g) := np_random_uniform np 0.5%Q 3%Q 20 g in
  let '(spec_features, g) := np_random_uniform np 500%Q 2000%Q 7 g in
  let '(zcr_std, g) := np_random_uniform np 0.05%Q 0.15%Q 1 g in
  (np_hstack [mfcc_mean; mfcc_std; spec_features; zcr_std], g).

(** One pass of its second loop. *)
Definition synthetic_human_sample (g : rng) : list float * rng :=
  let '(mfcc_mean, g) := np_random_normal np 0%Q 15%Q 20 g in
  let '(mfcc_std, g) := np_random_uniform np 3%Q 8%Q 20 g in
  let '(spec_features, g) := np_random_uniform np 300%Q 3000%Q 7 g in
  let '(zcr_std, g) := np_random_uniform np 0.08%Q 0.25%Q 1 g in
  (np_hstack [mfcc_mean; mfcc_std; spec_features; zcr_std], g).

(** [for i in range(n): X_train.append(sample()); y_train.append(label)]. *)
Fixpoint synthetic_loop (n : nat) (sample : rng -> list float * rng)
    (label : Z) (acc : matrix * list Z * rng) : matrix * list Z * rng :=
  match n with
  | O => acc
  | S n' =>
      let '(X_train, y_train, g) := acc in
      let '(features, g) := sample g in
      synthetic_loop n' sample label
        ((X_train ++ [features])%list, (y_train ++ [label])%list, g)
  end.

Definition create_synthetic_training_data : matrix * list Z :=
  let g := np_random_seed np 42 in
  let n_samples := 100%nat in
  let acc := synthetic_loop (n_samples / 2) synthetic_ai_sample 1 ([], [], g) in
  let '(X_train, y_train, _) :=
    synthetic_loop (n_samples / 2) synthetic_human_sample 0 acc in
  (X_train, y_train).

Definition initialize_model : M world unit :=
  emit EvInitialize;;
  model_exists ← os_path_exists MODEL_PATH;
  scaler_exists ← os_path_exists SCALER_PATH;
  if negb model_exists || negb scaler_exists then
    let '(X_train, y_train) := create_synthetic_training_data in
    train_model X_train y_train;; mret tt
  else mret tt.

(** [pickle.load(f)] on the file opened at [path]. *)
Definition pickle_load (path : string) : M world pyobj :=
  c ← open_rb path;
  match c with
  | FPickle o => mret o
  | FBytes b => raise (pickle_load_error sklearn b)
  end.

Definition load_model : M world (pyobj * pyobj) :=
  emit EvLoadModel;;
  try_except
    (model ← pickle_load MODEL_PATH;
     scaler ← pickle_load SCALER_PATH;
     mret (model, scaler))
    is_FileNotFoundError
    (fun _ => raise (Exception
       ("Model files not found. Please train the model first using train_model() "
        ++ "or run initialize_model() to create an initial model."))).

(** [scaler.transform(X)]: only a scaler has the method. *)
Definition call_transform (scaler : pyobj) (X : matrix) : result matrix :=
  match scaler with
  | PyScaler s => scaler_transform sklearn s X
  | PyModel _ => Raise (LibraryError "AttributeError"
      "'RandomForestClassifier' object has no attribute 'transform'")
  end.

(** [model.predict(X)] and [model.predict_proba(X)]. *)
Definition call_predict (model : pyobj) (X : matrix) : result (list Z) :=
  match model with
  | PyModel m => forest_predict sklearn m X
  | PyScaler _ => Raise (LibraryError "AttributeError"
      "'StandardScaler' object has no attribute 'predict'")
  end.

Definition call_predict_proba (model : pyobj) (X : matrix)
    : result (list (list Qc)) :=
  match model with
  | PyModel m => forest_predict_proba sklearn m X
  | PyScaler _ => Raise (LibraryError "AttributeError"
      "'StandardScaler' object has no attribute 'predict_proba'")
  end.

(** [a[0]] on a one-dimensional result. *)
Definition item0 {A} (l : list A) : result A :=
  match l with
  | x :: _ => Ok x
  | [] => Raise (LibraryError "IndexError"
                   "index 0 is out of bounds for axis 0 with size 0")
  end.

(** The [try] block of [predict_voice]. *)
Definition predict_voice_try (path : string) : M world (string * Qc) :=
  initialize_model;;
  '(model, scaler) ← load_model;
  features ← extract_features path;
  let features := [features] in
  features_scaled ← lift (call_transform scaler features);
  emit EvClassify;;
  prediction ← lift (p ← call_predict model features_scaled; item0 p);
  probabilities ← lift (p ← call_predict_proba model features_scaled; item0 p);
  confidence ← lift (py_max probabilities);
  let label := if bool_decide (prediction = 1) then "AI_GENERATED" else "HUMAN" in
  mret (label, confidence).

Definition predict_voice (path : string) : M world (string * Qc) :=
  emit (EvPredictVoice path);;
  try_except (predict_voice_try path) any_Exception
    (fun e => raise (Exception ("Prediction failed: " ++ str e))).

(** ** main.py *)

Definition UPLOAD_DIR : string := "temp_audio".

Definition SUPPORTED_LANGUAGES : list string :=
  ["tamil"; "english"; "hindi"; "malayalam"; "telugu"].

(** [os.path.join(a, b)] for a relative [b]. *)
Definition os_path_join (a b : string) : string := a ++ "/" ++ b.

(** [x_api_key] is [None] when the header is absent. *)
Definition validate_api_key (api_key : option string) : bool :=
  match api_key with
  | None => false
  | Some k => if bool_decide (k = "") then false
              else bool_decide (k = API_KEY host)
  end.

Definition validate_language (language : string) : bool :=
  bool_decide (lower language ∈ SUPPORTED_LANGUAGES).

(** The [try] in [cleanup_file] swallows every exception, so the call never
    raises. *)
Definition cleanup_file (path : string) : world -> world :=
  fun w => if bool_decide (is_Some (fs w !! path)) then os_remove path w else w.

(** [str(uuid.uuid4())]. *)
Definition uuid4 : M world string :=
  fun w => (Ok (uuid4_str host (entropy w)),
            World (fs w) (N.succ (entropy w)) (clock w) (log w)).

(** [datetime.utcnow().isoformat()]. *)
Definition utcnow : M world string :=
  fun w => (Ok (utcnow_isoformat host (clock w)), w).

(** [with open(file_path, "wb") as f: f.write(b)] on a path built from the
    request: when the operating system refuses the path, [open] raises and
    nothing is written. *)
Definition write_upload (file_path : string) (b : list byte) : M world unit :=
  match os_open_wb host file_path with
  | None => write_file file_path (FBytes b)
  | Some (cls, msg) => raise (LibraryError cls msg)
  end.

(** The body of [detect] from the assignment of [file_path] on: from there
    the [finally] clause removes the temporary file.  An exception of
    [open] is not an [HTTPException]: it leaves this part as it is and
    becomes the 500 of [detect]. *)
Definition detect_staged (data : AudioRequest.t) (audio_bytes : list byte)
    (file_path : string) : M world DetectionResponse.t :=
  try_finally
    (write_upload file_path audio_bytes;;
     '(label, confidence) ←
       try_except (predict_voice file_path) any_Exception
         (fun e => raise (HTTPException 422
                            ("Audio processing failed: " ++ str e)));
     now ← utcnow;
     mret (DetectionResponse.Build
             "success"
             label
             confidence
             (lower (AudioRequest.language data))
             now
             ("Audio classified as " ++ label ++ " with "
                ++ format_percent host confidence ++ "% confidence")))
    (cleanup_file file_path).

(** [detect].  In the source one [try] covers the decoding, the size checks
    and the staged part, with [file_path] still [None] during the first two,
    where the [finally] clause therefore does nothing; its [except] clauses
    re-raise an [HTTPException] and turn anything else into a 500, without
    touching the world, so running them after the clean-up is the same. *)
Definition detect (data : AudioRequest.t) (x_api_key : option string)
    : M world DetectionResponse.t :=
  if negb (validate_api_key x_api_key) then
    raise (HTTPException 401 "Invalid or missing API key")
  else if negb (validate_language (AudioRequest.language data)) then
    raise (HTTPException 400
             ("Unsupported language. Supported: " ++ join ", " SUPPORTED_LANGUAGES))
  else if bool_decide (AudioRequest.audio_base64 data = "") then
    raise (HTTPException 400 "audio_base64 cannot be empty")
  else
    try_except
      (audio_bytes ←
         try_except (lift (base64_b64decode host (AudioRequest.audio_base64 data)))
           any_Exception
           (fun e => raise (HTTPException 400
                              ("Invalid base64 encoding: " ++ str e)));
       if bool_decide (len audio_bytes > 25 * 1024 * 1024) then
         raise (HTTPException 413 "Audio file too large (max 25MB)")
       else if bool_decide (len audio_bytes < 1024) then
         raise (HTTPException 400 "Audio file too small")
       else
         u ← uuid4;
         let filename := u ++ "." ++ AudioRequest.audio_format data in
         let file_path := os_path_join UPLOAD_DIR filename in
         detect_staged data audio_bytes file_path)
      (fun e => negb (is_HTTPException e))
      (fun e => raise (HTTPException 500 ("Internal server error: " ++ str e))).

(** The [supported_formats] entry of the [/stats] response: the only place
    of the repository that lists audio formats. *)
Definition stats_supported_formats : list string := ["mp3"; "wav"; "ogg"; "flac"].

End Pipeline.

Arguments matrix : clear implicits.
Arguments pyobj : clear implicits.
Arguments file : clear implicits.
Arguments world : clear implicits.
Arguments Librosa : clear implicits.
Arguments Numpy : clear implicits.
Arguments Sklearn : clear implicits.

(** ** What the code relies on from its libraries *)

(** [np.argmax] of a row: the index of the first maximum, so that a tie
    gives the lower index; [first_max best i k l] scans [l], whose first
    item has index [k], [best] at index [i] being the maximum so far. *)
Fixpoint first_max (best : Qc) (i k : nat) (l : list Qc) : nat :=
  match l with
  | [] => i
  | x :: l' =>
      if Qclt_le_dec best x then first_max x k (S k) l'
      else first_max best i (S k) l'
  end.

Definition np_argmax (row : list Qc) : Z :=
  match row with
  | [] => 0
  | x :: l => Z.of_nat (first_max x 0 1 l)
  end.

(** [ForestClassifier.predict] is
    [classes_.take(np.argmax(predict_proba(X), axis=1))]; for a classifier
    fitted on the labels 0, 1, ... the class is the index itself. *)
Definition predict_contract {float Scaler Model}
    (sklearn : Sklearn float Scaler Model) : Prop :=
  forall (m : Model) (X : matrix float) (cs : list Z) (rows : list (list Qc)),
    forest_predict sklearn m X = Ok cs ->
    forest_predict_proba sklearn m X = Ok rows ->
    cs = map np_argmax rows.

(** [librosa.feature.mfcc(..., n_mfcc=n)] returns [n] rows. *)
Definition mfcc_contract {float wave} (librosa : Librosa float wave) : Prop :=
  forall (y : wave) (sr : Z) (n : nat) (m : matrix float),
    librosa_mfcc librosa y sr n = Ok m -> List.length m = n.

(** ** Vocabulary of the properties *)

(** What the library calls of [extract_features] return on the file at
    [path]: the decoding succeeds and so does every feature function, with
    the rows the code then reduces. *)
Definition analysed {float wave Scaler Model}
    (librosa : Librosa float wave) (w : world Scaler Model) (path : string)
    (mfcc : matrix float) (centroid rolloff bandwidth zcr : list float)
    (chroma : matrix float) : Prop :=
  exists (b : list byte) (y : wave) (sr : Z) (c1 c2 c3 c4 : matrix float)
         (onset : list float),
    fs w !! path = Some (FBytes b) /\
    librosa_load librosa path b 16000 10 = Ok (y, sr) /\
    librosa_mfcc librosa y sr 20 = Ok mfcc /\
    librosa_spectral_centroid librosa y sr = Ok (centroid :: c1) /\
    librosa_spectral_rolloff librosa y sr = Ok (rolloff :: c2) /\
    librosa_spectral_bandwidth librosa y sr = Ok (bandwidth :: c3) /\
    librosa_zero_crossing_rate librosa y = Ok (zcr :: c4) /\
    librosa_onset_strength librosa y sr = Ok onset /\
    librosa_chroma_stft librosa y sr = Ok chroma.

(** The fixed positions of the 48 features. *)
Definition feature_layout {float rng} (np : Numpy float rng)
    (mfcc : matrix float) (centroid rolloff bandwidth zcr : list float)
    (chroma : matrix float) (v : list float) : Prop :=
  List.length v = 48%nat /\
  (forall i : nat, (i < 20)%nat -> v !! i = np_mean np <$> mfcc !! i) /\
  (forall i : nat, (i < 20)%nat -> v !! (20 + i)%nat = np_std np <$> mfcc !! i) /\
  v !! 40%nat = Some (np_mean np centroid) /\
  v !! 41%nat = Some (np_std np centroid) /\
  v !! 42%nat = Some (np_mean np rolloff) /\
  v !! 43%nat = Some (np_std np rolloff) /\
  v !! 44%nat = Some (np_mean np bandwidth) /\
  v !! 45%nat = Some (np_mean np zcr) /\
  v !! 46%nat = Some (np_std np zcr) /\
  v !! 47%nat = Some (np_mean np (concat chroma)).

(** The vector [extract_features] builds from the rows the libraries
    returned. *)
Definition assembled {float rng} (np : Numpy float rng) (mfcc : matrix float)
    (centroid rolloff bandwidth zcr : list float) (chroma : matrix float)
    : list float :=
  np_hstack [
    map (np_mean np) mfcc; map (np_std np) mfcc;
    [np_mean np centroid]; [np_std np centroid];
    [np_mean np rolloff]; [np_std np rolloff];
    [np_mean np bandwidth];
    [np_mean np zcr]; [np_std np zcr];
    [np_mean np (concat chroma)]
  ].

(** A call extends the log: whatever it returns or raises, the log it leaves
    is the log it found followed by the calls it made. *)
Definition extends {Scaler Model A} (c : M (world Scaler Model) A) : Prop :=
  forall w : world Scaler Model,
    exists l : list event, log (snd (c w)) = (log w ++ l)%list.

(** The checks of [detect] that precede the decoding: the key, the language
    and a non-empty payload. *)
Definition gates_pass (host : Host) (data : AudioRequest.t)
    (x_api_key : option string) : Prop :=
  validate_api_key host x_api_key = true /\
  validate_language (AudioRequest.language data) = true /\
  AudioRequest.audio_base64 data <> "".

(** The path under which [detect] stages the upload in the world [w]. *)
Definition staged_path {Scaler Model} (host : Host) (data : AudioRequest.t)
    (w : world Scaler Model) : string :=
  os_path_join UPLOAD_DIR
    (uuid4_str host (entropy w) ++ "." ++ AudioRequest.audio_format data).

(** The world once the uuid has been drawn. *)
Definition after_uuid {Scaler Model} (w : world Scaler Model)
    : world Scaler Model :=
  World (fs w) (N.succ (entropy w)) (clock w) (log w).

(** The handler of [load_model]: a [FileNotFoundError] becomes the "Model
    files not found" exception, anything else passes. *)
Definition not_found_as_missing (e : exn) : exn :=
  if is_FileNotFoundError e then
    Exception
      ("Model files not found. Please train the model first using train_model() "
       ++ "or run initialize_model() to create an initial model.")
  else e.


#[global] Instance event_eq_dec : EqDecision event.
Proof. solve_decision. Defined.

(** How many times the call [e] was logged. *)
Definition calls (e : event) (l : list event) : nat :=
  List.length (filter (fun x => x = e) l).

(** The events a call added to the log. *)
Definition added {Scaler Model} (w w' : world Scaler Model) : list event :=
  drop (List.length (log w)) (log w').

(** The cycle the design document describes for a missing model: a first
    classification attempt that fails, one bootstrap, one retry, that is two
    loads of the model around one training. *)
Definition bootstrap_retry_cycle (l : list event) : Prop :=
  calls EvTrain l = 1%nat /\ calls EvLoadModel l = 2%nat.

(** Both persisted artifacts exist. *)
Definition artifacts_exist {Scaler Model} (w : world Scaler Model) : Prop :=
  is_Some (fs w !! MODEL_PATH) /\ is_Some (fs w !! SCALER_PATH).

(** ** An executable stand-in for the libraries

    Small computable versions of the library calls, on which the pipeline
    can be run on concrete requests.  They are not the libraries: floats are
    integers, the decoder accepts only bytes that start with [RIFF], and the
    forest is a fixed row of stumps.  They are used to evaluate the pipeline
    at concrete inputs, nothing more. *)
Module Bench.

(** *** base64 *)

Definition b64_value (c : ascii) : option N :=
  let n := N_of_ascii c in
  if ((65 <=? n) && (n <=? 90))%N then Some (n - 65)%N
  else if ((97 <=? n) && (n <=? 122))%N then Some (n - 71)%N
  else if ((48 <=? n) && (n <=? 57))%N then Some (n + 4)%N
  else if (n =? 43)%N then Some 62%N
  else if (n =? 47)%N then Some 63%N
  else None.

(** Characters outside the alphabet are skipped, as the non-validating
    decoder does. *)
Fixpoint b64_digits (s : string) : list N :=
  match s with
  | EmptyString => []
  | String c s' =>
      match b64_value c with
      | Some d => d :: b64_digits s'
      | None => b64_digits s'
      end
  end.

Fixpoint b64_padding (s : string) : nat :=
  match s with
  | EmptyString => 0
  | String c s' =>
      ((if bool_decide (c = "="%char) then 1 else 0) + b64_padding s')%nat
  end.

Definition byte_of_N (n : N) : byte :=
  default "000"%byte (Byte.of_N (n mod 256)%N).

Fixpoint b64_groups (ds : list N) : list byte :=
  match ds with
  | a :: b :: c :: d :: rest =>
      byte_of_N (a * 4 + b / 16) :: byte_of_N ((b mod 16) * 16 + c / 4)
        :: byte_of_N ((c mod 4) * 64 + d) :: b64_groups rest
  | [a; b; c] =>
      [byte_of_N (a * 4 + b / 16); byte_of_N ((b mod 16) * 16 + c / 4)]
  | [a; b] => [byte_of_N (a * 4 + b / 16)]
  | _ => []
  end%N.

Definition b64decode (s : string) : result (list byte) :=
  let ds := b64_digits s in
  if bool_decide ((List.length ds + b64_padding s) mod 4 = 0)%nat then
    Ok (b64_groups ds)
  else Raise (LibraryError "binascii.Error" "Incorrect padding").

Fixpoint rep (n : nat) (s : string) : string :=
  match n with
  | O => ""
  | S n' => s ++ rep n' s
  end.

(** The base64 text of [RIFFAA] followed by [3 * n] letters [A] and then
    the bytes encoded by [tail]. *)
Definition riff_base64 (n : nat) (tail : string) : string :=
  "UklGRkFB" ++ rep n "QUFB" ++ tail.

(** *** librosa and numpy, on integers *)

Definition sample_of_byte (b : byte) : Z := Z.of_N (Byte.to_N b).

Definition load (path : string) (b : list byte) (sr duration : Z)
    : result (list Z * Z) :=
  match b with
  | x52 :: x49 :: x46 :: x46 :: rest =>
      Ok (firstn (Z.to_nat (sr * duration)) (map sample_of_byte rest), sr)
  | _ => Raise (LibraryError "NoBackendError" "no RIFF header")
  end.

Definition frames (y : list Z) : result (list Z) :=
  match y with
  | [] => Raise (LibraryError "ParameterError" "Audio buffer is empty")
  | _ => Ok (firstn 8 y)
  end.

Definition mfcc (y : list Z) (sr : Z) (n : nat) : result (matrix Z) :=
  f ← frames y;
  Ok (map (fun i => map (Z.mul (Z.of_nat i)) f) (seq 1 n)).

Definition one_row (scale : Z) (y : list Z) : result (matrix Z) :=
  f ← frames y; Ok [map (Z.mul scale) f].

Definition librosa : Librosa Z (list Z) := {|
  librosa_load := load;
  librosa_mfcc := mfcc;
  librosa_spectral_centroid := fun y sr => one_row 3 y;
  librosa_spectral_rolloff := fun y sr => one_row 5 y;
  librosa_spectral_bandwidth := fun y sr => one_row 2 y;
  librosa_zero_crossing_rate := fun y => one_row 1 y;
  librosa_onset_strength := fun y sr => frames y;
  librosa_chroma_stft := fun y sr => f ← frames y; Ok (repeat f 12)
|}.

Definition sum (l : list Z) : Z := fold_right Z.add 0 l.

Definition mean (l : list Z) : Z := sum l / Z.max 1 (Z.of_nat (List.length l)).

(** The spread of the values, in place of a standard deviation. *)
Definition spread (l : list Z) : Z :=
  fold_right Z.max 0 l - fold_right Z.min (fold_right Z.max 0 l) l.

(** A linear congruential generator. *)
Definition next (g : N) : N := ((g * 1103515245 + 12345) mod 2147483648)%N.

Fixpoint draws (lo width : Z) (n : nat) (g : N) : list Z * N :=
  match n with
  | O => ([], g)
  | S n' =>
      let g1 := next g in
      let '(l, g2) := draws lo width n' g1 in
      ((lo + Z.of_N g1 mod Z.max 1 width) :: l, g2)
  end.

Definition numpy : Numpy Z N := {|
  np_mean := mean;
  np_std := spread;
  np_random_seed := Z.to_N;
  np_random_normal := fun loc scale n g =>
    draws (Qfloor (loc - 2 * scale)) (Qceiling (4 * scale)) n g;
  np_random_uniform := fun lo hi n g =>
    draws (Qfloor lo) (Qceiling hi - Qfloor lo) n g
|}.

(** *** scikit-learn, on integers *)

(** A scaler is the list of the column means. *)
Fixpoint column_sums (X : matrix Z) : list Z :=
  match X with
  | [] => []
  | [r] => r
  | r :: X' => zip_with Z.add r (column_sums X')
  end.

Definition fit_scaler (X : matrix Z) : list Z :=
  map (fun s => s / Z.max 1 (Z.of_nat (List.length X))) (column_sums X).

Definition transform (s : list Z) (X : matrix Z) : result (matrix Z) :=
  if forallb (fun r => Nat.eqb (List.length r) (List.length s)) X then
    Ok (map (fun r => zip_with Z.sub r s) X)
  else Raise (LibraryError "ValueError"
                "X has a different number of features than StandardScaler expects").

Definition fit_transform (X : matrix Z) : result (list Z * matrix Z) :=
  match X with
  | [] => Raise (LibraryError "ValueError" "Found array with 0 sample(s)")
  | _ => X' ← transform (fit_scaler X) X; Ok (fit_scaler X, X')
  end.

Inductive tree : Type :=
  | Leaf (cls : Z)
  | Node (feature : nat) (threshold : Z) (below above : tree).

Fixpoint tree_predict (t : tree) (x : list Z) : Z :=
  match t with
  | Leaf cls => cls
  | Node feature threshold below above =>
      if (default 0 (x !! feature) <=? threshold)%Z
      then tree_predict below x else tree_predict above x
  end.

(** The number of trees that vote for class 1. *)
Definition votes (forest : list tree) (x : list Z) : nat :=
  List.length (filter (fun t => tree_predict t x = 1) forest).

Definition proba_row (forest : list tree) (x : list Z) : list Qc :=
  let n := Pos.of_nat (List.length forest) in
  let v := votes forest x in
  [Q2Qc (Z.of_nat (List.length forest - v) # n); Q2Qc (Z.of_nat v # n)].

Definition predict_proba (forest : list tree) (X : matrix Z)
    : result (list (list Qc)) :=
  match forest with
  | [] => Raise (LibraryError "NotFittedError" "")
  | _ => Ok (map (proba_row forest) X)
  end.

Definition predict (forest : list tree) (X : matrix Z) : result (list Z) :=
  rows ← predict_proba forest X; Ok (map np_argmax rows).

(** One stump per estimator, on the features 20..39 in turn: a value at
    most the training mean votes for class 1. *)
Definition fit (p : forest_params) (X : matrix Z) (y : list Z)
    : result (list tree) :=
  match X with
  | [] => Raise (LibraryError "ValueError" "Found array with 0 sample(s)")
  | _ => Ok (map (fun k => Node (20 + k mod 20) 0 (Leaf 1) (Leaf 0))
                 (seq 0 (Z.to_nat (n_estimators p))))
  end.

(** [pickle.load] on bytes that are not a pickle. *)
Definition load_error (b : list byte) : exn :=
  match b with
  | [] => LibraryError "EOFError" "Ran out of input"
  | _ => LibraryError "UnpicklingError" "invalid load key"
  end.

Definition sklearn : Sklearn Z (list Z) (list tree) := {|
  scaler_fit_transform := fit_transform;
  scaler_transform := transform;
  forest_fit := fit;
  forest_predict := predict;
  forest_predict_proba := predict_proba;
  pickle_load_error := load_error
|}.

(** *** The host *)

(** The only directories are the working directory and [UPLOAD_DIR]: a
    file can be created in either, and nowhere else. *)
Definition open_wb (path : string) : option (string * string) :=
  let missing := Some ("FileNotFoundError",
                       "[Errno 2] No such file or directory: '" ++ path ++ "'") in
  match split_on "/" path with
  | [_] => None
  | [d; _] => if bool_decide (d = UPLOAD_DIR) then None else missing
  | _ => missing
  end.

Definition host : Host := {|
  API_KEY := "teamAI_123";
  uuid4_str := fun n => "uuid-" ++ pretty n;
  utcnow_isoformat := fun n => "T" ++ pretty n;
  base64_b64decode := b64decode;
  format_percent := fun q => pretty (Qfloor (q * 100)%Q);
  os_open_wb := open_wb
|}.

Definition W : Type := world (list Z) (list tree).

(** A fresh process: nothing persisted, empty log. *)
Definition fresh : W := World ∅ 0 0 [].

Definition predict_voice : string -> M W (string * Qc) :=
  predict_voice librosa numpy sklearn.

Definition detect : AudioRequest.t -> option string -> M W DetectionResponse.t :=
  detect librosa numpy sklearn host.

(** A request carrying [6 + 3 * n] bytes plus those of [tail]. *)
Definition request (n : nat) (tail : string) (fmt lang : string)
    : AudioRequest.t :=
  AudioRequest.Build (riff_base64 n tail) fmt lang None.

(** The bytes that request carries. *)
Definition payload (n : nat) (tail : string) : list byte :=
  b64_groups (b64_digits (riff_base64 n tail)).

(** A request whose 1026 bytes are all the letter [A]: not a recording. *)
Definition noise_request : AudioRequest.t :=
  AudioRequest.Build (rep 342 "QUFB") "wav" "english" None.

Definition noise : list byte := b64_groups (b64_digits (rep 342 "QUFB")).

(** A short recording with uneven samples, stored at [rec.wav] in an
    otherwise fresh world. *)
Definition recording_bytes : list byte :=
  ["R"; "I"; "F"; "F"; "a"; "b"; "a"; "c"; "b"; "a"; "c"; "b"]%byte.

Definition recording : W :=
  World {["rec.wav" := FBytes recording_bytes]} 0 0 [].

(** A file that decodes, to no samples at all: a header and nothing else,
    stored at [empty.wav]. *)
Definition header_only : W :=
  World {["empty.wav" := FBytes ["R"; "I"; "F"; "F"]%byte]} 0 0 [].

Definition key : option string := Some "teamAI_123".

End Bench.

(** * The other endpoints and utilities *)

(** ** Records of [main.py] *)

(** The part of FastAPI's [UploadFile] the code reads; the file name may be
    absent. *)
Module UploadFile.
Record t : Type := Build {
  filename : option string;
  content : list byte
}.
End UploadFile.

(** The dictionary [/predict] returns. *)
Module PredictResponse.
Record t : Type := Build {
  label : string;
  confidence : Qc
}.
End PredictResponse.

(** The dictionary [/supported-languages] returns. *)
Module LanguagesResponse.
Record t : Type := Build {
  status : string;
  supported_languages : list string
}.
End LanguagesResponse.

(** The dictionary [/stats] returns. *)
Module StatsResponse.
Record t : Type := Build {
  status : string;
  version : string;
  supported_languages : list string;
  max_file_size_mb : Z;
  supported_formats : list string
}.
End StatsResponse.

(** ** More Python built-ins *)

(** [d[k] = v] on a dictionary kept in insertion order: an existing key
    keeps its place and takes the new value. *)
Fixpoint dict_set {V} (k : string) (v : V) (d : list (string * V))
    : list (string * V) :=
  match d with
  | [] => [(k, v)]
  | (k', v') :: d' =>
      if bool_decide (k' = k) then (k', v) :: d'
      else (k', v') :: dict_set k v d'
  end.

(** [dict(pairs)]. *)
Definition py_dict {V} (pairs : list (string * V)) : list (string * V) :=
  fold_left (fun d kv => dict_set (fst kv) (snd kv) d) pairs [].

(** [sorted(items, key=lambda x: x[1], reverse=True)]: the sort is stable,
    so items of equal value keep their order; a stable sort has one possible
    result, computed here by insertion from the right. *)
Fixpoint insert_desc (x : string * Qc) (l : list (string * Qc))
    : list (string * Qc) :=
  match l with
  | [] => [x]
  | y :: l' =>
      if Qclt_le_dec (snd x) (snd y) then y :: insert_desc x l'
      else x :: y :: l'
  end.

Definition sorted_desc (l : list (string * Qc)) : list (string * Qc) :=
  fold_right insert_desc [] l.

Section Endpoints.

Context {float wave Scaler Model rng : Type}.
Variable librosa : Librosa float wave.
Variable np : Numpy float rng.
Variable sklearn : Sklearn float Scaler Model.
Variable host : Host.

(** [model.feature_importances_] of a fitted forest, and [round(x, n)]. *)
Variable forest_feature_importances : Model -> list Qc.
Variable py_round : Qc -> Z -> Qc.

(** ** model.py: feature importance *)

Definition feature_names : list string :=
  (map (fun i : nat => ("mfcc_mean_" ++ pretty i)%string) (seq 0 20)
   ++ map (fun i : nat => ("mfcc_std_" ++ pretty i)%string) (seq 0 20)
   ++ ["spec_centroid_mean"; "spec_centroid_std";
       "spec_rolloff_mean"; "spec_rolloff_std";
       "spec_bandwidth_mean";
       "zcr_mean"; "zcr_std";
       "chroma_mean"])%list.

(** [model.feature_importances_]: only a forest has the attribute. *)
Definition get_importances (model : pyobj Scaler Model) : result (list Qc) :=
  match model with
  | PyModel m => Ok (forest_feature_importances m)
  | PyScaler _ => Raise (LibraryError "AttributeError"
      "'StandardScaler' object has no attribute 'feature_importances_'")
  end.

Definition get_feature_importance
    : M (world Scaler Model) (list (string * Qc)) :=
  try_except
    ('(model, _) ← load_model sklearn;
     importances ← lift (get_importances model);
     let feature_importance := py_dict (zip feature_names importances) in
     let feature_importance := py_dict (sorted_desc feature_importance) in
     mret feature_importance)
    any_Exception
    (fun e => raise (Exception ("Could not get feature importance: " ++ str e))).

(** ** main.py: the other endpoints *)

(** The dependency of [/predict]; the header is required, so the key is
    always a string here. *)
Definition verify_api_key (x_api_key : string) : M (world Scaler Model) unit :=
  if bool_decide (x_api_key <> API_KEY host) then
    raise (HTTPException 401 "Invalid or missing API key")
  else mret tt.

(** [file.filename.split('.')[-1] if '.' in file.filename else "wav"]. *)
Definition file_ext_of (filename : string) : string :=
  if contains_char "." filename then List.last (split_on "." filename) ""
  else "wav".

(** [if os.path.exists(path): os.remove(path)]. *)
Definition remove_if_exists (path : string) : M (world Scaler Model) unit :=
  fun w => (Ok tt, cleanup_file path w).

(** The path [/predict] stages the upload under, in the world [w]. *)
Definition upload_path (name : string) (w : world Scaler Model) : string :=
  UPLOAD_DIR ++ "/" ++ uuid4_str host (entropy w) ++ "." ++ file_ext_of name.

(** [predict_voice_api].  The dependency runs first, outside the [try].
    Inside it, [file_path] is assigned before anything can fail, except for
    an absent file name, on which ['.' in file.filename] raises a
    [TypeError]: then the handler finds no [file_path] among the locals and
    only raises the 500. *)
Definition predict_voice_api (file : UploadFile.t) (x_api_key : string)
    : M (world Scaler Model) PredictResponse.t :=
  verify_api_key x_api_key;;
  match UploadFile.filename file with
  | None =>
      raise (HTTPException 500
               ("Error processing file: "
                  ++ str (LibraryError "TypeError"
                            "argument of type 'NoneType' is not iterable")))
  | Some name =>
      let file_ext := file_ext_of name in
      u ← uuid4 host;
      let filename := u ++ "." ++ file_ext in
      let file_path := UPLOAD_DIR ++ "/" ++ filename in
      try_except
        (write_upload host file_path (UploadFile.content file);;
         '(label, confidence) ← predict_voice librosa np sklearn file_path;
         remove_if_exists file_path;;
         mret (PredictResponse.Build label (py_round confidence 3)))
        any_Exception
        (fun e =>
           remove_if_exists file_path;;
           raise (HTTPException 500 ("Error processing file: " ++ str e)))
  end.

Definition get_supported_languages (x_api_key : option string)
    : M (world Scaler Model) LanguagesResponse.t :=
  if negb (validate_api_key host x_api_key) then
    raise (HTTPException 401 "Invalid API key")
  else mret (LanguagesResponse.Build "success" SUPPORTED_LANGUAGES).

Definition get_stats (x_api_key : option string)
    : M (world Scaler Model) StatsResponse.t :=
  if negb (validate_api_key host x_api_key) then
    raise (HTTPException 401 "Invalid API key")
  else mret (StatsResponse.Build "success" "1.0.0" SUPPORTED_LANGUAGES 25
               stats_supported_formats).

End Endpoints.

(** ** More vocabulary *)

(** [np.random.normal(loc, scale, n)] and [np.random.uniform(lo, hi, n)]
    return [n] values. *)
Definition np_size_contract {float rng} (np : Numpy float rng) : Prop :=
  forall (a b : Q) (n : nat) (g : rng),
    List.length (fst (np_random_normal np a b n g)) = n /\
    List.length (fst (np_random_uniform np a b n g)) = n.

(** The items are in non-increasing order of value. *)
Definition descending (l : list (string * Qc)) : Prop :=
  Sorted (fun x y : string * Qc => (snd y <= snd x)%Qc) l.

(** ** The stand-in, continued *)
Module BenchMore.

(** A host configured with an empty key. *)
Definition keyless_host : Host := {|
  API_KEY := "";
  uuid4_str := uuid4_str Bench.host;
  utcnow_isoformat := utcnow_isoformat Bench.host;
  base64_b64decode := base64_b64decode Bench.host;
  format_percent := format_percent Bench.host;
  os_open_wb := os_open_wb Bench.host
|}.

(** The share of the stumps that test each of the 48 features. *)
Definition importances (forest : list Bench.tree) : list Qc :=
  map (fun i : nat =>
         Q2Qc (Z.of_nat (List.length
                 (List.filter (fun t => match t with
                                        | Bench.Node f _ _ _ => Nat.eqb f i
                                        | Bench.Leaf _ => false
                                        end) forest))
               # Pos.of_nat (List.length forest)))
      (seq 0 48).

(** Rounding to [n] decimals, halves up. *)
Definition round (q : Qc) (n : Z) : Qc :=
  Q2Qc (Qfloor (q * (10 ^ n) + 0.5)%Q # Z.to_pos (10 ^ n)).

Definition predict_voice_api
    : UploadFile.t -> string -> M Bench.W PredictResponse.t :=
  predict_voice_api Bench.librosa Bench.numpy Bench.sklearn Bench.host round.

Definition get_feature_importance : M Bench.W (list (string * Qc)) :=
  get_feature_importance Bench.sklearn importances.

(** The recording uploaded as [voice.sample.wav]. *)
Definition upload : UploadFile.t :=
  UploadFile.Build (Some "voice.sample.wav") Bench.recording_bytes.

(** The 1024 bytes of [Bench.request 339 "QQ=="], uploaded as [clip.wav]. *)
Definition clip : UploadFile.t :=
  UploadFile.Build (Some "clip.wav") (Bench.payload 339 "QQ==").

(** A librosa whose onset detection always fails. *)
Definition onsetless_librosa : Librosa Z (list Z) := {|
  librosa_load := librosa_load Bench.librosa;
  librosa_mfcc := librosa_mfcc Bench.librosa;
  librosa_spectral_centroid := librosa_spectral_centroid Bench.librosa;
  librosa_spectral_rolloff := librosa_spectral_rolloff Bench.librosa;
  librosa_spectral_bandwidth := librosa_spectral_bandwidth Bench.librosa;
  librosa_zero_crossing_rate := librosa_zero_crossing_rate Bench.librosa;
  librosa_onset_strength := fun y sr =>
    Raise (LibraryError "ParameterError" "onset detection failed");
  librosa_chroma_stft := librosa_chroma_stft Bench.librosa
|}.

(** A process that has bootstrapped its model. *)
Definition ready : Bench.W :=
  snd (initialize_model Bench.numpy Bench.sklearn Bench.fresh).

(** The recording beside two artifacts that are not pickles. *)
Definition corrupted : Bench.W :=
  World (<[MODEL_PATH := FBytes []]>
           (<[SCALER_PATH := FBytes []]> (fs Bench.recording))) 0 0 [].

End BenchMore.

(** * Properties *)

Create HintDb py discriminated.

#[global] Hint Unfold mbind mret M_bind M_ret result_mbind result_ret
  bind ret raise lift try_except try_finally result_bind any_Exception : py.

(** Unfolds the monad, then splits on the outcome of each call in turn. *)
Ltac py_unfold := autounfold with py in *; cbn beta iota in *.

Ltac py_inv :=
  repeat match goal with
         | H : (_, _) = (_, _) |- _ => inversion H; clear H; subst
         | H : Ok _ = Ok _ |- _ => inversion H; clear H; subst
         | H : Raise _ = Raise _ |- _ => inversion H; clear H; subst
         | H : Ok _ = Raise _ |- _ => discriminate H
         | H : Raise _ = Ok _ |- _ => discriminate H
         end.

(** Splits on the innermost call whose outcome the goal inspects. *)
Ltac py_case :=
  match goal with
  | |- context [match ?x with _ => _ end] =>
      lazymatch x with
      | context [match _ with _ => _ end] => fail
      | _ => destruct x eqn:?
      end
  end.

Section Properties.

Context {float wave Scaler Model rng : Type}.
Variable librosa : Librosa float wave.
Variable np : Numpy float rng.
Variable sklearn : Sklearn float Scaler Model.
Variable host : Host.

#[local] Abbreviation W := (world Scaler Model).

(** ** The log only grows *)

Lemma extends_ret {A} (a : A) : extends (@ret W A a).
Proof. intros w. exists []. cbn. by rewrite app_nil_r. Qed.

Lemma extends_raise {A} (e : exn) : extends (@raise W A e).
Proof. intros w. exists []. cbn. by rewrite app_nil_r. Qed.

Lemma extends_lift {A} (r : result A) : extends (@lift W A r).
Proof. intros w. exists []. cbn. by rewrite app_nil_r. Qed.

Lemma extends_bind {A B} (c : M W A) (k : A -> M W B) :
  extends c -> (forall a, extends (k a)) -> extends (bind c k).
Proof.
  intros Hc Hk w. unfold bind. destruct (Hc w) as [l Hl].
  destruct (c w) as [[a|e] w1]; cbn in *.
  - destruct (Hk a w1) as [l' Hl']. exists (l ++ l')%list.
    by rewrite Hl', Hl, app_assoc.
  - by exists l.
Qed.

Lemma extends_try_except {A} (c : M W A) catches (h : exn -> M W A) :
  extends c -> (forall e, extends (h e)) -> extends (try_except c catches h).
Proof.
  intros Hc Hh w. unfold try_except. destruct (Hc w) as [l Hl].
  destruct (c w) as [[a|e] w1]; cbn in *.
  - by exists l.
  - destruct (catches e); [|by exists l].
    destruct (Hh e w1) as [l' Hl']. exists (l ++ l')%list.
    by rewrite Hl', Hl, app_assoc.
Qed.

Lemma extends_emit (e : event) : extends (@emit Scaler Model e).
Proof. intros w. by exists [e]. Qed.

Lemma extends_write_file path c : extends (@write_file Scaler Model path c).
Proof. intros w. by exists [EvWrite path]. Qed.

Lemma extends_open_rb path : extends (@open_rb Scaler Model path).
Proof.
  intros w. exists []. unfold open_rb. rewrite app_nil_r.
  by destruct (fs w !! path).
Qed.

Lemma extends_os_path_exists path : extends (@os_path_exists Scaler Model path).
Proof. intros w. exists []. cbn. by rewrite app_nil_r. Qed.

(** ** Feature extraction *)

(** The [try] block of [extract_features] only reads the world. *)
Lemma extract_features_try_reads (path : string) (w : W) :
  snd (extract_features_try librosa np path w) = w.
Proof.
  unfold extract_features_try, load_audio, open_rb. py_unfold.
  repeat case_match; py_inv; reflexivity.
Qed.

Lemma extract_features_try_analysed (path : string) (w : W)
    mfcc centroid rolloff bandwidth zcr chroma :
  analysed librosa w path mfcc centroid rolloff bandwidth zcr chroma ->
  extract_features_try librosa np path w
  = (Ok (assembled np mfcc centroid rolloff bandwidth zcr chroma), w).
Proof.
  intros (b & y & sr & c1 & c2 & c3 & c4 & onset & Hf & Hl & H1 & H2 & H3
          & H4 & H5 & H6 & H7).
  unfold extract_features_try, load_audio, open_rb. py_unfold.
  rewrite Hf. cbn. rewrite Hl. cbn. rewrite H1. cbn. rewrite H2. cbn.
  rewrite H3. cbn. rewrite H4. cbn. rewrite H5. cbn. rewrite H6. cbn.
  rewrite H7. reflexivity.
Qed.

Lemma list_of_length_20 {A} (l : list A) :
  List.length l = 20%nat ->
  exists a0 a1 a2 a3 a4 a5 a6 a7 a8 a9 b0 b1 b2 b3 b4 b5 b6 b7 b8 b9,
    l = [a0; a1; a2; a3; a4; a5; a6; a7; a8; a9;
         b0; b1; b2; b3; b4; b5; b6; b7; b8; b9].
Proof.
  intros H.
  do 20 (destruct l as [|? l]; [discriminate H|]).
  destruct l; [|discriminate H]. repeat eexists.
Qed.

Lemma assembled_layout mfcc centroid rolloff bandwidth zcr chroma :
  List.length mfcc = 20%nat ->
  feature_layout np mfcc centroid rolloff bandwidth zcr chroma
    (assembled np mfcc centroid rolloff bandwidth zcr chroma).
Proof.
  intros H. apply list_of_length_20 in H.
  destruct H as (a0 & a1 & a2 & a3 & a4 & a5 & a6 & a7 & a8 & a9 & b0 & b1
                 & b2 & b3 & b4 & b5 & b6 & b7 & b8 & b9 & ->).
  unfold feature_layout, assembled, np_hstack.
  repeat split; try reflexivity.
  - intros i Hi. do 20 (destruct i as [|i]; [reflexivity|]). lia.
  - intros i Hi. do 20 (destruct i as [|i]; [reflexivity|]). lia.
Qed.

(** C1, as the code has it.  A file that decodes is not enough: the
    feature functions run inside the same [try], and a signal they refuse
    gets no vector.  Whenever the decoding and the feature functions succeed
    on the file at [path] (and librosa returns the 20 MFCC rows it was asked
    for), [extract_features] returns a vector of exactly 48 values: the 20 MFCC
    means at 0..19, the 20 MFCC standard deviations at 20..39, then the
    centroid mean and std, the rolloff mean and std, the bandwidth mean, the
    zero-crossing mean and std, and at 47 the mean of the whole chroma
    array. *)
Theorem extract_features_layout (path : string) (w : W)
    mfcc centroid rolloff bandwidth zcr chroma :
  mfcc_contract librosa ->
  analysed librosa w path mfcc centroid rolloff bandwidth zcr chroma ->
  exists v : list float,
    fst (extract_features librosa np path w) = Ok v /\
    List.length v = 48%nat /\
    feature_layout np mfcc centroid rolloff bandwidth zcr chroma v.
Proof.
  intros Hmfcc Han.
  exists (assembled np mfcc centroid rolloff bandwidth zcr chroma).
  assert (Hlen : List.length mfcc = 20%nat).
  { destruct Han as (b & y & sr & _ & _ & _ & _ & _ & _ & _ & Hm & _).
    exact (Hmfcc _ _ _ _ Hm). }
  pose proof (assembled_layout mfcc centroid rolloff bandwidth zcr chroma Hlen)
    as Hlay.
  split; [|split; [apply Hlay | exact Hlay]].
  unfold extract_features, emit. py_unfold.
  rewrite (extract_features_try_analysed path _ mfcc centroid rolloff
             bandwidth zcr chroma); [reflexivity|].
  destruct Han as (b & y & sr & c1 & c2 & c3 & c4 & onset & Hf & Hrest).
  exists b, y, sr, c1, c2, c3, c4, onset. split; [exact Hf | exact Hrest].
Qed.

(** The outcome of the [try] block depends on the file system only. *)
Lemma extract_features_try_fs (path : string) (w1 w2 : W) :
  fs w1 = fs w2 ->
  fst (extract_features_try librosa np path w1)
  = fst (extract_features_try librosa np path w2).
Proof.
  intros H. unfold extract_features_try, load_audio, open_rb, row0. py_unfold.
  rewrite H. repeat (py_case; cbn; try reflexivity).
Qed.

Lemma extract_features_unfold (path : string) (w : W) :
  extract_features librosa np path w
  = (match fst (extract_features_try librosa np path w) with
     | Ok v => Ok v
     | Raise e => Raise (Exception ("Feature extraction failed: " ++ str e))
     end, snd (emit (EvExtract path) w)).
Proof.
  unfold extract_features. py_unfold.
  set (w0 := snd (emit (EvExtract path) w)).
  change (emit (EvExtract path) w) with (Ok tt, w0). cbn beta iota.
  pose proof (extract_features_try_reads path w0) as Hw.
  pose proof (extract_features_try_fs path w0 w eq_refl) as Hr.
  destruct (extract_features_try librosa np path w0) as [r w1].
  cbn [fst snd] in Hw, Hr. cbn beta iota. subst w1. rewrite <- Hr.
  destruct r; reflexivity.
Qed.

(** A returned vector is the one assembled from a complete analysis. *)
Lemma extract_features_try_ok_inv (path : string) (w : W) (v : list float) :
  fst (extract_features_try librosa np path w) = Ok v ->
  exists mfcc centroid rolloff bandwidth zcr chroma,
    analysed librosa w path mfcc centroid rolloff bandwidth zcr chroma /\
    v = assembled np mfcc centroid rolloff bandwidth zcr chroma.
Proof.
  unfold extract_features_try, load_audio, open_rb, row0. py_unfold.
  intros H.
  destruct (fs w !! path) as [[b|o]|] eqn:Hf; cbn in H; try discriminate H.
  destruct (librosa_load librosa path b 16000 10) as [[y sr]|] eqn:Hl;
    cbn in H; try discriminate H.
  destruct (librosa_mfcc librosa y sr 20) as [mfcc|] eqn:H1;
    cbn in H; try discriminate H.
  destruct (librosa_spectral_centroid librosa y sr) as [[|centroid c1]|] eqn:H2;
    cbn in H; try discriminate H.
  destruct (librosa_spectral_rolloff librosa y sr) as [[|rolloff c2]|] eqn:H3;
    cbn in H; try discriminate H.
  destruct (librosa_spectral_bandwidth librosa y sr) as [[|bandwidth c3]|] eqn:H4;
    cbn in H; try discriminate H.
  destruct (librosa_zero_crossing_rate librosa y) as [[|zcr c4]|] eqn:H5;
    cbn in H; try discriminate H.
  destruct (librosa_onset_strength librosa y sr) as [onset|] eqn:H6;
    cbn in H; try discriminate H.
  destruct (librosa_chroma_stft librosa y sr) as [chroma|] eqn:H7;
    cbn in H; try discriminate H.
  inversion H; subst; clear H.
  exists mfcc, centroid, rolloff, bandwidth, zcr, chroma. split; [|reflexivity].
  exists b, y, sr, c1, c2, c3, c4, onset. repeat split; assumption.
Qed.

(** ** The checks of [detect] *)

Lemma detect_unauthorized data key (w : W) :
  validate_api_key host key = false ->
  detect librosa np sklearn host data key w
  = (Raise (HTTPException 401 "Invalid or missing API key"), w).
Proof. intros H. unfold detect. rewrite H. reflexivity. Qed.

Lemma detect_unsupported_language data key (w : W) :
  validate_api_key host key = true ->
  validate_language (AudioRequest.language data) = false ->
  detect librosa np sklearn host data key w
  = (Raise (HTTPException 400
       "Unsupported language. Supported: tamil, english, hindi, malayalam, telugu"),
     w).
Proof. intros H1 H2. unfold detect. rewrite H1, H2. reflexivity. Qed.

Lemma detect_empty_payload data key (w : W) :
  validate_api_key host key = true ->
  validate_language (AudioRequest.language data) = true ->
  AudioRequest.audio_base64 data = "" ->
  detect librosa np sklearn host data key w
  = (Raise (HTTPException 400 "audio_base64 cannot be empty"), w).
Proof.
  intros H1 H2 H3. unfold detect. rewrite H1, H2, H3. reflexivity.
Qed.

(** Past the gates, [detect] is its [try] statement. *)
Lemma detect_past_gates data key (w : W) :
  gates_pass host data key ->
  detect librosa np sklearn host data key w
  = try_except
      (audio_bytes ←
         try_except (lift (base64_b64decode host (AudioRequest.audio_base64 data)))
           any_Exception
           (fun e => raise (HTTPException 400
                              ("Invalid base64 encoding: " ++ str e)));
       if bool_decide (len audio_bytes > 25 * 1024 * 1024) then
         raise (HTTPException 413 "Audio file too large (max 25MB)")
       else if bool_decide (len audio_bytes < 1024) then
         raise (HTTPException 400 "Audio file too small")
       else
         u ← uuid4 host;
         let filename := u ++ "." ++ AudioRequest.audio_format data in
         let file_path := os_path_join UPLOAD_DIR filename in
         detect_staged librosa np sklearn host data audio_bytes file_path)
      (fun e => negb (is_HTTPException e))
      (fun e => raise (HTTPException 500 ("Internal server error: " ++ str e)))
      w.
Proof.
  intros (H1 & H2 & H3). unfold detect. rewrite H1, H2. cbn.
  rewrite bool_decide_eq_false_2 by exact H3. reflexivity.
Qed.

Lemma detect_bad_base64 data key (w : W) (e : exn) :
  gates_pass host data key ->
  base64_b64decode host (AudioRequest.audio_base64 data) = Raise e ->
  detect librosa np sklearn host data key w
  = (Raise (HTTPException 400 ("Invalid base64 encoding: " ++ str e)), w).
Proof.
  intros Hg Hd. rewrite detect_past_gates by exact Hg. py_unfold.
  rewrite Hd. reflexivity.
Qed.

Lemma detect_too_large data key (w : W) (b : list byte) :
  gates_pass host data key ->
  base64_b64decode host (AudioRequest.audio_base64 data) = Ok b ->
  len b > 26214400 ->
  detect librosa np sklearn host data key w
  = (Raise (HTTPException 413 "Audio file too large (max 25MB)"), w).
Proof.
  intros Hg Hd Hlen. rewrite detect_past_gates by exact Hg. py_unfold.
  rewrite Hd. rewrite bool_decide_eq_true_2 by lia. reflexivity.
Qed.

Lemma detect_too_small data key (w : W) (b : list byte) :
  gates_pass host data key ->
  base64_b64decode host (AudioRequest.audio_base64 data) = Ok b ->
  len b < 1024 ->
  detect librosa np sklearn host data key w
  = (Raise (HTTPException 400 "Audio file too small"), w).
Proof.
  intros Hg Hd Hlen. rewrite detect_past_gates by exact Hg. py_unfold.
  rewrite Hd. rewrite bool_decide_eq_false_2 by lia.
  rewrite bool_decide_eq_true_2 by lia. reflexivity.
Qed.

(** When [open] refuses the path, the staged part raises what [open]
    raised, with nothing written. *)
Lemma detect_staged_refused data b path (w : W) cls msg :
  os_open_wb host path = Some (cls, msg) ->
  detect_staged librosa np sklearn host data b path w
  = (Raise (LibraryError cls msg), cleanup_file path w).
Proof.
  intros Ho. unfold detect_staged, try_finally, write_upload. py_unfold.
  rewrite Ho. reflexivity.
Qed.

(** Once the file is created, the staged part returns a response or raises
    a 422. *)
Lemma detect_staged_outcome data b path (w : W) :
  os_open_wb host path = None ->
  (exists resp, fst (detect_staged librosa np sklearn host data b path w) = Ok resp)
  \/ (exists detail,
        fst (detect_staged librosa np sklearn host data b path w)
        = Raise (HTTPException 422 detail)).
Proof.
  intros Ho.
  unfold detect_staged, write_upload, write_file, utcnow. py_unfold.
  rewrite Ho. cbn beta iota.
  destruct (predict_voice _ _ _ _ _) as [[[label confidence]|e] w1]; cbn.
  - left. eexists. reflexivity.
  - right. eexists. reflexivity.
Qed.

Lemma detect_in_bounds_staged data key (w : W) (b : list byte) :
  gates_pass host data key ->
  base64_b64decode host (AudioRequest.audio_base64 data) = Ok b ->
  1024 <= len b <= 26214400 ->
  detect librosa np sklearn host data key w
  = try_except
      (detect_staged librosa np sklearn host data b (staged_path host data w))
      (fun e => negb (is_HTTPException e))
      (fun e => raise (HTTPException 500 ("Internal server error: " ++ str e)))
      (after_uuid w).
Proof.
  intros Hg Hd Hlen. rewrite detect_past_gates by exact Hg.
  unfold try_except at 1. unfold mbind, M_bind, bind.
  unfold try_except at 1. unfold lift. rewrite Hd.
  rewrite bool_decide_eq_false_2 by lia.
  rewrite bool_decide_eq_false_2 by lia.
  unfold uuid4. fold (after_uuid w). fold (staged_path host data w).
  reflexivity.
Qed.

(** Within the bounds, and the file created, [detect] is its staged part. *)
Lemma detect_in_bounds data key (w : W) (b : list byte) :
  gates_pass host data key ->
  base64_b64decode host (AudioRequest.audio_base64 data) = Ok b ->
  1024 <= len b <= 26214400 ->
  os_open_wb host (staged_path host data w) = None ->
  detect librosa np sklearn host data key w
  = detect_staged librosa np sklearn host data b
      (staged_path host data w) (after_uuid w).
Proof.
  intros Hg Hd Hlen Ho. rewrite (detect_in_bounds_staged _ _ _ b) by done.
  unfold try_except.
  destruct (detect_staged_outcome data b (staged_path host data w)
              (after_uuid w) Ho) as [[resp H]|[detail H]];
    destruct (detect_staged _ _ _ _ _ _ _ _) as [r w1]; cbn in H; subst;
    reflexivity.
Qed.

(** Within the bounds, and the file refused, [detect] answers 500 quoting
    the message of [open]; nothing was written. *)
Lemma detect_in_bounds_refused data key (w : W) (b : list byte) cls msg :
  gates_pass host data key ->
  base64_b64decode host (AudioRequest.audio_base64 data) = Ok b ->
  1024 <= len b <= 26214400 ->
  os_open_wb host (staged_path host data w) = Some (cls, msg) ->
  detect librosa np sklearn host data key w
  = (Raise (HTTPException 500 ("Internal server error: " ++ msg)),
     cleanup_file (staged_path host data w) (after_uuid w)).
Proof.
  intros Hg Hd Hlen Ho. rewrite (detect_in_bounds_staged _ _ _ b) by done.
  unfold try_except. rewrite (detect_staged_refused _ _ _ _ cls msg Ho).
  reflexivity.
Qed.

(** ** What each call adds to the log *)

#[local] Hint Resolve extends_ret extends_raise extends_lift extends_emit
  extends_write_file extends_open_rb extends_os_path_exists : py.

(** Proves [extends] for a call built from calls known to extend the log. *)
Ltac extends_tac :=
  repeat first
    [ solve [auto with py]
    | progress unfold mbind, mret, M_bind, M_ret
    | apply extends_bind
    | apply extends_try_except
    | match goal with
      | |- forall _ : _ * _, _ => intros [? ?]
      | |- forall _, _ => intros ?
      | |- extends (match ?x with _ => _ end) => destruct x
      | |- extends (if ?x then _ else _) => destruct x
      end ].

Lemma extends_extract_features path :
  extends (extract_features (Scaler:=Scaler) (Model:=Model) librosa np path).
Proof.
  unfold extract_features, extract_features_try, load_audio. extends_tac.
Qed.

Lemma extends_train_model X y : extends (train_model sklearn X y).
Proof. unfold train_model. extends_tac. Qed.

Lemma extends_initialize_model : extends (initialize_model np sklearn).
Proof.
  pose proof extends_train_model.
  unfold initialize_model. extends_tac.
Qed.

Lemma extends_load_model : extends (load_model sklearn).
Proof. unfold load_model, pickle_load. extends_tac. Qed.

Lemma extends_predict_voice_try path :
  extends (predict_voice_try librosa np sklearn path).
Proof.
  pose proof extends_initialize_model. pose proof extends_load_model.
  pose proof extends_extract_features.
  unfold predict_voice_try. extends_tac.
Qed.

(** [predict_voice] logs its own call first. *)
Lemma predict_voice_log path (w : W) :
  exists l : list event,
    log (snd (predict_voice librosa np sklearn path w))
    = (log w ++ EvPredictVoice path :: l)%list.
Proof.
  assert (He : extends (try_except (predict_voice_try librosa np sklearn path)
                          any_Exception
                          (fun e => raise (Exception ("Prediction failed: " ++ str e))))).
  { pose proof extends_predict_voice_try. extends_tac. }
  unfold predict_voice. unfold mbind, M_bind, bind, emit.
  match goal with
  | |- context [try_except ?c ?p ?h ?w0] =>
      destruct (He w0) as [l Hl]; exists l;
      destruct (try_except c p h w0) as [[r|e] w1]
  end; cbn in *; rewrite Hl, <- app_assoc; reflexivity.
Qed.

(** The staged part writes the upload, then calls [predict_voice] on it. *)
Lemma detect_staged_log data b path (w : W) :
  os_open_wb host path = None ->
  exists l : list event,
    log (snd (detect_staged librosa np sklearn host data b path w))
    = (log w ++ EvWrite path :: EvPredictVoice path :: l)%list.
Proof.
  intros Ho.
  unfold detect_staged, try_finally, write_upload, write_file, utcnow.
  py_unfold. rewrite Ho. cbn beta iota.
  match goal with
  | |- context [predict_voice librosa np sklearn path ?w0] =>
      destruct (predict_voice_log path w0) as [l Hl];
      destruct (predict_voice librosa np sklearn path w0) as [[[label conf]|e] w1]
  end; cbn in *; unfold cleanup_file, os_remove;
    case_bool_decide; cbn; rewrite Hl, <- ?app_assoc; cbn;
    eexists; reflexivity.
Qed.

Lemma added_app (w w' : W) (l : list event) :
  log w' = (log w ++ l)%list -> added w w' = l.
Proof. intros H. unfold added. rewrite H. apply drop_app_length. Qed.

Lemma added_same (w : W) : added w w = [].
Proof. apply added_app. by rewrite app_nil_r. Qed.

(** Within the bounds, and the file created, the only error is the 422 of
    the staged part. *)
Lemma detect_in_bounds_raises data key (w : W) (b : list byte) (e : exn) :
  gates_pass host data key ->
  base64_b64decode host (AudioRequest.audio_base64 data) = Ok b ->
  1024 <= len b <= 26214400 ->
  os_open_wb host (staged_path host data w) = None ->
  fst (detect librosa np sklearn host data key w) = Raise e ->
  exists detail, e = HTTPException 422 detail.
Proof.
  intros Hg Hd Hlen Ho He. rewrite (detect_in_bounds _ _ _ b) in He by done.
  destruct (detect_staged_outcome data b (staged_path host data w)
              (after_uuid w) Ho)
    as [[resp H]|[detail H]]; rewrite H in He; [discriminate He|].
  inversion He. by exists detail.
Qed.

(** Within the bounds every error is a 422 or a 500. *)
Lemma detect_in_bounds_error data key (w : W) (b : list byte) (e : exn) :
  gates_pass host data key ->
  base64_b64decode host (AudioRequest.audio_base64 data) = Ok b ->
  1024 <= len b <= 26214400 ->
  fst (detect librosa np sklearn host data key w) = Raise e ->
  exists code detail,
    e = HTTPException code detail /\ (code = 422 \/ code = 500).
Proof.
  intros Hg Hd Hlen He.
  destruct (os_open_wb host (staged_path host data w)) as [[cls msg]|] eqn:Ho.
  - rewrite (detect_in_bounds_refused _ _ _ b cls msg) in He by done.
    inversion He. eexists _, _. split; [reflexivity|by right].
  - destruct (detect_in_bounds_raises _ _ _ b e Hg Hd Hlen Ho He)
      as [detail ->].
    eexists _, _. split; [reflexivity|by left].
Qed.

(** The staged part logs the write, then the call of [predict_voice]. *)
Lemma detect_in_bounds_added data key (w : W) (b : list byte) :
  gates_pass host data key ->
  base64_b64decode host (AudioRequest.audio_base64 data) = Ok b ->
  1024 <= len b <= 26214400 ->
  os_open_wb host (staged_path host data w) = None ->
  exists l,
    added w (snd (detect librosa np sklearn host data key w))
    = EvWrite (staged_path host data w)
        :: EvPredictVoice (staged_path host data w) :: l.
Proof.
  intros Hg Hd Hlen Ho. rewrite (detect_in_bounds _ _ _ b) by done.
  destruct (detect_staged_log data b (staged_path host data w) (after_uuid w) Ho)
    as [l Hl].
  exists l. apply added_app. exact Hl.
Qed.

(** A refused upload adds nothing to the log unless a file was in the way. *)
Lemma detect_in_bounds_refused_added data key (w : W) (b : list byte) cls msg :
  gates_pass host data key ->
  base64_b64decode host (AudioRequest.audio_base64 data) = Ok b ->
  1024 <= len b <= 26214400 ->
  os_open_wb host (staged_path host data w) = Some (cls, msg) ->
  calls (EvPredictVoice (staged_path host data w))
    (added w (snd (detect librosa np sklearn host data key w))) = 0%nat /\
  (fs w !! staged_path host data w = None ->
   added w (snd (detect librosa np sklearn host data key w)) = []).
Proof.
  intros Hg Hd Hlen Ho.
  rewrite (detect_in_bounds_refused _ _ _ b cls msg) by done. cbn [snd].
  unfold cleanup_file, os_remove.
  destruct (bool_decide (is_Some (fs (after_uuid w) !! staged_path host data w)))
    eqn:Hex.
  - split.
    + erewrite (added_app w (World _ _ _ _) [EvRemove _]) by reflexivity.
      unfold calls. cbn. by rewrite decide_False.
    + intros Hnone. apply bool_decide_eq_true in Hex. cbn in Hex.
      rewrite Hnone in Hex. by destruct Hex.
  - split; [|intros _]; by rewrite (added_app w (after_uuid w) [])
      by (cbn; by rewrite app_nil_r).
Qed.

(** ** The size bound *)

(** C2.  When the decoded payload is shorter than 1024 bytes or longer than
    26214400 bytes, [detect] raises an HTTP error and leaves the world as it
    found it: nothing is staged, no call is logged, so neither decoding of
    the audio nor feature extraction is attempted.  For a request that
    passed the key, language and emptiness checks the error is the 413 "too
    large" or the 400 "too small" of the size check. *)
Theorem detect_rejects_out_of_bounds data key (w : W) (b : list byte) :
  base64_b64decode host (AudioRequest.audio_base64 data) = Ok b ->
  len b < 1024 \/ len b > 26214400 ->
  (exists code detail,
     detect librosa np sklearn host data key w
     = (Raise (HTTPException code detail), w) /\
     (code = 401 \/ code = 400 \/ code = 413)) /\
  added w (snd (detect librosa np sklearn host data key w)) = [] /\
  (gates_pass host data key ->
     (len b > 26214400 ->
      detect librosa np sklearn host data key w
      = (Raise (HTTPException 413 "Audio file too large (max 25MB)"), w)) /\
     (len b < 1024 ->
      detect librosa np sklearn host data key w
      = (Raise (HTTPException 400 "Audio file too small"), w))).
Proof.
  intros Hd Hlen.
  assert (Hraise : exists code detail,
     detect librosa np sklearn host data key w
     = (Raise (HTTPException code detail), w) /\
     (code = 401 \/ code = 400 \/ code = 413)).
  { destruct (validate_api_key host key) eqn:Hk.
    2:{ eexists _, _. split; [by apply detect_unauthorized|]. by left. }
    destruct (validate_language (AudioRequest.language data)) eqn:Hl.
    2:{ eexists _, _. split; [by apply detect_unsupported_language|].
        right; by left. }
    destruct (decide (AudioRequest.audio_base64 data = "")) as [He|He].
    { eexists _, _. split; [by apply detect_empty_payload|]. right; by left. }
    assert (Hg : gates_pass host data key) by done.
    destruct (Z_lt_le_dec 26214400 (len b)) as [Hbig|Hsmall].
    - eexists _, _. split; [apply (detect_too_large _ _ _ b); [done..|lia]|].
      right; by right.
    - eexists _, _. split; [apply (detect_too_small _ _ _ b); [done..|lia]|].
      right; by left. }
  split; [exact Hraise|]. split.
  - destruct Hraise as (code & detail & -> & _). apply added_same.
  - intros Hg. split; intros H.
    + by apply (detect_too_large _ _ _ b).
    + by apply (detect_too_small _ _ _ b).
Qed.


(** ** The declared format *)

(** C5, as the code has it.  [detect] never inspects the declared format: a
    request past the key, language and emptiness checks whose payload
    decodes to a length within the bounds is staged under
    [temp_audio/<uuid>.<format>], whatever the format is.  When that file
    is created it is handed to [predict_voice], and the only error the
    request can then get is the 422 of a failed prediction; when [open]
    refuses the path, the request is answered with a 500 and
    [predict_voice] is not called. *)
Theorem detect_ignores_format data key (w : W) (b : list byte) :
  gates_pass host data key ->
  base64_b64decode host (AudioRequest.audio_base64 data) = Ok b ->
  1024 <= len b <= 26214400 ->
  staged_path host data w
  = "temp_audio/" ++ uuid4_str host (entropy w) ++ "."
      ++ AudioRequest.audio_format data /\
  (os_open_wb host (staged_path host data w) = None ->
   (exists l,
      added w (snd (detect librosa np sklearn host data key w))
      = EvWrite (staged_path host data w)
          :: EvPredictVoice (staged_path host data w) :: l) /\
   (forall e, fst (detect librosa np sklearn host data key w) = Raise e ->
      exists detail, e = HTTPException 422 detail)) /\
  (forall cls msg,
     os_open_wb host (staged_path host data w) = Some (cls, msg) ->
     fst (detect librosa np sklearn host data key w)
     = Raise (HTTPException 500 ("Internal server error: " ++ msg)) /\
     calls (EvPredictVoice (staged_path host data w))
       (added w (snd (detect librosa np sklearn host data key w))) = 0%nat).
Proof.
  intros Hg Hd Hlen. split; [reflexivity|]. split.
  - intros Ho. split.
    + by apply (detect_in_bounds_added _ _ _ b).
    + intros e He. by apply (detect_in_bounds_raises data key w b).
  - intros cls msg Ho. split.
    + by rewrite (detect_in_bounds_refused _ _ _ b cls msg).
    + by apply (detect_in_bounds_refused_added _ _ _ b cls msg).
Qed.

Lemma load_model_unfold (w : W) :
  load_model sklearn w
  = (match fs w !! MODEL_PATH with
     | None => Raise (Exception
         ("Model files not found. Please train the model first using train_model() "
          ++ "or run initialize_model() to create an initial model."))
     | Some (FBytes b) =>
         Raise (not_found_as_missing (pickle_load_error sklearn b))
     | Some (FPickle model) =>
         match fs w !! SCALER_PATH with
         | None => Raise (Exception
             ("Model files not found. Please train the model first using train_model() "
              ++ "or run initialize_model() to create an initial model."))
         | Some (FBytes b) =>
             Raise (not_found_as_missing (pickle_load_error sklearn b))
         | Some (FPickle scaler) => Ok (model, scaler)
         end
     end, snd (emit EvLoadModel w)).
Proof.
  unfold load_model, pickle_load, open_rb, emit, not_found_as_missing.
  py_unfold. cbn.
  destruct (fs w !! MODEL_PATH) as [[b|?]|]; cbn; try reflexivity.
  - by destruct (is_FileNotFoundError _).
  - destruct (fs w !! SCALER_PATH) as [[b|?]|]; cbn; try reflexivity.
    by destruct (is_FileNotFoundError _).
Qed.

Lemma predict_voice_ok_inv path (w w' : W) label conf :
  predict_voice librosa np sklearn path w = (Ok (label, conf), w') ->
  exists (m : Model) (s : Scaler) (v : list float) (X : matrix float)
         (prediction : Z) (cs : list Z) (probabilities : list Qc)
         (rows : list (list Qc)),
    fs w' !! MODEL_PATH = Some (FPickle (PyModel m)) /\
    fs w' !! SCALER_PATH = Some (FPickle (PyScaler s)) /\
    fst (extract_features_try librosa np path w') = Ok v /\
    scaler_transform sklearn s [v] = Ok X /\
    forest_predict sklearn m X = Ok (prediction :: cs) /\
    forest_predict_proba sklearn m X = Ok (probabilities :: rows) /\
    py_max probabilities = Ok conf /\
    label = (if bool_decide (prediction = 1) then "AI_GENERATED" else "HUMAN").
Proof.
  unfold predict_voice, predict_voice_try. py_unfold. unfold emit at 1.
  cbn beta iota.
  destruct (initialize_model np sklearn _) as [[[]|e0] w1]; cbn beta iota;
    [|intros H; discriminate H].
  rewrite load_model_unfold.
  destruct (fs w1 !! MODEL_PATH) as [[?|model]|] eqn:Hm; cbn;
    try (intros H; discriminate H).
  destruct (fs w1 !! SCALER_PATH) as [[?|scaler]|] eqn:Hs; cbn;
    try (intros H; discriminate H).
  rewrite extract_features_unfold. cbn.
  destruct (fst (extract_features_try librosa np path _)) as [v|] eqn:Hv; cbn;
    [|intros H; discriminate H].
  destruct scaler as [?|s]; cbn; [intros H; discriminate H|].
  destruct (scaler_transform sklearn s [v]) as [X|] eqn:HX; cbn;
    [|intros H; discriminate H].
  destruct model as [m|?]; cbn; [|intros H; discriminate H].
  destruct (forest_predict sklearn m X) as [[|prediction cs]|] eqn:Hp; cbn;
    try (intros H; discriminate H).
  destruct (forest_predict_proba sklearn m X) as [[|probabilities rows]|] eqn:Hq;
    cbn; try (intros H; discriminate H).
  destruct (py_max probabilities) as [c|] eqn:Hc; cbn;
    [|intros H; discriminate H].
  intros H. inversion H; subst; clear H. cbn.
  exists m, s, v, X, prediction, cs, probabilities, rows.
  repeat split; try assumption.
  erewrite extract_features_try_fs; [exact Hv|reflexivity].
Qed.
(** ** Confidence and label *)

(** The index [np.argmax] returns holds the value [max] returns. *)
Lemma first_max_spec (l pre : list Qc) (best : Qc) (i : nat) :
  pre !! i = Some best ->
  (pre ++ l)%list !! first_max best i (List.length pre) l
  = Some (max_from best l).
Proof.
  revert pre best i. induction l as [|x l IH]; intros pre best i Hi; cbn.
  - rewrite app_nil_r. exact Hi.
  - replace (pre ++ x :: l)%list with ((pre ++ [x]) ++ l)%list
      by (by rewrite <- app_assoc).
    replace (S (List.length pre)) with (List.length (pre ++ [x]))
      by (rewrite length_app; cbn; lia).
    destruct (Qclt_le_dec best x) as [Hlt|Hle].
    + replace (List.length pre) with (List.length pre + 0)%nat at 1 by lia.
      apply IH. rewrite Nat.add_0_r. by rewrite list_lookup_middle.
    + apply IH. by apply lookup_app_l_Some.
Qed.

Lemma np_argmax_spec (row : list Qc) (c : Qc) :
  py_max row = Ok c -> row !! Z.to_nat (np_argmax row) = Some c.
Proof.
  destruct row as [|x l]; cbn; intros H; [discriminate H|].
  inversion H; subst c. rewrite Nat2Z.id.
  apply (first_max_spec l [x] x 0%nat). reflexivity.
Qed.

Lemma py_max_pair (p0 p1 : Qc) :
  exists c, py_max [p0; p1] = Ok c /\
    (p0 <= c)%Qc /\ (p1 <= c)%Qc /\
    ((p0 < p1)%Qc /\ c = p1 /\ np_argmax [p0; p1] = 1
     \/ (p1 <= p0)%Qc /\ c = p0 /\ np_argmax [p0; p1] = 0).
Proof.
  cbn. destruct (Qclt_le_dec p0 p1) as [Hlt|Hle]; eexists; split; try reflexivity.
  - split; [by apply Qclt_le_weak|]. split; [apply Qcle_refl|]. by left.
  - split; [apply Qcle_refl|]. split; [exact Hle|]. by right.
Qed.

(** C8.  The label of a completed prediction is the argmax class of the
    probabilities the persisted forest gives the scaled features of the
    file: [predict] returns the index of their first maximum, the code
    reports [AI_GENERATED] exactly when that index is 1 and [HUMAN]
    otherwise, and the confidence is the probability at that index.  For a
    forest of two classes: [AI_GENERATED] exactly when the probability of
    class 1 is strictly the larger, [HUMAN] otherwise (a tie included), and
    the confidence is the probability of the reported class. *)
Theorem predict_voice_label_argmax path (w w' : W) label conf :
  predict_contract sklearn ->
  predict_voice librosa np sklearn path w = (Ok (label, conf), w') ->
  exists (m : Model) (s : Scaler) (v : list float) (X : matrix float)
         (prediction : Z) (cs : list Z) (probabilities : list Qc)
         (rows : list (list Qc)),
    fs w' !! MODEL_PATH = Some (FPickle (PyModel m)) /\
    fs w' !! SCALER_PATH = Some (FPickle (PyScaler s)) /\
    fst (extract_features_try librosa np path w') = Ok v /\
    scaler_transform sklearn s [v] = Ok X /\
    forest_predict sklearn m X = Ok (prediction :: cs) /\
    forest_predict_proba sklearn m X = Ok (probabilities :: rows) /\
    prediction = np_argmax probabilities /\
    (label = "AI_GENERATED" /\ np_argmax probabilities = 1
     \/ label = "HUMAN" /\ np_argmax probabilities <> 1) /\
    probabilities !! Z.to_nat (np_argmax probabilities) = Some conf /\
    (forall p0 p1, probabilities = [p0; p1] ->
       label = "AI_GENERATED" /\ (p0 < p1)%Qc /\ conf = p1
       \/ label = "HUMAN" /\ (p1 <= p0)%Qc /\ conf = p0).
Proof.
  intros Hpredict H.
  destruct (predict_voice_ok_inv _ _ _ _ _ H)
    as (m & s & v & X & prediction & cs & probabilities & rows
        & Hm & Hs & Hv & HX & Hp & Hq & Hmax & Hlabel).
  pose proof (Hpredict _ _ _ _ Hp Hq) as Harg. cbn [map] in Harg.
  inversion Harg as [[Hpred Hcs]]. clear Harg.
  exists m, s, v, X, prediction, cs, probabilities, rows.
  repeat (split; [assumption|]).
  assert (Hcase : label = "AI_GENERATED" /\ np_argmax probabilities = 1
                  \/ label = "HUMAN" /\ np_argmax probabilities <> 1).
  { rewrite <- Hpred.
    destruct (decide (prediction = 1)) as [Hone|Hone];
      [rewrite bool_decide_eq_true_2 in Hlabel by done; by left
      |rewrite bool_decide_eq_false_2 in Hlabel by done; by right]. }
  split; [exact Hcase|]. split; [by apply np_argmax_spec|].
  intros p0 p1 ->.
  destruct (py_max_pair p0 p1) as (c & Hc & _ & _ & Hpair).
  rewrite Hc in Hmax. inversion Hmax; subst c; clear Hmax.
  destruct Hpair as [(Hlt & -> & Ha)|(Hle & -> & Ha)];
    destruct Hcase as [[-> Hb]|[-> Hb]]; rewrite Ha in Hb;
    try discriminate Hb; try (by destruct Hb); [left|right]; by repeat split.
Qed.
(** ** The bootstrap *)

Lemma artifacts_exist_dec (w : W) :
  negb (bool_decide (is_Some (fs w !! MODEL_PATH)))
  || negb (bool_decide (is_Some (fs w !! SCALER_PATH))) = false
  <-> artifacts_exist w.
Proof.
  unfold artifacts_exist. rewrite orb_false_iff, !negb_false_iff,
    !bool_decide_eq_true. reflexivity.
Qed.

(** With both artifacts present the initializer only logs its call; with
    one missing it trains once, and on success has written both. *)
Lemma initialize_model_cases (w : W) :
  (artifacts_exist w /\
   initialize_model np sklearn w = (Ok tt, snd (emit EvInitialize w)))
  \/ (~ artifacts_exist w /\
      exists (r : result unit) (w1 : W),
        initialize_model np sklearn w = (r, w1) /\
        ((exists e, r = Raise e) /\ fs w1 = fs w /\
           log w1 = (log w ++ [EvInitialize; EvTrain])%list
         \/ r = Ok tt /\ artifacts_exist w1 /\
            log w1 = (log w ++ [EvInitialize; EvTrain; EvWrite MODEL_PATH;
                                EvWrite SCALER_PATH])%list)).
Proof.
  destruct (negb (bool_decide (is_Some (fs w !! MODEL_PATH)))
            || negb (bool_decide (is_Some (fs w !! SCALER_PATH)))) eqn:Hb.
  - right. split.
    { intros H. apply artifacts_exist_dec in H. congruence. }
    unfold initialize_model, os_path_exists, emit. py_unfold. cbn.
    rewrite Hb. destruct (create_synthetic_training_data np) as [X y].
    unfold train_model, write_file, emit. py_unfold. cbn.
    destruct (scaler_fit_transform sklearn X) as [[scaler X']|e]; cbn.
    2:{ eexists _, _. split; [reflexivity|]. left.
        rewrite <- app_assoc. eauto. }
    destruct (forest_fit sklearn forest_hyperparameters X' y) as [model|e]; cbn.
    2:{ eexists _, _. split; [reflexivity|]. left.
        rewrite <- app_assoc. eauto. }
    eexists _, _. split; [reflexivity|]. right. split; [reflexivity|]. split.
    + split; cbn.
      * rewrite lookup_insert_ne by discriminate.
        rewrite lookup_insert_eq. eauto.
      * rewrite lookup_insert_eq. eauto.
    + cbn. rewrite <- !app_assoc. reflexivity.
  - left. split; [by apply artifacts_exist_dec|].
    unfold initialize_model, os_path_exists, emit. py_unfold. cbn.
    rewrite Hb. reflexivity.
Qed.

(** C7.  After a first call that succeeded, a second call of the
    initializer succeeds without training: it leaves the file system, hence
    the persisted scaler and classifier, as the first call left them, and
    logs nothing but its own call. *)
Theorem initialize_model_idempotent (w w1 : W) :
  initialize_model np sklearn w = (Ok tt, w1) ->
  artifacts_exist w1 /\
  exists w2 : W,
    initialize_model np sklearn w1 = (Ok tt, w2) /\
    fs w2 = fs w1 /\
    added w1 w2 = [EvInitialize].
Proof.
  intros H.
  assert (Hex : artifacts_exist w1).
  { destruct (initialize_model_cases w) as [[Hex Heq]|[_ (r & w' & Heq & Hcase)]];
      rewrite Heq in H; inversion H; subst; clear H.
    - exact Hex.
    - destruct Hcase as [[[e He] _]|[_ [Hex _]]]; [discriminate He|exact Hex]. }
  split; [exact Hex|].
  destruct (initialize_model_cases w1) as [[_ Heq]|[Hno _]]; [|contradiction].
  eexists. split; [exact Heq|]. split; [reflexivity|].
  by apply added_app.
Qed.
#[local] Arguments extract_features : simpl never.

(** What [predict_voice] runs once the initializer has returned, in the
    world [w1] it left: one load of the model, then extraction and
    classification as far as they get. *)
Lemma predict_voice_after_init path (w w1 : W) (l : list event) :
  initialize_model np sklearn (snd (emit (EvPredictVoice path) w)) = (Ok tt, w1) ->
  log w1 = (log w ++ EvPredictVoice path :: EvInitialize :: l)%list ->
  exists l_rest,
    added w (snd (predict_voice librosa np sklearn path w))
    = (EvPredictVoice path :: EvInitialize :: l ++ l_rest)%list /\
    (l_rest = [EvLoadModel] \/ l_rest = [EvLoadModel; EvExtract path]
     \/ l_rest = [EvLoadModel; EvExtract path; EvClassify]).
Proof.
  intros Hinit Hlog.
  unfold predict_voice, predict_voice_try. py_unfold.
  change (emit (EvPredictVoice path) w)
    with (Ok tt, snd (emit (EvPredictVoice path) w)).
  cbn beta iota. rewrite Hinit. cbn beta iota.
  rewrite load_model_unfold.
  assert (Hfin : forall (w' : W) l_rest,
            log w' = (log w1 ++ l_rest)%list ->
            added w w'
            = (EvPredictVoice path :: EvInitialize :: l ++ l_rest)%list).
  { intros w' l_rest Hw'. apply added_app. rewrite Hw', Hlog.
    rewrite <- app_assoc. reflexivity. }
  destruct (fs w1 !! MODEL_PATH) as [[?|model]|]; cbn;
    try (exists [EvLoadModel]; split; [by apply Hfin|by left]).
  destruct (fs w1 !! SCALER_PATH) as [[?|scaler]|]; cbn;
    try (exists [EvLoadModel]; split; [by apply Hfin|by left]).
  rewrite extract_features_unfold. cbn.
  destruct (fst (extract_features_try librosa np path _)) as [v|]; cbn;
    try (exists [EvLoadModel; EvExtract path]; split;
         [apply Hfin; by rewrite <- app_assoc|right; by left]).
  destruct (call_transform sklearn scaler [v]) as [X|]; cbn;
    try (exists [EvLoadModel; EvExtract path]; split;
         [apply Hfin; by rewrite <- app_assoc|right; by left]).
  exists [EvLoadModel; EvExtract path; EvClassify]. split; [|right; by right].
  repeat (py_case; cbn); apply Hfin; cbn; by rewrite <- !app_assoc.
Qed.

(** The calls of one [predict_voice]: its own, the initializer's, at most
    one training, reached only when an artifact is missing, and after it at
    most one load of the model. *)
Lemma predict_voice_added path (w : W) :
  exists l_init l_rest,
    added w (snd (predict_voice librosa np sklearn path w))
    = (EvPredictVoice path :: EvInitialize :: l_init ++ l_rest)%list /\
    (artifacts_exist w /\ l_init = []
     \/ ~ artifacts_exist w /\ l_init = [EvTrain] /\ l_rest = []
     \/ ~ artifacts_exist w /\
        l_init = [EvTrain; EvWrite MODEL_PATH; EvWrite SCALER_PATH]) /\
    (l_rest = [] /\ l_init = [EvTrain]
     \/ l_rest = [EvLoadModel]
     \/ l_rest = [EvLoadModel; EvExtract path]
     \/ l_rest = [EvLoadModel; EvExtract path; EvClassify]).
Proof.
  set (w0 := snd (emit (EvPredictVoice path) w)).
  assert (Hex : artifacts_exist w0 <-> artifacts_exist w) by reflexivity.
  destruct (initialize_model_cases w0)
    as [[Hyes Heq]|[Hno (r & w1 & Heq & [[[e ->] [_ Hlog]]|[-> [_ Hlog]]])]].
  - destruct (predict_voice_after_init path w _ [] Heq) as (l_rest & Ha & Hr).
    { cbn. rewrite <- app_assoc. reflexivity. }
    exists [], l_rest. split; [exact Ha|]. split; [left; by rewrite <- Hex|].
    right. exact Hr.
  - exists [EvTrain], [].
    split; [|split; [right; left; by rewrite <- Hex|by left]].
    unfold predict_voice, predict_voice_try. py_unfold.
    change (emit (EvPredictVoice path) w) with (Ok tt, w0).
    cbn beta iota. rewrite Heq. cbn beta iota.
    apply added_app. cbn. rewrite Hlog. cbn. rewrite <- app_assoc. reflexivity.
  - destruct (predict_voice_after_init path w w1
                [EvTrain; EvWrite MODEL_PATH; EvWrite SCALER_PATH] Heq)
      as (l_rest & Ha & Hr).
    { rewrite Hlog. cbn. rewrite <- app_assoc. reflexivity. }
    exists [EvTrain; EvWrite MODEL_PATH; EvWrite SCALER_PATH], l_rest.
    split; [exact Ha|]. split; [right; right; by rewrite <- Hex|].
    right. exact Hr.
Qed.

(** Whatever goes wrong inside [predict_voice] is raised as one
    [Exception] that quotes the cause. *)
Lemma predict_voice_raises path (w : W) (e : exn) :
  fst (predict_voice librosa np sklearn path w) = Raise e ->
  exists cause, e = Exception ("Prediction failed: " ++ cause).
Proof.
  unfold predict_voice. py_unfold. unfold emit at 1. cbn beta iota.
  destruct (predict_voice_try librosa np sklearn path _) as [[r|e0] w1]; cbn;
    intros H; [discriminate H|].
  inversion H. by exists (str e0).
Qed.
(** C6, as the code has it.  [predict_voice] does not wait for a
    classification to fail: it calls the initializer first, which trains
    exactly when an artifact is missing, and then loads the model once.  One
    call therefore trains at most once and loads at most once (never the
    load, training, second load of a retry cycle); with an artifact missing
    the training comes before any load; and every failure, of the bootstrap
    or of the single attempt, is raised to the caller as "Prediction
    failed: ..." without another attempt. *)
Theorem predict_voice_bootstraps_first path (w : W) :
  let l := added w (snd (predict_voice librosa np sklearn path w)) in
  (calls EvTrain l <= 1)%nat /\
  (calls EvLoadModel l <= 1)%nat /\
  ~ bootstrap_retry_cycle l /\
  (artifacts_exist w -> calls EvTrain l = 0%nat /\ calls EvLoadModel l = 1%nat) /\
  (~ artifacts_exist w ->
     calls EvTrain l = 1%nat /\
     exists l1 l2, l = (l1 ++ EvTrain :: l2)%list /\ calls EvLoadModel l1 = 0%nat) /\
  (forall e, fst (predict_voice librosa np sklearn path w) = Raise e ->
     exists cause, e = Exception ("Prediction failed: " ++ cause)).
Proof.
  intros l.
  destruct (predict_voice_added path w) as (l_init & l_rest & Hl & Hinit & Hrest).
  change (l = (EvPredictVoice path :: EvInitialize :: l_init ++ l_rest)%list) in Hl.
  clearbody l.
  assert (Hcount : (calls EvLoadModel l <= 1)%nat /\
            (artifacts_exist w ->
             calls EvTrain l = 0%nat /\ calls EvLoadModel l = 1%nat) /\
            (~ artifacts_exist w ->
             calls EvTrain l = 1%nat /\
             exists l1 l2, l = (l1 ++ EvTrain :: l2)%list
                           /\ calls EvLoadModel l1 = 0%nat)).
  { subst l.
    destruct Hinit as [[Hyes ->]|[[Hno [-> Hr]]|[Hno ->]]];
      destruct Hrest as [[-> Hi]|[->|[->| ->]]];
      try discriminate Hr; try discriminate Hi;
      (split; [vm_compute; lia|]); (split; [intros H|intros H]);
      try contradiction;
      try (split; [reflexivity|]);
      try reflexivity;
      try (exists [EvPredictVoice path; EvInitialize]; eexists;
           split; reflexivity).
  }
  destruct Hcount as (Hload & Hyes & Hno).
  assert (Htrain : (calls EvTrain l <= 1)%nat).
  { destruct Hinit as [[H _]|[[H _]|[H _]]].
    - destruct (Hyes H) as [-> _]. lia.
    - destruct (Hno H) as [-> _]. lia.
    - destruct (Hno H) as [-> _]. lia. }
  split; [exact Htrain|]. split; [exact Hload|]. split.
  { intros [_ H2]. lia. }
  split; [exact Hyes|]. split; [exact Hno|].
  apply predict_voice_raises.
Qed.
(** ** Extraction failures *)

(** The initializer writes the two artifacts and nothing else. *)
Lemma initialize_model_frame (w : W) (q : string) :
  q <> MODEL_PATH -> q <> SCALER_PATH ->
  fs (snd (initialize_model np sklearn w)) !! q = fs w !! q.
Proof.
  intros Hm Hs.
  unfold initialize_model, os_path_exists, emit, train_model, write_file.
  py_unfold. cbn.
  repeat (py_case; cbn); try reflexivity.
  rewrite !lookup_insert_ne by done. reflexivity.
Qed.

(** So does [predict_voice]. *)
Lemma predict_voice_frame path (w : W) (q : string) :
  q <> MODEL_PATH -> q <> SCALER_PATH ->
  fs (snd (predict_voice librosa np sklearn path w)) !! q = fs w !! q.
Proof.
  intros Hm Hs.
  unfold predict_voice, predict_voice_try. py_unfold.
  set (w0 := snd (emit (EvPredictVoice path) w)).
  change (emit (EvPredictVoice path) w) with (Ok tt, w0). cbn beta iota.
  pose proof (initialize_model_frame w0 q Hm Hs) as Hf.
  destruct (initialize_model np sklearn w0) as [[[]|e0] w1]; cbn beta iota;
    cbn [snd] in Hf; [|exact Hf].
  rewrite load_model_unfold.
  destruct (fs w1 !! MODEL_PATH) as [[?|model]|]; cbn; try exact Hf.
  destruct (fs w1 !! SCALER_PATH) as [[?|scaler]|]; cbn; try exact Hf.
  rewrite extract_features_unfold. cbn.
  repeat (py_case; cbn); exact Hf.
Qed.

Lemma staged_path_not_artifact data (w : W) :
  staged_path host data w <> MODEL_PATH /\
  staged_path host data w <> SCALER_PATH.
Proof. split; discriminate. Qed.

(** A response of [detect] comes from a completed [predict_voice] on the
    staged upload. *)
Lemma detect_ok_inv data key (w : W) resp :
  fst (detect librosa np sklearn host data key w) = Ok resp ->
  gates_pass host data key /\
  exists (b : list byte) (label : string) (conf : Qc) (w' : W),
    base64_b64decode host (AudioRequest.audio_base64 data) = Ok b /\
    1024 <= len b <= 26214400 /\
    predict_voice librosa np sklearn (staged_path host data w)
      (snd (write_file (staged_path host data w) (FBytes b) (after_uuid w)))
    = (Ok (label, conf), w') /\
    resp = DetectionResponse.Build "success" label conf
             (lower (AudioRequest.language data))
             (utcnow_isoformat host (clock w'))
             ("Audio classified as " ++ label ++ " with "
                ++ format_percent host conf ++ "% confidence").
Proof.
  intros H.
  destruct (validate_api_key host key) eqn:Hk.
  2:{ rewrite detect_unauthorized in H by done. discriminate H. }
  destruct (validate_language (AudioRequest.language data)) eqn:Hl.
  2:{ rewrite detect_unsupported_language in H by done. discriminate H. }
  destruct (decide (AudioRequest.audio_base64 data = "")) as [He|He].
  { rewrite detect_empty_payload in H by done. discriminate H. }
  assert (Hg : gates_pass host data key) by done.
  split; [exact Hg|].
  destruct (base64_b64decode host (AudioRequest.audio_base64 data))
    as [b|e] eqn:Hd.
  2:{ rewrite (detect_bad_base64 _ _ _ e) in H by done. discriminate H. }
  destruct (Z_lt_le_dec (len b) 1024) as [Hlo|Hlo].
  { rewrite (detect_too_small _ _ _ b) in H by done. discriminate H. }
  destruct (Z_lt_le_dec 26214400 (len b)) as [Hhi|Hhi].
  { rewrite (detect_too_large _ _ _ b) in H by (done || lia). discriminate H. }
  destruct (os_open_wb host (staged_path host data w)) as [[cls msg]|] eqn:Ho.
  { rewrite (detect_in_bounds_refused _ _ _ b cls msg) in H by done.
    discriminate H. }
  rewrite (detect_in_bounds _ _ _ b) in H by done.
  unfold detect_staged, try_finally, write_upload, utcnow in H. py_unfold.
  rewrite Ho in H.
  change (write_file (staged_path host data w) (FBytes b) (after_uuid w))
    with (Ok tt, snd (write_file (staged_path host data w) (FBytes b) (after_uuid w)))
    in H.
  cbn beta iota in H.
  destruct (predict_voice librosa np sklearn _ _) as [[[label conf]|e] w'] eqn:Hp;
    cbn in H; [|discriminate H].
  exists b, label, conf, w'. inversion H. repeat split; done.
Qed.

(** A response of [detect] means the upload was created. *)
Lemma detect_ok_created data key (w : W) resp :
  fst (detect librosa np sklearn host data key w) = Ok resp ->
  os_open_wb host (staged_path host data w) = None.
Proof.
  intros H.
  destruct (detect_ok_inv _ _ _ _ H) as (Hg & b & _ & _ & _ & Hd & Hlen & _).
  destruct (os_open_wb host (staged_path host data w)) as [[cls msg]|] eqn:Ho;
    [|reflexivity].
  rewrite (detect_in_bounds_refused _ _ _ b cls msg) in H by done.
  discriminate H.
Qed.

Lemma extract_features_try_decode_error path (w : W) b cause :
  fs w !! path = Some (FBytes b) ->
  librosa_load librosa path b 16000 10 = Raise cause ->
  fst (extract_features_try librosa np path w) = Raise cause.
Proof.
  intros Hf Hl. unfold extract_features_try, load_audio, open_rb. py_unfold.
  rewrite Hf. cbn. rewrite Hl. reflexivity.
Qed.

(** Every response of [detect] rests on a complete analysis of the staged
    upload. *)
Lemma detect_ok_analysed data key (w : W) resp :
  fst (detect librosa np sklearn host data key w) = Ok resp ->
  exists (b : list byte) (w1 : W) mfcc centroid rolloff bandwidth zcr chroma,
    base64_b64decode host (AudioRequest.audio_base64 data) = Ok b /\
    fs w1 !! staged_path host data w = Some (FBytes b) /\
    analysed librosa w1 (staged_path host data w)
      mfcc centroid rolloff bandwidth zcr chroma.
Proof.
  intros H.
  destruct (detect_ok_inv _ _ _ _ H)
    as (_ & b & label & conf & w' & Hd & _ & Hp & _).
  destruct (predict_voice_ok_inv _ _ _ _ _ Hp)
    as (m & s & v & X & prediction & cs & probabilities & rows
        & _ & _ & Hv & _).
  destruct (extract_features_try_ok_inv _ _ _ Hv)
    as (mfcc & centroid & rolloff & bandwidth & zcr & chroma & Han & _).
  exists b, w', mfcc, centroid, rolloff, bandwidth, zcr, chroma.
  split; [exact Hd|]. split; [|exact Han].
  destruct (staged_path_not_artifact data w) as [Hm Hs].
  pose proof (predict_voice_frame (staged_path host data w)
    (snd (write_file (staged_path host data w) (FBytes b) (after_uuid w)))
    (staged_path host data w) Hm Hs) as Hf.
  rewrite Hp in Hf. cbn in Hf. rewrite Hf. apply lookup_insert_eq.
Qed.

Lemma detect_decode_error_detail data key (w : W) b cause mo so :
  gates_pass host data key ->
  base64_b64decode host (AudioRequest.audio_base64 data) = Ok b ->
  1024 <= len b <= 26214400 ->
  os_open_wb host (staged_path host data w) = None ->
  librosa_load librosa (staged_path host data w) b 16000 10 = Raise cause ->
  fs w !! MODEL_PATH = Some (FPickle mo) ->
  fs w !! SCALER_PATH = Some (FPickle so) ->
  fst (detect librosa np sklearn host data key w)
  = Raise (HTTPException 422
      ("Audio processing failed: Prediction failed: Feature extraction failed: "
       ++ str cause)).
Proof.
  intros Hg Hd Hlen Ho Hl Hm Hs.
  rewrite (detect_in_bounds _ _ _ b) by done.
  destruct (staged_path_not_artifact data w) as [Hnm Hns].
  set (path := staged_path host data w) in *.
  unfold detect_staged, try_finally, write_upload, utcnow. py_unfold.
  rewrite Ho.
  set (w1 := snd (write_file path (FBytes b) (after_uuid w))).
  change (write_file path (FBytes b) (after_uuid w)) with (Ok tt, w1).
  cbn beta iota.
  assert (H1m : fs w1 !! MODEL_PATH = Some (FPickle mo)).
  { cbn. by rewrite lookup_insert_ne. }
  assert (H1s : fs w1 !! SCALER_PATH = Some (FPickle so)).
  { cbn. by rewrite lookup_insert_ne. }
  assert (H1p : fs w1 !! path = Some (FBytes b)).
  { cbn. by rewrite lookup_insert_eq. }
  unfold predict_voice, predict_voice_try. py_unfold.
  set (w2 := snd (emit (EvPredictVoice path) w1)).
  change (emit (EvPredictVoice path) w1) with (Ok tt, w2). cbn beta iota.
  destruct (initialize_model_cases w2) as [[_ Heq]|[Hno _]].
  2:{ exfalso. apply Hno.
      split; [exists (FPickle mo); exact H1m|exists (FPickle so); exact H1s]. }
  rewrite Heq. cbn beta iota. rewrite load_model_unfold.
  assert (H3m : fs (snd (emit EvInitialize w2)) !! MODEL_PATH
                = Some (FPickle mo)) by exact H1m.
  assert (H3s : fs (snd (emit EvInitialize w2)) !! SCALER_PATH
                = Some (FPickle so)) by exact H1s.
  rewrite H3m, H3s. cbn beta iota.
  rewrite extract_features_unfold.
  erewrite extract_features_try_decode_error; [reflexivity|exact H1p|exact Hl].
Qed.

(** C4.  When the [try] block of [extract_features] fails, on a decoding
    error in particular, the call raises "Feature extraction failed: ..."
    quoting the cause; a vector is returned only as the full assembly of a
    complete analysis, never a partial one.  In [detect], an upload whose
    decoding fails is never answered with a response: the request gets the
    422 of a failed prediction, which quotes the cause when the model is in
    place, or, when the temporary file could not even be created, a 500;
    and every response rests on a complete analysis of the upload. *)
Theorem extraction_failure_propagates :
  (forall path (w : W) e,
     fst (extract_features_try librosa np path w) = Raise e ->
     extract_features librosa np path w
     = (Raise (Exception ("Feature extraction failed: " ++ str e)),
        snd (emit (EvExtract path) w))) /\
  (forall path (w : W) b cause,
     fs w !! path = Some (FBytes b) ->
     librosa_load librosa path b 16000 10 = Raise cause ->
     fst (extract_features librosa np path w)
     = Raise (Exception ("Feature extraction failed: " ++ str cause))) /\
  (forall path (w : W) v,
     fst (extract_features librosa np path w) = Ok v ->
     exists mfcc centroid rolloff bandwidth zcr chroma,
       analysed librosa w path mfcc centroid rolloff bandwidth zcr chroma /\
       v = assembled np mfcc centroid rolloff bandwidth zcr chroma) /\
  (forall data key (w : W) b cause,
     gates_pass host data key ->
     base64_b64decode host (AudioRequest.audio_base64 data) = Ok b ->
     1024 <= len b <= 26214400 ->
     librosa_load librosa (staged_path host data w) b 16000 10 = Raise cause ->
     (exists code detail,
        fst (detect librosa np sklearn host data key w)
        = Raise (HTTPException code detail) /\
        (code = 422 \/ code = 500) /\
        (os_open_wb host (staged_path host data w) = None -> code = 422)) /\
     (forall mo so,
        os_open_wb host (staged_path host data w) = None ->
        fs w !! MODEL_PATH = Some (FPickle mo) ->
        fs w !! SCALER_PATH = Some (FPickle so) ->
        fst (detect librosa np sklearn host data key w)
        = Raise (HTTPException 422
            ("Audio processing failed: Prediction failed: Feature extraction failed: "
             ++ str cause)))) /\
  (forall data key (w : W) resp,
     fst (detect librosa np sklearn host data key w) = Ok resp ->
     exists (b : list byte) (w1 : W) mfcc centroid rolloff bandwidth zcr chroma,
       base64_b64decode host (AudioRequest.audio_base64 data) = Ok b /\
       fs w1 !! staged_path host data w = Some (FBytes b) /\
       analysed librosa w1 (staged_path host data w)
         mfcc centroid rolloff bandwidth zcr chroma).
Proof.
  split; [|split; [|split; [|split]]].
  - intros path w e H. rewrite extract_features_unfold, H. reflexivity.
  - intros path w b cause Hf Hl. rewrite extract_features_unfold. cbn [fst].
    by rewrite (extract_features_try_decode_error path w b cause).
  - intros path w v H. rewrite extract_features_unfold in H. cbn [fst] in H.
    apply extract_features_try_ok_inv.
    destruct (fst (extract_features_try librosa np path w));
      [exact H|discriminate H].
  - intros data key w b cause Hg Hd Hlen Hl. split.
    + destruct (fst (detect librosa np sklearn host data key w)) as [resp|e] eqn:Hr.
      * exfalso.
        destruct (detect_ok_analysed _ _ _ _ Hr)
          as (b' & w1 & mfcc & centroid & rolloff & bandwidth & zcr & chroma
              & Hd' & Hf & Han).
        rewrite Hd in Hd'. inversion Hd'; subst b'.
        destruct Han as (b'' & y & sr & _ & _ & _ & _ & _ & Hf' & Hl' & _).
        rewrite Hf in Hf'. inversion Hf'; subst b''.
        rewrite Hl in Hl'. discriminate Hl'.
      * destruct (detect_in_bounds_error data key w b e Hg Hd Hlen Hr)
          as (code & detail & -> & Hcode).
        exists code, detail. split; [reflexivity|]. split; [exact Hcode|].
        intros Ho.
        destruct (detect_in_bounds_raises data key w b _ Hg Hd Hlen Ho Hr)
          as [detail' Heq].
        by inversion Heq.
    + intros mo so Ho Hm Hs.
      by apply (detect_decode_error_detail _ _ _ b cause mo so).
  - apply detect_ok_analysed.
Qed.
(** ** The language tag *)

(** The staged part uses the request only for the echoed language. *)
Lemma detect_staged_language data1 data2 b path (w : W) :
  snd (detect_staged librosa np sklearn host data1 b path w)
  = snd (detect_staged librosa np sklearn host data2 b path w) /\
  match fst (detect_staged librosa np sklearn host data1 b path w),
        fst (detect_staged librosa np sklearn host data2 b path w) with
  | Ok r1, Ok r2 =>
      DetectionResponse.status r1 = DetectionResponse.status r2 /\
      DetectionResponse.classification r1 = DetectionResponse.classification r2 /\
      DetectionResponse.confidence_score r1 = DetectionResponse.confidence_score r2 /\
      DetectionResponse.timestamp r1 = DetectionResponse.timestamp r2 /\
      DetectionResponse.message r1 = DetectionResponse.message r2 /\
      DetectionResponse.language r1 = lower (AudioRequest.language data1) /\
      DetectionResponse.language r2 = lower (AudioRequest.language data2)
  | Raise e1, Raise e2 => e1 = e2
  | _, _ => False
  end.
Proof.
  unfold detect_staged, try_finally, write_upload, utcnow. py_unfold.
  destruct (os_open_wb host path) as [[cls msg]|]; [by split|].
  destruct (write_file path (FBytes b) w) as [[[]|e] w1]; cbn beta iota;
    [|by split].
  destruct (predict_voice librosa np sklearn path w1) as [[[label conf]|e] w2];
    cbn; by repeat split.
Qed.

(** C9.  Two requests with the same payload and declared format, each with
    a supported language, are treated alike: [detect] leaves the same world
    and either raises the same error for both, or returns two responses
    with the same classification, confidence, status, timestamp and
    message, that differ at most in the language they echo. *)
Theorem language_noninterference (data1 data2 : AudioRequest.t) key (w : W) :
  AudioRequest.audio_base64 data1 = AudioRequest.audio_base64 data2 ->
  AudioRequest.audio_format data1 = AudioRequest.audio_format data2 ->
  validate_language (AudioRequest.language data1) = true ->
  validate_language (AudioRequest.language data2) = true ->
  snd (detect librosa np sklearn host data1 key w)
  = snd (detect librosa np sklearn host data2 key w) /\
  match fst (detect librosa np sklearn host data1 key w),
        fst (detect librosa np sklearn host data2 key w) with
  | Ok r1, Ok r2 =>
      DetectionResponse.status r1 = DetectionResponse.status r2 /\
      DetectionResponse.classification r1 = DetectionResponse.classification r2 /\
      DetectionResponse.confidence_score r1 = DetectionResponse.confidence_score r2 /\
      DetectionResponse.timestamp r1 = DetectionResponse.timestamp r2 /\
      DetectionResponse.message r1 = DetectionResponse.message r2 /\
      DetectionResponse.language r1 = lower (AudioRequest.language data1) /\
      DetectionResponse.language r2 = lower (AudioRequest.language data2)
  | Raise e1, Raise e2 => e1 = e2
  | _, _ => False
  end.
Proof.
  intros Hb Hf Hl1 Hl2.
  destruct (validate_api_key host key) eqn:Hk.
  2:{ rewrite !detect_unauthorized by done. by split. }
  destruct (decide (AudioRequest.audio_base64 data1 = "")) as [He|He].
  { rewrite !detect_empty_payload by congruence. by split. }
  assert (Hg1 : gates_pass host data1 key) by done.
  assert (Hg2 : gates_pass host data2 key).
  { split; [done|]. split; [done|]. by rewrite <- Hb. }
  destruct (base64_b64decode host (AudioRequest.audio_base64 data1))
    as [b|e] eqn:Hd.
  2:{ rewrite (detect_bad_base64 data1 _ _ e), (detect_bad_base64 data2 _ _ e)
        by (done || by rewrite <- Hb). by split. }
  assert (Hd2 : base64_b64decode host (AudioRequest.audio_base64 data2) = Ok b)
    by (by rewrite <- Hb).
  destruct (Z_lt_le_dec (len b) 1024) as [Hlo|Hlo].
  { rewrite (detect_too_small data1 _ _ b), (detect_too_small data2 _ _ b)
      by done. by split. }
  destruct (Z_lt_le_dec 26214400 (len b)) as [Hhi|Hhi].
  { rewrite (detect_too_large data1 _ _ b), (detect_too_large data2 _ _ b)
      by (done || lia). by split. }
  rewrite (detect_in_bounds_staged data1 _ _ b),
    (detect_in_bounds_staged data2 _ _ b) by done.
  replace (staged_path host data2 w) with (staged_path host data1 w)
    by (unfold staged_path; by rewrite Hf).
  pose proof (detect_staged_language data1 data2 b (staged_path host data1 w)
                (after_uuid w)) as [Hw Hr].
  unfold try_except.
  destruct (detect_staged librosa np sklearn host data1 b _ _) as [[r1|e1] w1];
    destruct (detect_staged librosa np sklearn host data2 b _ _) as [[r2|e2] w2];
    cbn in *; subst; try done.
  destruct (negb (is_HTTPException e2)); by split.
Qed.
End Properties.

(** ** The stand-in meets the library contracts *)

Lemma bench_mfcc_contract : mfcc_contract Bench.librosa.
Proof.
  intros y sr n m H. cbn in H. unfold Bench.mfcc, Bench.frames in H.
  destruct y; cbn in H; [discriminate H|].
  inversion H. by rewrite length_map, length_seq.
Qed.

Lemma bench_predict_contract : predict_contract Bench.sklearn.
Proof.
  intros m X cs rows Hp Hq. cbn in Hp, Hq. unfold Bench.predict in Hp.
  rewrite Hq in Hp. cbn in Hp. by inversion Hp.
Qed.

(** ** The properties at concrete inputs *)

Ltac bench_analysed :=
  unfold analysed; do 8 eexists;
  repeat (split; [lazy; reflexivity|]); lazy; reflexivity.

(** A file that decodes and still has no feature vector: the header-only
    file decodes to an empty signal, on which the first feature function
    fails. *)
Lemma decoded_but_not_extracted :
  fs Bench.header_only !! "empty.wav" = Some (FBytes ["R"; "I"; "F"; "F"]%byte) /\
  librosa_load Bench.librosa "empty.wav" ["R"; "I"; "F"; "F"]%byte 16000 10
  = Ok ([], 16000) /\
  fst (extract_features Bench.librosa Bench.numpy "empty.wav" Bench.header_only)
  = Raise (Exception "Feature extraction failed: Audio buffer is empty").
Proof. repeat split; vm_compute; reflexivity. Qed.

(** The layout on the recording at [rec.wav]. *)
Lemma extract_features_layout_witness :
  exists mfcc centroid rolloff bandwidth zcr chroma,
    analysed Bench.librosa Bench.recording "rec.wav"
      mfcc centroid rolloff bandwidth zcr chroma /\
    exists v : list Z,
      fst (extract_features Bench.librosa Bench.numpy "rec.wav" Bench.recording)
      = Ok v /\
      List.length v = 48%nat /\
      feature_layout Bench.numpy mfcc centroid rolloff bandwidth zcr chroma v.
Proof.
  do 6 eexists. split.
  - bench_analysed.
  - apply (extract_features_layout Bench.librosa Bench.numpy "rec.wav"
             Bench.recording).
    + exact bench_mfcc_contract.
    + bench_analysed.
Defined.

Ltac bench_gates :=
  split; [vm_compute; reflexivity|];
  split; [vm_compute; reflexivity|];
  let H := fresh in intros H; vm_compute in H; discriminate H.

(** A payload of 500 bytes is rejected as too small, the world untouched. *)
Lemma detect_rejects_out_of_bounds_witness :
  len (Bench.payload 164 "QUE=") = 500 /\
  Bench.detect (Bench.request 164 "QUE=" "wav" "english") Bench.key Bench.fresh
  = (Raise (HTTPException 400 "Audio file too small"), Bench.fresh) /\
  added Bench.fresh
    (snd (Bench.detect (Bench.request 164 "QUE=" "wav" "english") Bench.key
            Bench.fresh)) = [].
Proof.
  assert (Hlen : len (Bench.payload 164 "QUE=") = 500) by (vm_compute; reflexivity).
  destruct (detect_rejects_out_of_bounds Bench.librosa Bench.numpy Bench.sklearn
              Bench.host (Bench.request 164 "QUE=" "wav" "english") Bench.key
              Bench.fresh (Bench.payload 164 "QUE="))
    as (_ & Hadd & Hsize).
  - vm_compute; reflexivity.
  - left. rewrite Hlen. lia.
  - split; [exact Hlen|]. split; [|exact Hadd].
    apply Hsize; [bench_gates|rewrite Hlen; lia].
Defined.



(** With the format [xyz], which [/stats] does not list, the request is
    classified and answered. *)
Lemma unlisted_format_is_classified :
  ~ In "xyz" stats_supported_formats /\
  exists resp,
    fst (Bench.detect (Bench.request 339 "QQ==" "xyz" "english") Bench.key
           Bench.fresh) = Ok resp /\
    DetectionResponse.status resp = "success" /\
    In EvClassify
      (log (snd (Bench.detect (Bench.request 339 "QQ==" "xyz" "english")
                   Bench.key Bench.fresh))).
Proof.
  split.
  - cbn. intuition discriminate.
  - eexists. split; [vm_compute; reflexivity|]. split; [reflexivity|].
    vm_compute. tauto.
Qed.

(** The same request is staged under the extension [xyz]. *)
Lemma detect_ignores_format_witness :
  exists l,
    added Bench.fresh
      (snd (Bench.detect (Bench.request 339 "QQ==" "xyz" "english") Bench.key
              Bench.fresh))
    = EvWrite "temp_audio/uuid-0.xyz" :: EvPredictVoice "temp_audio/uuid-0.xyz" :: l.
Proof.
  assert (Hlen : len (Bench.payload 339 "QQ==") = 1024) by (vm_compute; reflexivity).
  destruct (detect_ignores_format Bench.librosa Bench.numpy Bench.sklearn
              Bench.host (Bench.request 339 "QQ==" "xyz" "english") Bench.key
              Bench.fresh (Bench.payload 339 "QQ=="))
    as (_ & Hcreated & _).
  - bench_gates.
  - vm_compute; reflexivity.
  - rewrite Hlen; lia.
  - destruct Hcreated as [Hl _]; [vm_compute; reflexivity|]. exact Hl.
Defined.

(** On a world without a model, [predict_voice] trains first and loads the
    model once: the log shows no failed attempt before the training and no
    second attempt after it. *)
Lemma no_retry_cycle_without_model :
  ~ artifacts_exist Bench.recording /\
  is_ok (fst (Bench.predict_voice "rec.wav" Bench.recording)) = true /\
  added Bench.recording (snd (Bench.predict_voice "rec.wav" Bench.recording))
  = [EvPredictVoice "rec.wav"; EvInitialize; EvTrain; EvWrite MODEL_PATH;
     EvWrite SCALER_PATH; EvLoadModel; EvExtract "rec.wav"; EvClassify] /\
  ~ bootstrap_retry_cycle
      (added Bench.recording
         (snd (Bench.predict_voice "rec.wav" Bench.recording))).
Proof.
  assert (Hadd : added Bench.recording
                   (snd (Bench.predict_voice "rec.wav" Bench.recording))
          = [EvPredictVoice "rec.wav"; EvInitialize; EvTrain; EvWrite MODEL_PATH;
             EvWrite SCALER_PATH; EvLoadModel; EvExtract "rec.wav"; EvClassify])
    by (vm_compute; reflexivity).
  split; [|split; [|split]].
  - intros [[x Hx] _]. vm_compute in Hx. discriminate Hx.
  - vm_compute; reflexivity.
  - exact Hadd.
  - rewrite Hadd. intros [_ H]. vm_compute in H. discriminate H.
Qed.

(** Two calls of the initializer from a fresh process. *)
Lemma initialize_model_idempotent_witness :
  exists w1 w2 : Bench.W,
    initialize_model Bench.numpy Bench.sklearn Bench.fresh = (Ok tt, w1) /\
    initialize_model Bench.numpy Bench.sklearn w1 = (Ok tt, w2) /\
    fs w2 = fs w1 /\ added w1 w2 = [EvInitialize].
Proof.
  assert (Hrun : exists w1 : Bench.W,
            initialize_model Bench.numpy Bench.sklearn Bench.fresh = (Ok tt, w1)).
  { eexists. vm_compute. reflexivity. }
  destruct Hrun as (w1 & H1).
  destruct (initialize_model_idempotent Bench.numpy Bench.sklearn
              Bench.fresh w1 H1) as (_ & w2 & H2 & Hfs & Hadd).
  exists w1, w2. split; [exact H1|]. split; [exact H2|].
  split; [exact Hfs|exact Hadd].
Defined.

(** The recording is reported as [HUMAN]: class 1 does not have the larger
    share of the votes, and the confidence is the share of class 0. *)
Lemma predict_voice_label_argmax_witness :
  exists conf w' p0 p1,
    Bench.predict_voice "rec.wav" Bench.recording = (Ok ("HUMAN", conf), w') /\
    (p1 <= p0)%Qc /\ conf = p0.
Proof.
  assert (Hrun : exists conf w',
            Bench.predict_voice "rec.wav" Bench.recording
            = (Ok ("HUMAN", conf), w')).
  { eexists _, _. vm_compute. reflexivity. }
  destruct Hrun as (conf & w' & H1).
  destruct (predict_voice_label_argmax Bench.librosa Bench.numpy Bench.sklearn
              "rec.wav" Bench.recording w' "HUMAN" conf
              bench_predict_contract H1)
    as (m & s & v & X & prediction & cs & probabilities & rows
        & _ & _ & _ & _ & _ & Hq & _ & _ & _ & Hpair).
  cbn in Hq. unfold Bench.predict_proba in Hq.
  destruct m as [|t m]; [discriminate Hq|].
  destruct X as [|x X]; [discriminate Hq|].
  inversion Hq as [[Hrow Hrows]]. unfold Bench.proba_row in Hrow.
  symmetry in Hrow.
  destruct (Hpair _ _ Hrow) as [(Hl & _)|(_ & Hle & Hc)]; [discriminate Hl|].
  eexists conf, w', _, _. split; [exact H1|]. split; [exact Hle|exact Hc].
Defined.

(** The same upload declared as [english] and as [Tamil]. *)
Lemma language_noninterference_witness :
  snd (Bench.detect (Bench.request 339 "QQ==" "wav" "english") Bench.key Bench.fresh)
  = snd (Bench.detect (Bench.request 339 "QQ==" "wav" "Tamil") Bench.key Bench.fresh).
Proof.
  assert (H1 : validate_language
                 (AudioRequest.language (Bench.request 339 "QQ==" "wav" "english"))
               = true) by (vm_compute; reflexivity).
  assert (H2 : validate_language
                 (AudioRequest.language (Bench.request 339 "QQ==" "wav" "Tamil"))
               = true) by (vm_compute; reflexivity).
  destruct (language_noninterference Bench.librosa Bench.numpy Bench.sklearn
              Bench.host (Bench.request 339 "QQ==" "wav" "english")
              (Bench.request 339 "QQ==" "wav" "Tamil") Bench.key Bench.fresh
              eq_refl eq_refl H1 H2) as [H _].
  exact H.
Defined.

(** An upload that is not a recording is answered with a 422. *)
Lemma extraction_failure_propagates_witness :
  exists detail,
    fst (Bench.detect Bench.noise_request Bench.key Bench.fresh)
    = Raise (HTTPException 422 detail).
Proof.
  destruct (extraction_failure_propagates Bench.librosa Bench.numpy
              Bench.sklearn Bench.host) as (_ & _ & _ & Hdetect & _).
  assert (Hlen : len Bench.noise = 1026) by (vm_compute; reflexivity).
  assert (Ho : os_open_wb Bench.host
                 (staged_path Bench.host Bench.noise_request Bench.fresh) = None)
    by (vm_compute; reflexivity).
  destruct (Hdetect Bench.noise_request Bench.key Bench.fresh Bench.noise
              (LibraryError "NoBackendError" "no RIFF header"))
    as [(code & detail & Hr & _ & Hcode) _].
  - bench_gates.
  - vm_compute; reflexivity.
  - rewrite Hlen; lia.
  - vm_compute; reflexivity.
  - exists detail. rewrite <- (Hcode Ho). exact Hr.
Defined.


(** * Further properties *)

Section MoreProperties.

Context {float wave Scaler Model rng : Type}.
Variable librosa : Librosa float wave.
Variable np : Numpy float rng.
Variable sklearn : Sklearn float Scaler Model.
Variable host : Host.
Variable forest_feature_importances : Model -> list Qc.
Variable py_round : Qc -> Z -> Qc.

#[local] Abbreviation W := (world Scaler Model).

(** ** The synthetic training set *)

Lemma synthetic_loop_shape (k n : nat) (sample : rng -> list float * rng)
    (label : Z) (X : matrix float) (y : list Z) (g : rng) :
  (forall g', List.length (fst (sample g')) = k) ->
  exists rows g1,
    synthetic_loop n sample label (X, y, g)
    = (((X ++ rows)%list : matrix float), (y ++ repeat label n)%list, g1) /\
    List.length rows = n /\
    Forall (fun r => List.length r = k) rows.
Proof.
  intros Hk. revert X y g.
  induction n as [|n IH]; intros X y g.
  - exists [], g. cbn. rewrite !app_nil_r. repeat split. constructor.
  - pose proof (Hk g) as Hg.
    destruct (sample g) as [features g0] eqn:Hs. cbn in Hg.
    destruct (IH (X ++ [features])%list (y ++ [label])%list g0)
      as (rows & g1 & Heq & Hlen & Hall).
    exists (features :: rows), g1. cbn [synthetic_loop]. rewrite Hs.
    split; [|split].
    + etrans; [exact Heq|]. rewrite <- !app_assoc. reflexivity.
    + cbn. by rewrite Hlen.
    + by constructor.
Qed.

Lemma synthetic_ai_sample_width (g : rng) :
  np_size_contract np ->
  List.length (fst (synthetic_ai_sample np g)) = 48%nat.
Proof.
  intros Hnp. unfold synthetic_ai_sample.
  pose proof (proj1 (Hnp 0%Q 10%Q 20%nat g)) as H1.
  destruct (np_random_normal np 0%Q 10%Q 20 g) as [a g1].
  pose proof (proj2 (Hnp 0.5%Q 3%Q 20%nat g1)) as H2.
  destruct (np_random_uniform np 0.5%Q 3%Q 20 g1) as [b g2].
  pose proof (proj2 (Hnp 500%Q 2000%Q 7%nat g2)) as H3.
  destruct (np_random_uniform np 500%Q 2000%Q 7 g2) as [c g3].
  pose proof (proj2 (Hnp 0.05%Q 0.15%Q 1%nat g3)) as H4.
  destruct (np_random_uniform np 0.05%Q 0.15%Q 1 g3) as [d g4].
  cbn in *. rewrite !length_app, H1, H2, H3, H4. reflexivity.
Qed.

Lemma synthetic_human_sample_width (g : rng) :
  np_size_contract np ->
  List.length (fst (synthetic_human_sample np g)) = 48%nat.
Proof.
  intros Hnp. unfold synthetic_human_sample.
  pose proof (proj1 (Hnp 0%Q 15%Q 20%nat g)) as H1.
  destruct (np_random_normal np 0%Q 15%Q 20 g) as [a g1].
  pose proof (proj2 (Hnp 3%Q 8%Q 20%nat g1)) as H2.
  destruct (np_random_uniform np 3%Q 8%Q 20 g1) as [b g2].
  pose proof (proj2 (Hnp 300%Q 3000%Q 7%nat g2)) as H3.
  destruct (np_random_uniform np 300%Q 3000%Q 7 g2) as [c g3].
  pose proof (proj2 (Hnp 0.08%Q 0.25%Q 1%nat g3)) as H4.
  destruct (np_random_uniform np 0.08%Q 0.25%Q 1 g3) as [d g4].
  cbn in *. rewrite !length_app, H1, H2, H3, H4. reflexivity.
Qed.

(** X1.  When numpy's generators return as many values as requested, the
    synthetic training set has 100 samples of 48 features each, labelled 1
    (AI) for the first 50 and 0 (human) for the last 50. *)
Theorem synthetic_data_shape :
  np_size_contract np ->
  List.length (fst (create_synthetic_training_data np)) = 100%nat /\
  Forall (fun r => List.length r = 48%nat)
    (fst (create_synthetic_training_data np)) /\
  snd (create_synthetic_training_data np) = (repeat 1 50 ++ repeat 0 50)%list.
Proof.
  intros Hnp. unfold create_synthetic_training_data. cbv zeta.
  change (100 / 2)%nat with 50%nat.
  destruct (synthetic_loop_shape 48 50 (synthetic_ai_sample np) 1 [] []
              (np_random_seed np 42))
    as (rows1 & g1 & Heq1 & Hlen1 & Hall1).
  { intros g'. by apply synthetic_ai_sample_width. }
  destruct (synthetic_loop 50 (synthetic_ai_sample np) 1 _)
    as [[X1 y1] g1'] eqn:E1.
  inversion Heq1; subst X1 y1 g1'; clear E1 Heq1.
  destruct (synthetic_loop_shape 48 50 (synthetic_human_sample np) 0
              ([] ++ rows1)%list ([] ++ repeat 1 50)%list g1)
    as (rows2 & g2 & Heq2 & Hlen2 & Hall2).
  { intros g'. by apply synthetic_human_sample_width. }
  destruct (synthetic_loop 50 (synthetic_human_sample np) 0 _)
    as [[X2 y2] g2'] eqn:E2.
  inversion Heq2; subst X2 y2 g2'; clear E2 Heq2.
  cbn [fst snd app].
  split; [|split].
  - rewrite length_app, Hlen1, Hlen2. reflexivity.
  - apply Forall_app. by split.
  - reflexivity.
Qed.


(** ** Training and loading *)

Lemma train_model_unfold X y (w : W) :
  train_model sklearn X y w
  = match scaler_fit_transform sklearn X with
    | Raise e => (Raise e, snd (emit EvTrain w))
    | Ok (scaler, X') =>
        match forest_fit sklearn forest_hyperparameters X' y with
        | Raise e => (Raise e, snd (emit EvTrain w))
        | Ok model =>
            (Ok (model, scaler),
             World (<[SCALER_PATH := FPickle (PyScaler scaler)]>
                      (<[MODEL_PATH := FPickle (PyModel model)]> (fs w)))
                   (entropy w) (clock w)
                   (log w ++ [EvTrain; EvWrite MODEL_PATH; EvWrite SCALER_PATH])%list)
        end
    end.
Proof.
  unfold train_model, write_file, emit. py_unfold. cbn.
  destruct (scaler_fit_transform sklearn X) as [[scaler X']|e]; cbn; [|done].
  destruct (forest_fit sklearn forest_hyperparameters X' y) as [model|e]; cbn;
    [|done].
  by rewrite <- !app_assoc.
Qed.

(** X2.  What [train_model] returns is what [load_model] reads back: after a
    successful training, loading yields the very classifier and scaler that
    were fitted, and no file other than the two artifacts has changed. *)
Theorem train_then_load X y (w w' : W) (m : Model) (s : Scaler) :
  train_model sklearn X y w = (Ok (m, s), w') ->
  fst (load_model sklearn w') = Ok (PyModel m, PyScaler s) /\
  (forall q, q <> MODEL_PATH -> q <> SCALER_PATH -> fs w' !! q = fs w !! q).
Proof.
  rewrite train_model_unfold.
  destruct (scaler_fit_transform sklearn X) as [[scaler X']|e];
    [|intros H; discriminate H].
  destruct (forest_fit sklearn forest_hyperparameters X' y) as [model|e];
    intros H; [|discriminate H].
  inversion H; subst; clear H. split.
  - rewrite load_model_unfold. cbn.
    rewrite lookup_insert_ne by discriminate. rewrite !lookup_insert_eq.
    reflexivity.
  - intros q Hm Hs. cbn. by rewrite !lookup_insert_ne.
Qed.

(** X3.  A training that fails, in the scaler or in the forest, has written
    nothing: the file system is as it was, and only the call is logged. *)
Theorem failed_training_writes_nothing X y (w : W) (e : exn) :
  fst (train_model sklearn X y w) = Raise e ->
  fs (snd (train_model sklearn X y w)) = fs w /\
  added w (snd (train_model sklearn X y w)) = [EvTrain].
Proof.
  rewrite train_model_unfold.
  destruct (scaler_fit_transform sklearn X) as [[scaler X']|e0]; cbn.
  - destruct (forest_fit sklearn forest_hyperparameters X' y) as [model|e1];
      cbn; intros H; [discriminate H|].
    split; [reflexivity|]. by apply added_app.
  - intros H. split; [reflexivity|]. by apply added_app.
Qed.

(** X4.  [load_model] returns exactly the two pickled objects when both
    files hold one.  A missing file is reported as "Model files not found",
    while on a file that is not a pickle the exception of [pickle.load]
    passes unchanged (it is no [FileNotFoundError]).  In no case is the
    file system touched. *)
Theorem load_model_outcomes (w : W) :
  (forall mo so,
     fst (load_model sklearn w) = Ok (mo, so) <->
     fs w !! MODEL_PATH = Some (FPickle mo) /\
     fs w !! SCALER_PATH = Some (FPickle so)) /\
  (fs w !! MODEL_PATH = None
   \/ (exists mo, fs w !! MODEL_PATH = Some (FPickle mo))
      /\ fs w !! SCALER_PATH = None ->
   fst (load_model sklearn w)
   = Raise (Exception
       "Model files not found. Please train the model first using train_model() or run initialize_model() to create an initial model.")) /\
  (forall b,
     fs w !! MODEL_PATH = Some (FBytes b)
     \/ (exists mo, fs w !! MODEL_PATH = Some (FPickle mo))
        /\ fs w !! SCALER_PATH = Some (FBytes b) ->
     is_FileNotFoundError (pickle_load_error sklearn b) = false ->
     fst (load_model sklearn w) = Raise (pickle_load_error sklearn b)) /\
  fs (snd (load_model sklearn w)) = fs w.
Proof.
  rewrite load_model_unfold. cbn [fst snd].
  split; [|split; [|split]].
  - intros mo so.
    destruct (fs w !! MODEL_PATH) as [[b|mo']|];
      [split; [intros H; discriminate H|intros [H _]; discriminate H]| |
       split; [intros H; discriminate H|intros [H _]; discriminate H]].
    destruct (fs w !! SCALER_PATH) as [[b|so']|];
      [split; [intros H; discriminate H|intros [_ H]; discriminate H]| |
       split; [intros H; discriminate H|intros [_ H]; discriminate H]].
    split.
    + intros H. inversion H. done.
    + intros [H1 H2]. inversion H1. inversion H2. done.
  - intros [->|[[mo ->] ->]]; reflexivity.
  - intros b Hb Hnf. unfold not_found_as_missing.
    destruct Hb as [->|[[mo ->] ->]]; by rewrite Hnf.
  - reflexivity.
Qed.

(** X5.  With an artifact missing, a successful bootstrap replaces both: the
    scaler is the one fitted on the synthetic set, the classifier the forest
    fitted with the fixed hyper-parameters on the scaled set, and a lone
    artifact that was there before is overwritten. *)
Theorem bootstrap_replaces_both (w w1 : W) :
  ~ artifacts_exist w ->
  initialize_model np sklearn w = (Ok tt, w1) ->
  exists (s : Scaler) (X' : matrix float) (m : Model),
    scaler_fit_transform sklearn (fst (create_synthetic_training_data np))
    = Ok (s, X') /\
    forest_fit sklearn forest_hyperparameters X'
      (snd (create_synthetic_training_data np)) = Ok m /\
    fs w1 = <[SCALER_PATH := FPickle (PyScaler s)]>
              (<[MODEL_PATH := FPickle (PyModel m)]> (fs w)).
Proof.
  intros Hno. unfold initialize_model, os_path_exists. py_unfold.
  unfold emit at 1. cbn beta iota.
  destruct (negb (bool_decide (is_Some (fs w !! MODEL_PATH)))
            || negb (bool_decide (is_Some (fs w !! SCALER_PATH)))) eqn:Hb.
  2:{ exfalso. apply Hno. apply artifacts_exist_dec. exact Hb. }
  cbn [fs]. rewrite Hb.
  destruct (create_synthetic_training_data np) as [X y]. cbn [fst snd].
  rewrite train_model_unfold.
  destruct (scaler_fit_transform sklearn X) as [[scaler X']|e] eqn:Hs; cbn;
    [|intros H; discriminate H].
  destruct (forest_fit sklearn forest_hyperparameters X' y) as [model|e] eqn:Hm;
    cbn; intros H; [|discriminate H].
  inversion H; subst; clear H. exists scaler, X', model.
  split; [reflexivity|]. split; [exact Hm|reflexivity].
Qed.

(** ** Confidence *)

Lemma max_from_spec (best : Qc) (l : list Qc) :
  max_from best l ∈ best :: l /\
  forall p, p ∈ best :: l -> (p <= max_from best l)%Qc.
Proof.
  revert best. induction l as [|x l IH]; intros best; cbn [max_from].
  - split; [by left|]. intros p Hp. apply list_elem_of_singleton in Hp.
    subst. apply Qcle_refl.
  - destruct (Qclt_le_dec best x) as [Hlt|Hle].
    + destruct (IH x) as [Hin Hmax]. split; [by right|].
      intros p Hp. apply elem_of_cons in Hp. destruct Hp as [->|Hp].
      * eapply Qcle_trans; [apply Qclt_le_weak; exact Hlt|].
        apply Hmax. by left.
      * by apply Hmax.
    + destruct (IH best) as [Hin Hmax]. split.
      * apply elem_of_cons in Hin. destruct Hin as [Hin|Hin].
        -- rewrite Hin. by left.
        -- right. by right.
      * intros p Hp. apply elem_of_cons in Hp. destruct Hp as [->|Hp].
        -- apply Hmax. by left.
        -- apply elem_of_cons in Hp. destruct Hp as [->|Hp].
           ++ eapply Qcle_trans; [exact Hle|]. apply Hmax. by left.
           ++ apply Hmax. by right.
Qed.

(** X6.  Whatever the number of classes of the persisted classifier, the
    confidence of a completed prediction is one of the probabilities the
    classifier gave for the upload and no other of them is larger. *)
Theorem confidence_is_the_maximum path (w w' : W) label conf :
  predict_voice librosa np sklearn path w = (Ok (label, conf), w') ->
  exists (m : Model) (X : matrix float) (probabilities : list Qc)
         (rows : list (list Qc)),
    fs w' !! MODEL_PATH = Some (FPickle (PyModel m)) /\
    forest_predict_proba sklearn m X = Ok (probabilities :: rows) /\
    conf ∈ probabilities /\
    forall p, p ∈ probabilities -> (p <= conf)%Qc.
Proof.
  intros H.
  destruct (predict_voice_ok_inv librosa np sklearn _ _ _ _ _ H)
    as (m & s & v & X & prediction & cs & probabilities & rows
        & Hm & _ & _ & _ & _ & Hq & Hmax & _).
  exists m, X, probabilities, rows.
  split; [exact Hm|]. split; [exact Hq|].
  destruct probabilities as [|p0 ps]; [discriminate Hmax|].
  cbn in Hmax. inversion Hmax; subst conf. apply max_from_spec.
Qed.

(** ** What [predict_voice] leaves behind *)

Lemma initialize_model_keeps_artifacts (w : W) :
  artifacts_exist w ->
  fs (snd (initialize_model np sklearn w)) = fs w.
Proof.
  intros Hex.
  destruct (initialize_model_cases np sklearn w) as [[_ Heq]|[Hno _]];
    [|contradiction].
  rewrite Heq. reflexivity.
Qed.

Lemma predict_voice_after_fs path (w : W) :
  fs (snd (predict_voice librosa np sklearn path w))
  = fs (snd (initialize_model np sklearn (snd (emit (EvPredictVoice path) w)))).
Proof.
  unfold predict_voice, predict_voice_try. py_unfold.
  set (w0 := snd (emit (EvPredictVoice path) w)).
  change (emit (EvPredictVoice path) w) with (Ok tt, w0). cbn beta iota.
  destruct (initialize_model np sklearn w0) as [[[]|e0] w1]; cbn beta iota;
    [|reflexivity].
  rewrite load_model_unfold.
  destruct (fs w1 !! MODEL_PATH) as [[?|model]|]; cbn; try reflexivity.
  destruct (fs w1 !! SCALER_PATH) as [[?|scaler]|]; cbn; try reflexivity.
  rewrite extract_features_unfold. cbn.
  repeat (py_case; cbn); reflexivity.
Qed.

(** X7.  [predict_voice] writes nothing but the two model artifacts, and
    once both exist it writes nothing at all: a prediction against a model
    in place leaves the file system exactly as it found it. *)
Theorem prediction_is_read_only_once_ready path (w : W) :
  (forall q, q <> MODEL_PATH -> q <> SCALER_PATH ->
     fs (snd (predict_voice librosa np sklearn path w)) !! q = fs w !! q) /\
  (artifacts_exist w ->
     fs (snd (predict_voice librosa np sklearn path w)) = fs w).
Proof.
  split.
  - intros q Hm Hs. by apply predict_voice_frame.
  - intros Hex. rewrite predict_voice_after_fs.
    by rewrite initialize_model_keeps_artifacts.
Qed.

(** ** What [detect] leaves behind *)

Lemma detect_staged_world data b path (w : W) :
  os_open_wb host path = None ->
  snd (detect_staged librosa np sklearn host data b path w)
  = cleanup_file path
      (snd (predict_voice librosa np sklearn path
              (snd (write_file path (FBytes b) w)))).
Proof.
  intros Ho.
  unfold detect_staged, try_finally, write_upload, utcnow. py_unfold.
  rewrite Ho.
  change (write_file path (FBytes b) w)
    with (Ok tt, snd (write_file path (FBytes b) w)).
  cbn beta iota.
  destruct (predict_voice librosa np sklearn path _) as [[[label conf]|e] w1];
    reflexivity.
Qed.

Lemma cleanup_file_lookup path (w : W) q :
  fs (cleanup_file path w) !! q
  = if bool_decide (q = path) then None else fs w !! q.
Proof.
  destruct (decide (q = path)) as [->|Hq];
    [rewrite bool_decide_eq_true_2 by done
    |rewrite bool_decide_eq_false_2 by done];
    unfold cleanup_file, os_remove.
  - destruct (bool_decide (is_Some (fs w !! path))) eqn:Hex; cbn.
    + apply lookup_delete_eq.
    + apply bool_decide_eq_false in Hex. by apply eq_None_not_Some.
  - destruct (bool_decide (is_Some (fs w !! path))) eqn:Hex; cbn.
    + by apply lookup_delete_ne.
    + reflexivity.
Qed.

(** X8.  A request that gets as far as being staged never leaves its upload
    behind: after [detect], whether it answered or raised, the temporary
    path is absent from the file system, and every path other than it and
    the two model artifacts holds what it held before. *)
Theorem detect_leaves_no_upload data key (w : W) (b : list byte) :
  gates_pass host data key ->
  base64_b64decode host (AudioRequest.audio_base64 data) = Ok b ->
  1024 <= len b <= 26214400 ->
  fs (snd (detect librosa np sklearn host data key w))
    !! staged_path host data w = None /\
  (forall q, q <> staged_path host data w ->
     q <> MODEL_PATH -> q <> SCALER_PATH ->
     fs (snd (detect librosa np sklearn host data key w)) !! q = fs w !! q).
Proof.
  intros Hg Hd Hlen.
  destruct (os_open_wb host (staged_path host data w)) as [[cls msg]|] eqn:Ho.
  - rewrite (detect_in_bounds_refused librosa np sklearn host _ _ _ b cls msg)
      by done.
    cbn [snd]. split.
    + rewrite cleanup_file_lookup. by rewrite bool_decide_eq_true_2.
    + intros q Hq Hm Hs. rewrite cleanup_file_lookup.
      by rewrite bool_decide_eq_false_2 by done.
  - rewrite (detect_in_bounds librosa np sklearn host _ _ _ b) by done.
    rewrite detect_staged_world by done. split.
    + rewrite cleanup_file_lookup. by rewrite bool_decide_eq_true_2.
    + intros q Hq Hm Hs. rewrite cleanup_file_lookup.
      rewrite bool_decide_eq_false_2 by done.
      rewrite predict_voice_frame by done.
      cbn. by rewrite lookup_insert_ne.
Qed.

(** X9.  The 400, 401 and 413 errors of [detect] are raised before anything
    is done: whenever [detect] raises one of them, the world is exactly as
    it was, with nothing staged, no uuid drawn and no call logged. *)
Theorem early_rejections_change_nothing data key (w : W) (code : Z) detail :
  fst (detect librosa np sklearn host data key w)
  = Raise (HTTPException code detail) ->
  code = 400 \/ code = 401 \/ code = 413 ->
  snd (detect librosa np sklearn host data key w) = w.
Proof.
  intros H Hcode.
  destruct (validate_api_key host key) eqn:Hk.
  2:{ by rewrite detect_unauthorized. }
  destruct (validate_language (AudioRequest.language data)) eqn:Hl.
  2:{ by rewrite detect_unsupported_language. }
  destruct (decide (AudioRequest.audio_base64 data = "")) as [He|He].
  { by rewrite detect_empty_payload. }
  assert (Hg : gates_pass host data key) by done.
  destruct (base64_b64decode host (AudioRequest.audio_base64 data))
    as [b|e] eqn:Hd.
  2:{ by rewrite (detect_bad_base64 librosa np sklearn host _ _ _ e). }
  destruct (Z_lt_le_dec (len b) 1024) as [Hlo|Hlo].
  { by rewrite (detect_too_small librosa np sklearn host _ _ _ b). }
  destruct (Z_lt_le_dec 26214400 (len b)) as [Hhi|Hhi].
  { rewrite (detect_too_large librosa np sklearn host _ _ _ b); [done..|lia]. }
  exfalso.
  destruct (detect_in_bounds_error librosa np sklearn host data key w b _
              Hg Hd (conj Hlo Hhi) H) as (code' & detail' & Heq & Hc).
  inversion Heq; subst. lia.
Qed.

(** X10.  Every response of [detect] is well formed: its status is
    "success", its classification is one of the two labels, the language it
    echoes is the lower-cased request language and one of the five
    supported names, and its message quotes the classification and the
    formatted confidence. *)
Theorem detect_response_well_formed data key (w : W) resp :
  fst (detect librosa np sklearn host data key w) = Ok resp ->
  DetectionResponse.status resp = "success" /\
  (DetectionResponse.classification resp = "AI_GENERATED"
   \/ DetectionResponse.classification resp = "HUMAN") /\
  DetectionResponse.language resp = lower (AudioRequest.language data) /\
  DetectionResponse.language resp ∈ SUPPORTED_LANGUAGES /\
  DetectionResponse.message resp
  = "Audio classified as " ++ DetectionResponse.classification resp
      ++ " with "
      ++ format_percent host (DetectionResponse.confidence_score resp)
      ++ "% confidence".
Proof.
  intros H.
  destruct (detect_ok_inv librosa np sklearn host _ _ _ _ H)
    as ((_ & Hl & _) & b & label & conf & w' & _ & _ & Hp & ->).
  destruct (predict_voice_ok_inv librosa np sklearn _ _ _ _ _ Hp)
    as (m & s & v & X & prediction & cs & probabilities & rows
        & _ & _ & _ & _ & _ & _ & _ & Hlabel).
  cbn. split; [reflexivity|]. split.
  - rewrite Hlabel. case_bool_decide; [by left|by right].
  - split; [reflexivity|]. split; [|reflexivity].
    unfold validate_language in Hl. by apply bool_decide_eq_true in Hl.
Qed.

(** X11.  Once a detection has answered, both artifacts are in place in the
    world it leaves, so no later prediction from that world trains again. *)
Theorem no_retraining_after_a_detection data key (w : W) resp :
  fst (detect librosa np sklearn host data key w) = Ok resp ->
  artifacts_exist (snd (detect librosa np sklearn host data key w)) /\
  forall path,
    calls EvTrain
      (added (snd (detect librosa np sklearn host data key w))
         (snd (predict_voice librosa np sklearn path
                 (snd (detect librosa np sklearn host data key w)))))
    = 0%nat.
Proof.
  intros H.
  assert (Hex : artifacts_exist (snd (detect librosa np sklearn host data key w))).
  { destruct (detect_ok_inv librosa np sklearn host _ _ _ _ H)
      as (Hg & b & label & conf & w' & Hd & Hlen & Hp & _).
    destruct (predict_voice_ok_inv librosa np sklearn _ _ _ _ _ Hp)
      as (m & s & v & X & prediction & cs & probabilities & rows
          & Hm & Hs & _).
    pose proof (detect_ok_created librosa np sklearn host _ _ _ _ H) as Ho.
    rewrite (detect_in_bounds librosa np sklearn host _ _ _ b) by done.
    rewrite detect_staged_world, Hp by done. cbn [snd].
    destruct (staged_path_not_artifact host data w) as [Hnm Hns].
    split; rewrite cleanup_file_lookup;
      rewrite bool_decide_eq_false_2 by done; eauto. }
  split; [exact Hex|]. intros path.
  destruct (predict_voice_added librosa np sklearn path
              (snd (detect librosa np sklearn host data key w)))
    as (l_init & l_rest & -> & Hinit & Hrest).
  destruct Hinit as [[_ ->]|[[Hno _]|[Hno _]]]; try contradiction.
  destruct Hrest as [[_ Hi]|[->|[->| ->]]]; [discriminate Hi|reflexivity..].
Qed.

(** X12.  The language is compared in lower case only: two requests with
    the same payload and format whose languages differ only in case get the
    same outcome in every respect, the echoed language included. *)
Theorem language_case_is_ignored (data1 data2 : AudioRequest.t) key (w : W) :
  AudioRequest.audio_base64 data1 = AudioRequest.audio_base64 data2 ->
  AudioRequest.audio_format data1 = AudioRequest.audio_format data2 ->
  lower (AudioRequest.language data1) = lower (AudioRequest.language data2) ->
  detect librosa np sklearn host data1 key w
  = detect librosa np sklearn host data2 key w.
Proof.
  intros Hb Hf Hl.
  assert (Hv : validate_language (AudioRequest.language data1)
               = validate_language (AudioRequest.language data2)).
  { unfold validate_language. by rewrite Hl. }
  destruct (validate_api_key host key) eqn:Hk.
  2:{ by rewrite !detect_unauthorized. }
  destruct (validate_language (AudioRequest.language data1)) eqn:Hl1.
  2:{ by rewrite !detect_unsupported_language. }
  destruct (decide (AudioRequest.audio_base64 data1 = "")) as [He|He].
  { rewrite !detect_empty_payload by congruence. done. }
  assert (Hg1 : gates_pass host data1 key) by done.
  assert (Hg2 : gates_pass host data2 key).
  { split; [done|]. split; [done|]. by rewrite <- Hb. }
  destruct (base64_b64decode host (AudioRequest.audio_base64 data1))
    as [b|e] eqn:Hd.
  2:{ rewrite (detect_bad_base64 librosa np sklearn host data1 _ _ e),
        (detect_bad_base64 librosa np sklearn host data2 _ _ e)
        by (done || by rewrite <- Hb). done. }
  assert (Hd2 : base64_b64decode host (AudioRequest.audio_base64 data2) = Ok b)
    by (by rewrite <- Hb).
  destruct (Z_lt_le_dec (len b) 1024) as [Hlo|Hlo].
  { rewrite (detect_too_small librosa np sklearn host data1 _ _ b),
      (detect_too_small librosa np sklearn host data2 _ _ b) by done. done. }
  destruct (Z_lt_le_dec 26214400 (len b)) as [Hhi|Hhi].
  { rewrite (detect_too_large librosa np sklearn host data1 _ _ b),
      (detect_too_large librosa np sklearn host data2 _ _ b)
      by (done || lia). done. }
  rewrite (detect_in_bounds_staged librosa np sklearn host data1 _ _ b),
    (detect_in_bounds_staged librosa np sklearn host data2 _ _ b) by done.
  replace (staged_path host data2 w) with (staged_path host data1 w)
    by (unfold staged_path; by rewrite Hf).
  unfold detect_staged, try_finally, utcnow. py_unfold. rewrite Hl.
  reflexivity.
Qed.

(** ** Feature extraction, continued *)

Lemma extract_features_try_lookup (path : string) (w1 w2 : W) :
  fs w1 !! path = fs w2 !! path ->
  fst (extract_features_try librosa np path w1)
  = fst (extract_features_try librosa np path w2).
Proof.
  intros H. unfold extract_features_try, load_audio, open_rb, row0. py_unfold.
  rewrite H. repeat (py_case; cbn; try reflexivity).
Qed.

(** X13.  Feature extraction reads one file and writes none: its outcome,
    vector or error, is the same in any two worlds that hold the same
    content at [path], whatever else they hold, and it leaves the file
    system as it found it. *)
Theorem extraction_reads_one_file path (w1 w2 : W) :
  fs w1 !! path = fs w2 !! path ->
  fst (extract_features librosa np path w1)
  = fst (extract_features librosa np path w2) /\
  fs (snd (extract_features librosa np path w1)) = fs w1.
Proof.
  intros H. rewrite !extract_features_unfold. cbn [fst snd].
  by rewrite (extract_features_try_lookup path w1 w2 H).
Qed.

(** X14.  The onset envelope is computed and then never used, but its
    computation is inside the [try]: when everything before it succeeds and
    [onset_strength] fails, extraction fails with that cause, whatever the
    chroma analysis would have given. *)
Theorem onset_failure_fails_extraction path (w : W) b y sr mfcc
    centroid rolloff bandwidth zcr cause :
  fs w !! path = Some (FBytes b) ->
  librosa_load librosa path b 16000 10 = Ok (y, sr) ->
  librosa_mfcc librosa y sr 20 = Ok mfcc ->
  librosa_spectral_centroid librosa y sr = Ok centroid ->
  librosa_spectral_rolloff librosa y sr = Ok rolloff ->
  librosa_spectral_bandwidth librosa y sr = Ok bandwidth ->
  librosa_zero_crossing_rate librosa y = Ok zcr ->
  centroid <> [] -> rolloff <> [] -> bandwidth <> [] -> zcr <> [] ->
  librosa_onset_strength librosa y sr = Raise cause ->
  fst (extract_features librosa np path w)
  = Raise (Exception ("Feature extraction failed: " ++ str cause)).
Proof.
  intros Hf Hl H1 H2 H3 H4 H5 N2 N3 N4 N5 H6.
  rewrite extract_features_unfold. cbn [fst].
  unfold extract_features_try, load_audio, open_rb, row0. py_unfold.
  rewrite Hf. cbn. rewrite Hl. cbn. rewrite H1. cbn.
  rewrite H2. destruct centroid; [done|]. cbn.
  rewrite H3. destruct rolloff; [done|]. cbn.
  rewrite H4. destruct bandwidth; [done|]. cbn.
  rewrite H5. destruct zcr; [done|]. cbn.
  rewrite H6. reflexivity.
Qed.

(** ** The upload's extension *)

Lemma split_on_nonempty sep s : split_on sep s <> [].
Proof.
  destruct s as [|c s]; cbn -[bool_decide]; [done|].
  case_bool_decide; [done|]. by destruct (split_on sep s).
Qed.

Lemma append_cons c (a b : string) : String c a ++ b = String c (a ++ b).
Proof. reflexivity. Qed.

Lemma append_empty (b : string) : "" ++ b = b.
Proof. reflexivity. Qed.

Lemma split_on_app sep a b :
  split_on sep (a ++ String sep b) = (split_on sep a ++ split_on sep b)%list.
Proof.
  induction a as [|c a IH];
    rewrite ?append_cons, ?append_empty; cbn -[bool_decide].
  - by rewrite bool_decide_eq_true_2.
  - case_bool_decide; rewrite IH; [done|].
    pose proof (split_on_nonempty sep a).
    by destruct (split_on sep a).
Qed.

Lemma split_on_none sep s :
  contains_char sep s = false -> split_on sep s = [s].
Proof.
  induction s as [|c s IH]; cbn -[bool_decide]; [done|].
  case_bool_decide; [done|]. intros Hs. by rewrite IH.
Qed.

Lemma split_on_pieces sep s :
  Forall (fun p => contains_char sep p = false) (split_on sep s).
Proof.
  induction s as [|c s IH]; cbn -[bool_decide].
  - by constructor.
  - case_bool_decide as Hc; [by constructor|].
    pose proof (split_on_nonempty sep s).
    destruct (split_on sep s) as [|p ps]; [done|].
    inversion IH; subst. constructor; [|done].
    cbn -[bool_decide]. by rewrite bool_decide_eq_false_2.
Qed.

Lemma last_app_nonempty {A} (l1 l2 : list A) d :
  l2 <> [] -> List.last (l1 ++ l2) d = List.last l2 d.
Proof.
  intros H. induction l1 as [|x l1 IH]; [done|].
  cbn [app]. cbn [List.last].
  destruct (l1 ++ l2)%list eqn:E; [|exact IH].
  apply app_eq_nil in E. by destruct E.
Qed.

Lemma last_Forall {A} (P : A -> Prop) (l : list A) d :
  l <> [] -> Forall P l -> P (List.last l d).
Proof.
  intros Hn H. induction H as [|x l Hx H IH]; [done|].
  destruct l; [exact Hx|]. by apply IH.
Qed.

Lemma contains_char_app sep a b :
  contains_char sep (a ++ String sep b) = true.
Proof.
  induction a as [|c a IH];
    rewrite ?append_cons, ?append_empty; cbn -[bool_decide].
  - by rewrite bool_decide_eq_true_2.
  - by case_bool_decide.
Qed.

(** X15.  The extension [/predict] gives the staged upload never contains
    a dot; it is "wav" for a file name without a dot, and otherwise what
    follows the last dot of the name, whatever characters that is made
    of and even when it is empty. *)
Theorem upload_extension (name : string) :
  contains_char "." (file_ext_of name) = false /\
  (contains_char "." name = false -> file_ext_of name = "wav") /\
  (forall stem ext,
     name = stem ++ "." ++ ext -> contains_char "." ext = false ->
     file_ext_of name = ext).
Proof.
  unfold file_ext_of. split; [|split].
  - destruct (contains_char "." name); [|reflexivity].
    apply (last_Forall (fun p => contains_char "." p = false)).
    + apply split_on_nonempty.
    + apply split_on_pieces.
  - by intros ->.
  - intros stem ext -> Hext.
    change (stem ++ "." ++ ext) with (stem ++ String "." ext).
    rewrite contains_char_app, split_on_app.
    rewrite last_app_nonempty by apply split_on_nonempty.
    by rewrite split_on_none.
Qed.

(** ** [/predict] *)

(** [/predict] once the upload is created. *)
Lemma predict_voice_api_staged file name (w : W) :
  UploadFile.filename file = Some name ->
  os_open_wb host (upload_path host name w) = None ->
  predict_voice_api librosa np sklearn host py_round file (API_KEY host) w
  = (match fst (predict_voice librosa np sklearn (upload_path host name w)
                  (snd (write_file (upload_path host name w)
                          (FBytes (UploadFile.content file)) (after_uuid w))))
     with
     | Ok (label, confidence) =>
         Ok (PredictResponse.Build label (py_round confidence 3))
     | Raise e =>
         Raise (HTTPException 500 ("Error processing file: " ++ str e))
     end,
     cleanup_file (upload_path host name w)
       (snd (predict_voice librosa np sklearn (upload_path host name w)
               (snd (write_file (upload_path host name w)
                       (FBytes (UploadFile.content file)) (after_uuid w)))))).
Proof.
  intros Hn Ho.
  unfold predict_voice_api, verify_api_key, uuid4, try_except,
    remove_if_exists, write_upload. py_unfold.
  rewrite bool_decide_eq_false_2 by (intros H; by apply H).
  py_unfold. rewrite Hn. cbn beta iota.
  fold (after_uuid w). fold (upload_path host name w).
  set (path := upload_path host name w) in *. rewrite Ho.
  change (write_file path (FBytes (UploadFile.content file)) (after_uuid w))
    with (Ok tt, snd (write_file path (FBytes (UploadFile.content file))
                        (after_uuid w))).
  cbn beta iota.
  destruct (predict_voice librosa np sklearn path _) as [[[label conf]|e] w1];
    reflexivity.
Qed.

(** [/predict] when [open] refuses the path. *)
Lemma predict_voice_api_refused file name (w : W) cls msg :
  UploadFile.filename file = Some name ->
  os_open_wb host (upload_path host name w) = Some (cls, msg) ->
  predict_voice_api librosa np sklearn host py_round file (API_KEY host) w
  = (Raise (HTTPException 500 ("Error processing file: " ++ msg)),
     cleanup_file (upload_path host name w) (after_uuid w)).
Proof.
  intros Hn Ho.
  unfold predict_voice_api, verify_api_key, uuid4, try_except,
    remove_if_exists, write_upload. py_unfold.
  rewrite bool_decide_eq_false_2 by (intros H; by apply H).
  py_unfold. rewrite Hn. cbn beta iota.
  fold (after_uuid w). fold (upload_path host name w).
  rewrite Ho. reflexivity.
Qed.

(** Removing a file that was in the way is all a refused upload logs. *)
Lemma refused_upload_added path (w : W) :
  calls (EvPredictVoice path) (added w (cleanup_file path (after_uuid w)))
  = 0%nat.
Proof.
  unfold cleanup_file, os_remove.
  destruct (bool_decide (is_Some (fs (after_uuid w) !! path))).
  - erewrite (added_app w (World _ _ _ _) [EvRemove _]) by reflexivity.
    unfold calls. cbn. by rewrite decide_False.
  - by rewrite (added_app w (after_uuid w) []) by (cbn; by rewrite app_nil_r).
Qed.

(** X16.  [/predict] with the configured key and a named upload stages the
    content as it is, of any size, under [temp_audio/<uuid>.<extension>].
    When that file is created the upload is classified: a classification
    is answered with its confidence rounded to three places, and any
    failure with a 500 that quotes the cause.  When [open] refuses the
    path, the answer is a 500 that quotes the message of [open], and
    [predict_voice] is not called.  In every case the staged path holds no
    file when the call ends. *)
Theorem predict_api_outcome file name (w : W) :
  UploadFile.filename file = Some name ->
  (os_open_wb host (upload_path host name w) = None ->
   fst (predict_voice_api librosa np sklearn host py_round file
          (API_KEY host) w)
   = match fst (predict_voice librosa np sklearn (upload_path host name w)
                  (snd (write_file (upload_path host name w)
                          (FBytes (UploadFile.content file)) (after_uuid w))))
     with
     | Ok (label, confidence) =>
         Ok (PredictResponse.Build label (py_round confidence 3))
     | Raise e =>
         Raise (HTTPException 500 ("Error processing file: " ++ str e))
     end) /\
  (forall cls msg,
     os_open_wb host (upload_path host name w) = Some (cls, msg) ->
     fst (predict_voice_api librosa np sklearn host py_round file
            (API_KEY host) w)
     = Raise (HTTPException 500 ("Error processing file: " ++ msg)) /\
     calls (EvPredictVoice (upload_path host name w))
       (added w (snd (predict_voice_api librosa np sklearn host py_round file
                        (API_KEY host) w))) = 0%nat) /\
  fs (snd (predict_voice_api librosa np sklearn host py_round file
             (API_KEY host) w))
    !! upload_path host name w = None.
Proof.
  intros Hn. split; [|split].
  - intros Ho. by rewrite (predict_voice_api_staged file name w Hn Ho).
  - intros cls msg Ho.
    rewrite (predict_voice_api_refused file name w cls msg Hn Ho).
    split; [reflexivity|]. apply refused_upload_added.
  - destruct (os_open_wb host (upload_path host name w)) as [[cls msg]|] eqn:Ho.
    + rewrite (predict_voice_api_refused file name w cls msg Hn Ho). cbn [snd].
      rewrite cleanup_file_lookup. by rewrite bool_decide_eq_true_2.
    + rewrite (predict_voice_api_staged file name w Hn Ho). cbn [snd].
      rewrite cleanup_file_lookup. by rewrite bool_decide_eq_true_2.
Qed.

(** ** The two key checks *)

(** X17.  The two key checks differ on the empty key.  When the configured
    key is empty, the JSON endpoints can not be reached with any header,
    present or not: [/detect], [/stats] and [/supported-languages] answer
    401 to every request, while [/predict] lets the empty key through. *)
Theorem empty_key_locks_the_json_endpoints data (key : option string)
    file (w : W) :
  API_KEY host = "" ->
  fst (detect librosa np sklearn host data key w)
  = Raise (HTTPException 401 "Invalid or missing API key") /\
  fst (get_stats host key w) = Raise (HTTPException 401 "Invalid API key") /\
  fst (get_supported_languages host key w)
  = Raise (HTTPException 401 "Invalid API key") /\
  forall detail,
    fst (predict_voice_api librosa np sklearn host py_round file "" w)
    <> Raise (HTTPException 401 detail).
Proof.
  intros Hk.
  assert (Hv : validate_api_key host key = false).
  { unfold validate_api_key. destruct key as [k|]; [|done].
    case_bool_decide; [done|]. rewrite Hk. by apply bool_decide_eq_false_2. }
  split; [by rewrite detect_unauthorized|].
  unfold get_stats, get_supported_languages. rewrite Hv. cbn.
  split; [done|]. split; [done|].
  intros detail.
  unfold predict_voice_api, verify_api_key, uuid4, try_except,
    remove_if_exists, write_upload. py_unfold.
  rewrite bool_decide_eq_false_2 by (intros H; by apply H).
  py_unfold. destruct (UploadFile.filename file) as [name|]; [|done].
  cbn beta iota.
  destruct (os_open_wb host _) as [[cls msg]|]; [done|].
  match goal with
  | |- context [write_file ?p ?c ?w0] =>
      change (write_file p c w0) with (Ok tt, snd (write_file p c w0))
  end.
  cbn beta iota.
  destruct (predict_voice librosa np sklearn _ _) as [[[label conf]|e] w1];
    cbn; done.
Qed.

(** X18.  What [/stats] reports is what [/detect] enforces, for the
    languages and for the size limit: a language passes [detect]'s check
    exactly when its lower case is in the reported list, and a decoded
    payload is refused as too large exactly when it is longer than the
    reported number of mebibytes. *)
Theorem stats_describe_detect key (w : W) r :
  fst (get_stats host key w) = Ok r ->
  (forall l,
     validate_language l = true
     <-> lower l ∈ StatsResponse.supported_languages r) /\
  (forall data b (w' : W),
     validate_language (AudioRequest.language data) = true ->
     AudioRequest.audio_base64 data <> "" ->
     base64_b64decode host (AudioRequest.audio_base64 data) = Ok b ->
     (len b > StatsResponse.max_file_size_mb r * 1024 * 1024
      <-> fst (detect librosa np sklearn host data key w')
          = Raise (HTTPException 413 "Audio file too large (max 25MB)"))).
Proof.
  unfold get_stats.
  destruct (validate_api_key host key) eqn:Hk; cbn; [|done].
  intros H. inversion H; subst; clear H. cbn. split.
  - intros l. unfold validate_language. apply bool_decide_eq_true.
  - intros data b w' Hl He Hd.
    assert (Hg : gates_pass host data key) by done.
    split.
    + intros Hlen.
      rewrite (detect_too_large librosa np sklearn host _ _ _ b); [done..|lia].
    + intros H.
      destruct (Z_lt_le_dec 26214400 (len b)) as [Hhi|Hhi]; [lia|].
      exfalso.
      destruct (Z_lt_le_dec (len b) 1024) as [Hlo|Hlo].
      { rewrite (detect_too_small librosa np sklearn host _ _ _ b) in H
          by done. discriminate H. }
      destruct (detect_in_bounds_error librosa np sklearn host data key w' b _
                  Hg Hd (conj Hlo Hhi) H) as (code' & detail' & Heq & Hc).
      inversion Heq; subst. lia.
Qed.

(** ** Feature importance *)

Lemma dict_set_fresh {V} k (v : V) (d : list (string * V)) :
  k ∉ map fst d -> dict_set k v d = (d ++ [(k, v)])%list.
Proof.
  induction d as [|[k' v'] d IH]; cbn -[bool_decide]; [done|].
  intros Hk. apply not_elem_of_cons in Hk as [Hne Hk].
  rewrite bool_decide_eq_false_2 by done. by rewrite IH.
Qed.

Lemma py_dict_from {V} (l acc : list (string * V)) :
  NoDup (map fst (acc ++ l)) ->
  fold_left (fun d kv => dict_set (fst kv) (snd kv) d) l acc
  = (acc ++ l)%list.
Proof.
  revert acc. induction l as [|[k v] l IH]; intros acc Hnd; cbn [fold_left].
  - by rewrite app_nil_r.
  - cbn [fst snd]. rewrite dict_set_fresh.
    + rewrite IH; rewrite <- app_assoc; [done|exact Hnd].
    + rewrite map_app in Hnd. apply NoDup_app in Hnd as (_ & Hd & _).
      intros Hin. apply (Hd k Hin). cbn. by left.
Qed.

(** A list of items with distinct keys is its own dictionary. *)
Lemma py_dict_distinct {V} (l : list (string * V)) :
  NoDup (map fst l) -> py_dict l = l.
Proof. intros H. unfold py_dict. by rewrite py_dict_from. Qed.

Lemma insert_desc_perm x l : insert_desc x l ≡ₚ x :: l.
Proof.
  induction l as [|y l IH]; cbn; [done|].
  destruct (Qclt_le_dec (snd x) (snd y)); [|done].
  rewrite IH. apply Permutation_swap.
Qed.

Lemma sorted_desc_perm l : sorted_desc l ≡ₚ l.
Proof.
  induction l as [|x l IH]; cbn; [done|].
  rewrite insert_desc_perm. by rewrite IH.
Qed.

Lemma insert_desc_descending x l :
  descending l -> descending (insert_desc x l).
Proof.
  unfold descending.
  induction l as [|y l IH]; cbn; intros Hs.
  - repeat constructor.
  - destruct (Qclt_le_dec (snd x) (snd y)) as [Hlt|Hle].
    + apply Sorted_inv in Hs as [Hs Hhd]. constructor; [by apply IH|].
      destruct l as [|z l]; cbn.
      * constructor. by apply Qclt_le_weak.
      * destruct (Qclt_le_dec (snd x) (snd z)).
        -- constructor. by inversion Hhd.
        -- constructor. by apply Qclt_le_weak.
    + constructor; [exact Hs|]. by constructor.
Qed.

Lemma sorted_desc_descending l : descending (sorted_desc l).
Proof.
  induction l as [|x l IH]; cbn.
  - constructor.
  - by apply insert_desc_descending.
Qed.

Lemma feature_names_distinct : NoDup feature_names.
Proof. apply (bool_decide_unpack _). vm_compute. reflexivity. Qed.

Lemma zip_keys_distinct {V} (names : list string) (values : list V) :
  NoDup names -> NoDup (map fst (zip names values)).
Proof.
  intros Hnd. revert values.
  induction Hnd as [|k names Hk Hnd IH]; intros [|v values]; cbn;
    try constructor; [|by apply IH].
  intros Hin. apply Hk.
  apply list_elem_of_fmap in Hin as ([k' v'] & -> & Hin).
  by apply elem_of_zip_l in Hin.
Qed.

(** What [get_feature_importance] computes from a forest. *)
Lemma feature_importance_items (values : list Qc) :
  py_dict (sorted_desc (py_dict (zip feature_names values)))
  = sorted_desc (zip feature_names values).
Proof.
  pose proof (zip_keys_distinct feature_names values feature_names_distinct)
    as Hnd.
  rewrite (py_dict_distinct (zip feature_names values)) by exact Hnd.
  apply py_dict_distinct.
  eapply NoDup_Permutation_proper; [|exact Hnd].
  apply Permutation_map, sorted_desc_perm.
Qed.

Lemma get_feature_importance_unfold (w : W) :
  get_feature_importance sklearn forest_feature_importances w
  = (match fst (load_model sklearn w) with
     | Ok (PyModel m, _) =>
         Ok (sorted_desc (zip feature_names (forest_feature_importances m)))
     | Ok (PyScaler _, _) =>
         Raise (Exception
           ("Could not get feature importance: "
              ++ "'StandardScaler' object has no attribute 'feature_importances_'"))
     | Raise e =>
         Raise (Exception ("Could not get feature importance: " ++ str e))
     end, snd (emit EvLoadModel w)).
Proof.
  unfold get_feature_importance, try_except, get_importances. py_unfold.
  rewrite load_model_unfold. cbn [fst snd].
  destruct (fs w !! MODEL_PATH) as [[b|[m|s]]|];
    cbn -[py_dict sorted_desc feature_names]; try reflexivity;
    destruct (fs w !! SCALER_PATH) as [[b'|so]|];
    cbn -[py_dict sorted_desc feature_names]; try reflexivity.
  by rewrite feature_importance_items.
Qed.

(** X19.  A returned feature importance has one item for each named
    feature the forest scores, with that feature's score: it is a
    rearrangement of the names zipped with the scores, in non-increasing
    order of score.  It is returned only when the classifier file holds a
    forest. *)
Theorem feature_importance_ranked (w : W) d :
  fst (get_feature_importance sklearn forest_feature_importances w) = Ok d ->
  exists m,
    fs w !! MODEL_PATH = Some (FPickle (PyModel m)) /\
    d ≡ₚ zip feature_names (forest_feature_importances m) /\
    descending d.
Proof.
  rewrite get_feature_importance_unfold, load_model_unfold. cbn [fst].
  destruct (fs w !! MODEL_PATH) as [[b|[m|s]]|]; try (intros H; discriminate H);
    destruct (fs w !! SCALER_PATH) as [[b'|so]|];
    try (intros H; discriminate H).
  intros H. exists m. split; [reflexivity|].
  inversion H as [Hd]. clear H Hd. split.
  - apply sorted_desc_perm.
  - apply sorted_desc_descending.
Qed.

(** X20.  Unlike [predict_voice], [get_feature_importance] never
    bootstraps: without the artifacts it fails, quoting the "Model files
    not found" message of [load_model], and in every case it leaves the
    file system unchanged and trains nothing. *)
Theorem feature_importance_never_trains (w : W) :
  (~ artifacts_exist w ->
   (forall b, fs w !! MODEL_PATH <> Some (FBytes b)) ->
   fst (get_feature_importance sklearn forest_feature_importances w)
   = Raise (Exception
       "Could not get feature importance: Model files not found. Please train the model first using train_model() or run initialize_model() to create an initial model.")) /\
  fs (snd (get_feature_importance sklearn forest_feature_importances w))
  = fs w /\
  added w (snd (get_feature_importance sklearn forest_feature_importances w))
  = [EvLoadModel].
Proof.
  rewrite get_feature_importance_unfold, load_model_unfold. cbn [fst snd].
  split; [|split].
  - intros Hno Hb.
    destruct (fs w !! MODEL_PATH) as [[b|mo]|] eqn:Hm; [by destruct (Hb b)| |done].
    destruct (fs w !! SCALER_PATH) as [[b'|so]|] eqn:Hs.
    + destruct Hno. split; eexists; eassumption.
    + destruct Hno. split; eexists; eassumption.
    + by destruct mo.
  - reflexivity.
  - apply (added_app w). reflexivity.
Qed.

(** ** The two classifying endpoints side by side *)

Lemma detect_staged_fst data b path (w : W) :
  os_open_wb host path = None ->
  fst (detect_staged librosa np sklearn host data b path w)
  = match fst (predict_voice librosa np sklearn path
                 (snd (write_file path (FBytes b) w))) with
    | Ok (label, confidence) =>
        Ok (DetectionResponse.Build "success" label confidence
              (lower (AudioRequest.language data))
              (utcnow_isoformat host
                 (clock (snd (predict_voice librosa np sklearn path
                                (snd (write_file path (FBytes b) w))))))
              ("Audio classified as " ++ label ++ " with "
                 ++ format_percent host confidence ++ "% confidence"))
    | Raise e =>
        Raise (HTTPException 422 ("Audio processing failed: " ++ str e))
    end.
Proof.
  intros Ho.
  unfold detect_staged, try_finally, write_upload, utcnow. py_unfold.
  rewrite Ho.
  change (write_file path (FBytes b) w)
    with (Ok tt, snd (write_file path (FBytes b) w)).
  cbn beta iota.
  destruct (predict_voice librosa np sklearn path _) as [[[label conf]|e] w1];
    reflexivity.
Qed.

(** X21.  [/detect] and [/predict] reach the same verdict.  Given the same
    bytes, within [/detect]'s size bounds, and the same extension for the
    staged file, there are three outcomes: both classify, with the same
    label and [/predict] reporting [/detect]'s confidence rounded to three
    places; or both fail on the same cause, [/detect] with a 422 and
    [/predict] with a 500; or [open] refuses the common path, and both
    answer 500 quoting its message. *)
Theorem endpoints_classify_alike data key file name (w : W) :
  gates_pass host data key ->
  base64_b64decode host (AudioRequest.audio_base64 data)
  = Ok (UploadFile.content file) ->
  1024 <= len (UploadFile.content file) <= 26214400 ->
  UploadFile.filename file = Some name ->
  file_ext_of name = AudioRequest.audio_format data ->
  (exists resp r,
     fst (detect librosa np sklearn host data key w) = Ok resp /\
     fst (predict_voice_api librosa np sklearn host py_round file
            (API_KEY host) w) = Ok r /\
     PredictResponse.label r = DetectionResponse.classification resp /\
     PredictResponse.confidence r
     = py_round (DetectionResponse.confidence_score resp) 3)
  \/ (exists cause,
        fst (detect librosa np sklearn host data key w)
        = Raise (HTTPException 422 ("Audio processing failed: " ++ cause)) /\
        fst (predict_voice_api librosa np sklearn host py_round file
               (API_KEY host) w)
        = Raise (HTTPException 500 ("Error processing file: " ++ cause)))
  \/ (exists cls msg,
        os_open_wb host (staged_path host data w) = Some (cls, msg) /\
        fst (detect librosa np sklearn host data key w)
        = Raise (HTTPException 500 ("Internal server error: " ++ msg)) /\
        fst (predict_voice_api librosa np sklearn host py_round file
               (API_KEY host) w)
        = Raise (HTTPException 500 ("Error processing file: " ++ msg))).
Proof.
  intros Hg Hd Hlen Hn Hext.
  assert (Hpath : upload_path host name w = staged_path host data w)
    by (unfold upload_path, staged_path, os_path_join; by rewrite Hext).
  destruct (os_open_wb host (staged_path host data w)) as [[cls msg]|] eqn:Ho.
  - right. right. exists cls, msg. split; [reflexivity|].
    rewrite (detect_in_bounds_refused librosa np sklearn host _ _ _ _ cls msg
               Hg Hd Hlen Ho).
    rewrite <- Hpath in Ho.
    rewrite (predict_voice_api_refused file name w cls msg Hn Ho).
    split; reflexivity.
  - rewrite (detect_in_bounds librosa np sklearn host _ _ _ _ Hg Hd Hlen Ho).
    rewrite (detect_staged_fst _ _ _ _ Ho).
    rewrite <- Hpath in Ho.
    rewrite (predict_voice_api_staged file name w Hn Ho). cbn [fst].
    rewrite Hpath.
    destruct (predict_voice librosa np sklearn _ _) as [[[label conf]|e] w1];
      cbn [fst].
    + left. eexists _, _. split; [reflexivity|]. split; [reflexivity|].
      split; reflexivity.
    + right. left. exists (str e). split; reflexivity.
Qed.

(** ** Artifacts that are there but unreadable *)

(** X22.  An artifact that exists but is not a pickle is never repaired:
    the initializer only tests that both files exist, so the prediction
    fails at the one load, before any extraction, with nothing trained and
    the file system untouched. *)
Theorem corrupt_artifact_is_not_repaired path (w : W) b :
  artifacts_exist w ->
  fs w !! MODEL_PATH = Some (FBytes b) \/ fs w !! SCALER_PATH = Some (FBytes b) ->
  (exists cause,
     fst (predict_voice librosa np sklearn path w)
     = Raise (Exception ("Prediction failed: " ++ cause))) /\
  added w (snd (predict_voice librosa np sklearn path w))
  = [EvPredictVoice path; EvInitialize; EvLoadModel] /\
  fs (snd (predict_voice librosa np sklearn path w)) = fs w.
Proof.
  intros Hex Hb.
  set (w0 := snd (emit (EvPredictVoice path) w)).
  destruct (initialize_model_cases np sklearn w0) as [[_ Heq]|[Hno _]];
    [|by destruct Hno].
  unfold predict_voice, predict_voice_try. py_unfold.
  change (emit (EvPredictVoice path) w) with (Ok tt, w0).
  cbn beta iota. rewrite Heq. cbn beta iota.
  rewrite load_model_unfold.
  change (fs (snd (emit EvInitialize w0))) with (fs w).
  destruct Hex as [[mo Hm] [so Hs]].
  assert (Hlog : forall w' : W,
            log w' = (log w ++ [EvPredictVoice path; EvInitialize;
                                EvLoadModel])%list ->
            added w w' = [EvPredictVoice path; EvInitialize; EvLoadModel])
    by (intros w'; apply added_app).
  destruct Hb as [Hb|Hb].
  - rewrite Hb. cbn. split; [by eexists|]. split; [|reflexivity].
    apply Hlog. cbn. by rewrite <- !app_assoc.
  - rewrite Hm, Hb. destruct mo as [b'|o]; cbn.
    + split; [by eexists|]. split; [|reflexivity].
      apply Hlog. cbn. by rewrite <- !app_assoc.
    + split; [by eexists|]. split; [|reflexivity].
      apply Hlog. cbn. by rewrite <- !app_assoc.
Qed.

End MoreProperties.

(** ** The further properties at concrete inputs *)

Lemma bench_draws_length lo width n g :
  List.length (fst (Bench.draws lo width n g)) = n.
Proof.
  revert g. induction n as [|n IH]; intros g; cbn; [reflexivity|].
  specialize (IH (Bench.next g)).
  destruct (Bench.draws lo width n (Bench.next g)) as [l g2].
  cbn in *. by rewrite IH.
Qed.

Lemma bench_np_size_contract : np_size_contract Bench.numpy.
Proof. intros a b n g. split; apply bench_draws_length. Qed.

(** The synthetic set drawn with the stand-in generator. *)
Lemma synthetic_data_shape_witness :
  List.length (fst (create_synthetic_training_data Bench.numpy)) = 100%nat /\
  Forall (fun r => List.length r = 48%nat)
    (fst (create_synthetic_training_data Bench.numpy)) /\
  snd (create_synthetic_training_data Bench.numpy)
  = (repeat 1 50 ++ repeat 0 50)%list.
Proof.
  apply (synthetic_data_shape Bench.numpy bench_np_size_contract).
Defined.

(** A training on two samples, then a load. *)
Lemma train_then_load_witness :
  exists m s (w' : Bench.W),
    train_model Bench.sklearn [[1; 2]; [3; 4]] [1; 0] Bench.recording
    = (Ok (m, s), w') /\
    fst (load_model Bench.sklearn w') = Ok (PyModel m, PyScaler s) /\
    fs w' !! "rec.wav" = fs Bench.recording !! "rec.wav".
Proof.
  assert (Hrun : exists m s (w' : Bench.W),
            train_model Bench.sklearn [[1; 2]; [3; 4]] [1; 0] Bench.recording
            = (Ok (m, s), w')).
  { eexists _, _, _. vm_compute. reflexivity. }
  destruct Hrun as (m & s & w' & Hrun).
  destruct (train_then_load Bench.sklearn _ _ _ _ _ _ Hrun) as [Hload Hframe].
  exists m, s, w'. split; [exact Hrun|]. split; [exact Hload|].
  apply Hframe; discriminate.
Defined.

(** A training on no samples fails in the scaler. *)
Lemma failed_training_writes_nothing_witness :
  fs (snd (train_model Bench.sklearn [] [] Bench.recording))
  = fs Bench.recording /\
  added Bench.recording (snd (train_model Bench.sklearn [] [] Bench.recording))
  = [EvTrain].
Proof.
  apply (failed_training_writes_nothing Bench.sklearn [] [] Bench.recording
           (LibraryError "ValueError" "Found array with 0 sample(s)")).
  vm_compute. reflexivity.
Defined.

(** The bootstrap of a fresh process. *)
Lemma bootstrap_replaces_both_witness :
  exists s X' m,
    scaler_fit_transform Bench.sklearn
      (fst (create_synthetic_training_data Bench.numpy)) = Ok (s, X') /\
    forest_fit Bench.sklearn forest_hyperparameters X'
      (snd (create_synthetic_training_data Bench.numpy)) = Ok m /\
    fs BenchMore.ready
    = <[SCALER_PATH := FPickle (PyScaler s)]>
        (<[MODEL_PATH := FPickle (PyModel m)]> (fs Bench.fresh)).
Proof.
  apply (bootstrap_replaces_both Bench.numpy Bench.sklearn Bench.fresh
           BenchMore.ready).
  - intros [[x Hx] _]. vm_compute in Hx. discriminate Hx.
  - unfold BenchMore.ready.
    assert (Hrun : exists w1 : Bench.W,
              initialize_model Bench.numpy Bench.sklearn Bench.fresh
              = (Ok tt, w1)).
    { eexists. vm_compute. reflexivity. }
    destruct Hrun as (w1 & ->). reflexivity.
Defined.

(** The confidence reported for the recording is the larger of the two
    shares of votes. *)
Lemma confidence_is_the_maximum_witness :
  exists label conf (w' : Bench.W) (probabilities : list Qc),
    Bench.predict_voice "rec.wav" Bench.recording = (Ok (label, conf), w') /\
    conf ∈ probabilities /\
    forall p, p ∈ probabilities -> (p <= conf)%Qc.
Proof.
  assert (Hrun : exists label conf w',
            Bench.predict_voice "rec.wav" Bench.recording
            = (Ok (label, conf), w')).
  { eexists _, _, _. vm_compute. reflexivity. }
  destruct Hrun as (label & conf & w' & H1).
  destruct (confidence_is_the_maximum Bench.librosa Bench.numpy Bench.sklearn
              "rec.wav" Bench.recording w' label conf H1)
    as (m & X & probabilities & rows & _ & _ & Hin & Hmax).
  exists label, conf, w', probabilities.
  split; [exact H1|]. split; [exact Hin|exact Hmax].
Defined.

(** A request of 1024 bytes, in a world that holds the recording. *)
Lemma detect_leaves_no_upload_witness :
  fs (snd (detect Bench.librosa Bench.numpy Bench.sklearn Bench.host
             (Bench.request 339 "QQ==" "wav" "english") Bench.key
             Bench.recording))
    !! staged_path Bench.host (Bench.request 339 "QQ==" "wav" "english")
         Bench.recording = None /\
  fs (snd (detect Bench.librosa Bench.numpy Bench.sklearn Bench.host
             (Bench.request 339 "QQ==" "wav" "english") Bench.key
             Bench.recording)) !! "rec.wav"
  = fs Bench.recording !! "rec.wav".
Proof.
  assert (Hlen : len (Bench.payload 339 "QQ==") = 1024) by (vm_compute; reflexivity).
  destruct (detect_leaves_no_upload Bench.librosa Bench.numpy Bench.sklearn
              Bench.host (Bench.request 339 "QQ==" "wav" "english") Bench.key
              Bench.recording (Bench.payload 339 "QQ=="))
    as [Hgone Hframe].
  - bench_gates.
  - vm_compute; reflexivity.
  - rewrite Hlen; lia.
  - split; [exact Hgone|]. apply Hframe.
    + intros H. vm_compute in H. discriminate H.
    + discriminate.
    + discriminate.
Defined.

(** A request in a language that is not supported. *)
Lemma early_rejections_change_nothing_witness :
  snd (detect Bench.librosa Bench.numpy Bench.sklearn Bench.host
         (Bench.request 339 "QQ==" "wav" "klingon") Bench.key Bench.fresh)
  = Bench.fresh.
Proof.
  apply (early_rejections_change_nothing Bench.librosa Bench.numpy
           Bench.sklearn Bench.host (Bench.request 339 "QQ==" "wav" "klingon")
           Bench.key Bench.fresh 400
           "Unsupported language. Supported: tamil, english, hindi, malayalam, telugu").
  - vm_compute. reflexivity.
  - left. reflexivity.
Defined.

(** The response to a request that declares its language as [Tamil]. *)
Lemma detect_response_well_formed_witness :
  exists resp,
    fst (detect Bench.librosa Bench.numpy Bench.sklearn Bench.host
           (Bench.request 339 "QQ==" "wav" "Tamil") Bench.key Bench.fresh)
    = Ok resp /\
    DetectionResponse.status resp = "success" /\
    (DetectionResponse.classification resp = "AI_GENERATED"
     \/ DetectionResponse.classification resp = "HUMAN") /\
    DetectionResponse.language resp = "tamil".
Proof.
  assert (Hrun : exists resp,
            fst (detect Bench.librosa Bench.numpy Bench.sklearn Bench.host
                   (Bench.request 339 "QQ==" "wav" "Tamil") Bench.key
                   Bench.fresh) = Ok resp).
  { eexists. vm_compute. reflexivity. }
  destruct Hrun as (resp & Hrun).
  destruct (detect_response_well_formed Bench.librosa Bench.numpy
              Bench.sklearn Bench.host _ _ _ _ Hrun)
    as (Hs & Hc & Hl & _ & _).
  exists resp. split; [exact Hrun|]. split; [exact Hs|]. split; [exact Hc|].
  rewrite Hl. vm_compute. reflexivity.
Defined.

(** A first detection from a fresh process, then a prediction. *)
Lemma no_retraining_after_a_detection_witness :
  calls EvTrain
    (added Bench.fresh
       (snd (detect Bench.librosa Bench.numpy Bench.sklearn Bench.host
               (Bench.request 339 "QQ==" "wav" "english") Bench.key
               Bench.fresh))) = 1%nat /\
  calls EvTrain
    (added
       (snd (detect Bench.librosa Bench.numpy Bench.sklearn Bench.host
               (Bench.request 339 "QQ==" "wav" "english") Bench.key
               Bench.fresh))
       (snd (predict_voice Bench.librosa Bench.numpy Bench.sklearn "rec.wav"
               (snd (detect Bench.librosa Bench.numpy Bench.sklearn Bench.host
                       (Bench.request 339 "QQ==" "wav" "english") Bench.key
                       Bench.fresh))))) = 0%nat.
Proof.
  assert (Hrun : exists resp,
            fst (detect Bench.librosa Bench.numpy Bench.sklearn Bench.host
                   (Bench.request 339 "QQ==" "wav" "english") Bench.key
                   Bench.fresh) = Ok resp).
  { eexists. vm_compute. reflexivity. }
  destruct Hrun as (resp & Hrun).
  destruct (no_retraining_after_a_detection Bench.librosa Bench.numpy
              Bench.sklearn Bench.host _ _ _ _ Hrun) as [_ Hnone].
  split; [vm_compute; reflexivity|]. apply Hnone.
Defined.

(** The same upload declared as [english] and as [ENGLISH]. *)
Lemma language_case_is_ignored_witness :
  detect Bench.librosa Bench.numpy Bench.sklearn Bench.host
    (Bench.request 339 "QQ==" "wav" "english") Bench.key Bench.fresh
  = detect Bench.librosa Bench.numpy Bench.sklearn Bench.host
      (Bench.request 339 "QQ==" "wav" "ENGLISH") Bench.key Bench.fresh.
Proof.
  assert (Hl : lower (AudioRequest.language
                        (Bench.request 339 "QQ==" "wav" "english"))
               = lower (AudioRequest.language
                          (Bench.request 339 "QQ==" "wav" "ENGLISH")))
    by (vm_compute; reflexivity).
  pose proof (language_case_is_ignored Bench.librosa Bench.numpy Bench.sklearn
                Bench.host (Bench.request 339 "QQ==" "wav" "english")
                (Bench.request 339 "QQ==" "wav" "ENGLISH") Bench.key
                Bench.fresh eq_refl eq_refl Hl) as H.
  exact H.
Defined.

(** The recording alone, and beside two unreadable artifacts. *)
Lemma extraction_reads_one_file_witness :
  fst (extract_features Bench.librosa Bench.numpy "rec.wav" Bench.recording)
  = fst (extract_features Bench.librosa Bench.numpy "rec.wav"
           BenchMore.corrupted) /\
  fs (snd (extract_features Bench.librosa Bench.numpy "rec.wav"
             Bench.recording)) = fs Bench.recording.
Proof.
  apply (extraction_reads_one_file Bench.librosa Bench.numpy "rec.wav"
           Bench.recording BenchMore.corrupted).
  vm_compute. reflexivity.
Defined.

(** The recording, analysed by a librosa without onset detection. *)
Lemma onset_failure_fails_extraction_witness :
  fst (extract_features BenchMore.onsetless_librosa Bench.numpy "rec.wav"
         Bench.recording)
  = Raise (Exception "Feature extraction failed: onset detection failed").
Proof.
  eapply (onset_failure_fails_extraction BenchMore.onsetless_librosa
            Bench.numpy "rec.wav" Bench.recording _ _ _ _ _ _ _ _
            (LibraryError "ParameterError" "onset detection failed"));
    try (vm_compute; reflexivity); discriminate.
Defined.

(** The recording uploaded to [/predict] of a fresh process. *)
Lemma predict_api_outcome_witness :
  (exists r,
     fst (BenchMore.predict_voice_api BenchMore.upload (API_KEY Bench.host)
            Bench.fresh) = Ok r /\
     PredictResponse.label r = "HUMAN") /\
  fs (snd (BenchMore.predict_voice_api BenchMore.upload (API_KEY Bench.host)
             Bench.fresh))
    !! upload_path Bench.host "voice.sample.wav" Bench.fresh = None.
Proof.
  destruct (predict_api_outcome Bench.librosa Bench.numpy Bench.sklearn
              Bench.host BenchMore.round BenchMore.upload "voice.sample.wav"
              Bench.fresh eq_refl) as (_ & _ & Hgone).
  split; [|exact Hgone].
  eexists. split; [vm_compute; reflexivity|reflexivity].
Defined.

(** A host configured with the empty key, asked with the key that the
    default configuration accepts. *)
Lemma empty_key_locks_the_json_endpoints_witness :
  fst (detect Bench.librosa Bench.numpy Bench.sklearn BenchMore.keyless_host
         (Bench.request 339 "QQ==" "wav" "english") Bench.key Bench.fresh)
  = Raise (HTTPException 401 "Invalid or missing API key") /\
  fst (get_stats BenchMore.keyless_host Bench.key Bench.fresh)
  = Raise (HTTPException 401 "Invalid API key").
Proof.
  destruct (empty_key_locks_the_json_endpoints Bench.librosa Bench.numpy
              Bench.sklearn BenchMore.keyless_host BenchMore.round
              (Bench.request 339 "QQ==" "wav" "english") Bench.key
              BenchMore.upload Bench.fresh eq_refl)
    as (Hdetect & Hstats & _).
  split; [exact Hdetect|exact Hstats].
Defined.

(** What [/stats] reports to the holder of the key. *)
Lemma stats_describe_detect_witness :
  exists r,
    fst (get_stats Bench.host Bench.key Bench.fresh) = Ok r /\
    forall l,
      validate_language l = true
      <-> lower l ∈ StatsResponse.supported_languages r.
Proof.
  eexists. split; [vm_compute; reflexivity|].
  destruct (stats_describe_detect Bench.librosa Bench.numpy Bench.sklearn
              Bench.host Bench.key Bench.fresh _ eq_refl) as [Hl _].
  exact Hl.
Defined.

(** The importance of the features in the bootstrapped forest. *)
Lemma feature_importance_ranked_witness :
  exists d,
    fst (BenchMore.get_feature_importance BenchMore.ready) = Ok d /\
    descending d.
Proof.
  assert (Hrun : exists d,
            fst (BenchMore.get_feature_importance BenchMore.ready) = Ok d).
  { eexists. vm_compute. reflexivity. }
  destruct Hrun as (d & Hrun).
  destruct (feature_importance_ranked Bench.sklearn BenchMore.importances
              BenchMore.ready d Hrun) as (m & _ & _ & Hsorted).
  exists d. split; [exact Hrun|exact Hsorted].
Defined.

(** The same 1024 bytes sent to [/detect] and uploaded to [/predict]. *)
Lemma endpoints_classify_alike_witness :
  exists resp r,
    fst (detect Bench.librosa Bench.numpy Bench.sklearn Bench.host
           (Bench.request 339 "QQ==" "wav" "english") Bench.key Bench.fresh)
    = Ok resp /\
    fst (BenchMore.predict_voice_api BenchMore.clip (API_KEY Bench.host)
           Bench.fresh) = Ok r /\
    PredictResponse.label r = DetectionResponse.classification resp.
Proof.
  assert (Hlen : len (UploadFile.content BenchMore.clip) = 1024)
    by (vm_compute; reflexivity).
  assert (Hrun : exists resp,
            fst (detect Bench.librosa Bench.numpy Bench.sklearn Bench.host
                   (Bench.request 339 "QQ==" "wav" "english") Bench.key
                   Bench.fresh) = Ok resp).
  { eexists. vm_compute. reflexivity. }
  destruct Hrun as (resp0 & Hrun).
  destruct (endpoints_classify_alike Bench.librosa Bench.numpy Bench.sklearn
              Bench.host BenchMore.round
              (Bench.request 339 "QQ==" "wav" "english") Bench.key
              BenchMore.clip "clip.wav" Bench.fresh)
    as [(resp & r & Hd & Hp & Hl & _)|[(cause & Hd & _)|(cls & msg & _ & Hd & _)]].
  - bench_gates.
  - vm_compute; reflexivity.
  - rewrite Hlen; lia.
  - reflexivity.
  - vm_compute; reflexivity.
  - exists resp, r. split; [exact Hd|]. split; [exact Hp|exact Hl].
  - rewrite Hrun in Hd. discriminate Hd.
  - rewrite Hrun in Hd. discriminate Hd.
Defined.

(** A prediction beside two artifacts that are not pickles. *)
Lemma corrupt_artifact_is_not_repaired_witness :
  added BenchMore.corrupted
    (snd (Bench.predict_voice "rec.wav" BenchMore.corrupted))
  = [EvPredictVoice "rec.wav"; EvInitialize; EvLoadModel] /\
  fs (snd (Bench.predict_voice "rec.wav" BenchMore.corrupted))
  = fs BenchMore.corrupted.
Proof.
  destruct (corrupt_artifact_is_not_repaired Bench.librosa Bench.numpy
              Bench.sklearn "rec.wav" BenchMore.corrupted [])
    as (_ & Hadd & Hfs).
  - split; eexists; vm_compute; reflexivity.
  - left. vm_compute. reflexivity.
  - split; [exact Hadd|exact Hfs].
Defined.
